(** * Ecuador macro-data extractors: a shallow embedding and its properties

    The development follows the four scripts of the repository:
    - [ecuador_imf.py]       (module [IMF]),
    - [ecuador_worldbank.py] (module [WB]),
    - [ecuador_fred.py]      (module [FRED]),
    - [ecuador_run_all.py]   (module [RunAll]).

    Python values that come out of [r.json()] are values of type [json];
    Python's [None] and JSON's [null] are the same object and are both
    [JNull]; a JSON number is a rational (the scripts never compute with
    one, they test it against [None] and for truth).  Dictionaries whose
    iteration order the scripts rely on are insertion-ordered association
    lists (module [Dict]); dictionaries that are only looked up, and
    sets, are [gmap]s and [gset]s.  A string is held as its UTF-8 bytes,
    and is cut and measured by its characters.  The network,
    [time.sleep] and [print] are threaded through an explicit [world]; an
    exception that a script does not catch ends the computation with
    [Raise].  The recursion of the category crawler runs under the
    recursion limit of the interpreter, which is a parameter of it.

    Where a script declares the type of its data, the embedding follows
    the declaration: [all_data] is a [dict[str, dict[str, float]]] when
    the panels and the metadata are built, and the entries of the World
    Bank listing and of the FRED category answers are records with the
    fields the scripts read. *)

From stdpp Require Import gmap strings list sorting pretty.
From Stdlib Require Import ZArith QArith.

#[local] Set Warnings "-clear-no-such-hyp".

Local Close Scope Q_scope.
Local Close Scope Z_scope.
Local Open Scope string_scope.
Local Open Scope list_scope.

(** ** Python values and the dynamic operations the scripts apply to them *)

Module Py.

Unset Elimination Schemes.
Inductive json : Type :=
  | JNull
  | JBool (b : bool)
  | JNum (q : Q)
  | JStr (s : string)
  | JArr (l : list json)
  | JObj (m : gmap string json).
Set Elimination Schemes.

Inductive exn : Type :=
  | TypeError | AttributeError | KeyError | IndexError | ValueError.

Inductive res (A : Type) : Type :=
  | Ok (a : A)
  | Raise (e : exn).
Arguments Ok {A} a.
Arguments Raise {A} e.

Definition rbind {A B} (r : res A) (k : A → res B) : res B :=
  match r with Ok a => k a | Raise e => Raise e end.

(** [bool(x)] *)
Definition truthy (x : json) : bool :=
  match x with
  | JNull => false
  | JBool b => b
  | JNum q => negb (Qeq_bool q 0)
  | JStr s => negb (String.eqb s "")
  | JArr l => negb (Nat.eqb (length l) 0)
  | JObj m => negb (Nat.eqb (size m) 0)
  end.

(** [x is None] *)
Definition is_none (x : json) : bool :=
  match x with JNull => true | _ => false end.

(** A string is held as its UTF-8 bytes. A character begins at every
    byte that is not a continuation byte ([10xxxxxx]); [chars] cuts a
    string into its characters. *)
Definition is_continuation (c : Ascii.ascii) : bool :=
  (128 <=? Ascii.nat_of_ascii c)%nat && (Ascii.nat_of_ascii c <? 192)%nat.

Fixpoint chars (s : string) : list string :=
  match s with
  | EmptyString => []
  | String c s' =>
      match s' with
      | String c' _ =>
          if is_continuation c' then
            match chars s' with
            | g :: gs => String c g :: gs
            | [] => [String c EmptyString]
            end
          else String c EmptyString :: chars s'
      | EmptyString => [String c EmptyString]
      end
  end.

(** [s[:n]] for a string *)
Definition slice_to (n : nat) (s : string) : string :=
  String.concat "" (take n (chars s)).

Fixpoint is_substring (k s : string) : bool :=
  String.prefix k s
  || match s with
     | EmptyString => false
     | String _ s' => is_substring k s'
     end.

(** [k in x] for a string [k] *)
Definition contains (k : string) (x : json) : res bool :=
  match x with
  | JObj m => Ok (bool_decide (is_Some (m !! k)))
  | JArr l =>
      Ok (existsb (λ y, match y with JStr s => String.eqb s k | _ => false end) l)
  | JStr s => Ok (is_substring k s)
  | _ => Raise TypeError
  end.

(** [x[k]] for a string [k] *)
Definition getitem (x : json) (k : string) : res json :=
  match x with
  | JObj m => match m !! k with Some v => Ok v | None => Raise KeyError end
  | _ => Raise TypeError
  end.

(** [x[i]] for an integer [i >= 0] *)
Definition index (x : json) (i : nat) : res json :=
  match x with
  | JArr l => match l !! i with Some v => Ok v | None => Raise IndexError end
  | JStr s =>
      match chars s !! i with
      | Some c => Ok (JStr c)
      | None => Raise IndexError
      end
  | JObj _ => Raise KeyError
  | _ => Raise TypeError
  end.

(** [x.get(k, default)] *)
Definition get (x : json) (k : string) (default : json) : res json :=
  match x with
  | JObj m => Ok (match m !! k with Some v => v | None => default end)
  | _ => Raise AttributeError
  end.

(** [len(x)] *)
Definition len (x : json) : res nat :=
  match x with
  | JStr s => Ok (length (chars s))
  | JArr l => Ok (length l)
  | JObj m => Ok (size m)
  | _ => Raise TypeError
  end.

(** [for y in x]. The keys of an object come in the order of the map,
    which need not be the order in which the provider wrote them; the
    scripts iterate lists. *)
Definition iter (x : json) : res (list json) :=
  match x with
  | JArr l => Ok l
  | JObj m => Ok (JStr <$> (map_to_list m).*1)
  | JStr s => Ok (JStr <$> chars s)
  | _ => Raise TypeError
  end.

(** Equality of two hashable scalars as dictionary keys: [True == 1],
    numbers by value, strings by content. *)
Definition as_number (x : json) : option Q :=
  match x with
  | JBool b => Some (if b then 1%Q else 0%Q)
  | JNum q => Some q
  | _ => None
  end.

Definition key_eqb (x y : json) : bool :=
  match x, y with
  | JNull, JNull => true
  | JStr a, JStr b => String.eqb a b
  | _, _ =>
      match as_number x, as_number y with
      | Some p, Some q => Qeq_bool p q
      | _, _ => false
      end
  end.

Definition hashable (x : json) : bool :=
  match x with JArr _ | JObj _ => false | _ => true end.

(** [sorted(xs, key=...)]: Python's sort is stable, so its result is the
    one ascending arrangement that keeps equal keys in their input
    order; insertion from the right computes it. *)
Section sorted.
Context {A : Type} (key : A → string).

Fixpoint insert_sorted (x : A) (l : list A) : list A :=
  match l with
  | [] => [x]
  | y :: l' =>
      if String.leb (key x) (key y) then x :: y :: l'
      else y :: insert_sorted x l'
  end.

Definition sorted (l : list A) : list A := foldr insert_sorted [] l.
End sorted.

(** The newline that [print] appends. *)
Definition nl : string := String (Ascii.ascii_of_nat 10) EmptyString.

End Py.
Export Py.

(** ** Insertion-ordered dictionaries *)

Module Dict.
Section dict.
Context {K V : Type} (eqb : K → K → bool).

Fixpoint get (k : K) (d : list (K * V)) : option V :=
  match d with
  | [] => None
  | (k', v) :: d' => if eqb k' k then Some v else get k d'
  end.

(** [d[k] = v]: an existing key keeps its position (and its key
    object), a new key goes last. *)
Fixpoint setitem (k : K) (v : V) (d : list (K * V)) : list (K * V) :=
  match d with
  | [] => [(k, v)]
  | (k', v') :: d' =>
      if eqb k' k then (k', v) :: d' else (k', v') :: setitem k v d'
  end.

(** [d.update(src)] *)
Definition update (d src : list (K * V)) : list (K * V) :=
  fold_left (λ acc kv, setitem kv.1 kv.2 acc) src d.
End dict.

Definition keys {K V : Type} (d : list (K * V)) : list K := d.*1.
Definition values {K V : Type} (d : list (K * V)) : list V := d.*2.
End Dict.

(** ** The outside world: HTTP, the clock and the terminal *)

Module Net.

Record request : Type := Request { url : string; params : list (string * string) }.

(** What [requests.get(...)], [raise_for_status()] and [r.json()] come to
    together: an exception (with its text) or the parsed body. *)
Inductive http : Type :=
  | HttpError (e : string)
  | HttpOk (body : json).

Inductive event : Type :=
  | Requested (r : request)
  | Slept (seconds : Q)
  | Printed (text : string).

(** [net r n] is what the provider answers to request [r] when [n]
    requests have been served before it. *)
Record world : Type := World {
  net : request → nat → http;
  served : nat;
  trace : list event
}.

Definition http_get (r : request) (w : world) : http * world :=
  (net w r (served w),
   {| net := net w; served := S (served w); trace := trace w ++ [Requested r] |}).

Definition sleep (seconds : Q) (w : world) : world :=
  {| net := net w; served := served w; trace := trace w ++ [Slept seconds] |}.

(** [print(text, end=e)] *)
Definition print_end (text e : string) (w : world) : world :=
  {| net := net w; served := served w; trace := trace w ++ [Printed (text +:+ e)] |}.

Definition print (text : string) : world → world := print_end text nl.

Definition start (n : request → nat → http) : world :=
  {| net := n; served := 0; trace := [] |}.

(** Computations that may raise and that act on the world. *)
Definition M (A : Type) : Type := world → res A * world.

Definition ret {A} (a : A) : M A := λ w, (Ok a, w).
Definition raise {A} (e : exn) : M A := λ w, (Raise e, w).
Definition bind {A B} (m : M A) (k : A → M B) : M B :=
  λ w, match m w with
       | (Ok a, w') => k a w'
       | (Raise e, w') => (Raise e, w')
       end.
Definition pure {A} (r : res A) : M A := λ w, (r, w).
Definition act (f : world → world) : M unit := λ w, (Ok tt, f w).
Definition total {A} (f : world → A * world) : M A :=
  λ w, let '(a, w') := f w in (Ok a, w').

(** [for i, x in enumerate(xs, i0)], threading the loop's variables [s] *)
Fixpoint for_enumerate {A St : Type} (body : nat → A → St → M St)
    (i : nat) (xs : list A) (s : St) : M St :=
  match xs with
  | [] => ret s
  | x :: xs' => bind (body i x s) (for_enumerate body (S i) xs')
  end.

Definition slept (w : world) : list Q :=
  omap (λ e, match e with Slept s => Some s | _ => None end) (trace w).
Definition printed (w : world) : list string :=
  omap (λ e, match e with Printed s => Some s | _ => None end) (trace w).
Definition requested (w : world) : list request :=
  omap (λ e, match e with Requested r => Some r | _ => None end) (trace w).

End Net.
Export Net.

Notation "'do' x <- m ;; k" := (Net.bind m (λ x, k))
  (at level 10, x name, m at level 99, k at level 200).
Notation "'exec' m ;; k" := (Net.bind m (λ _, k))
  (at level 10, m at level 99, k at level 200).

(** ** ecuador_imf.py *)

Module IMF.

Definition BASE : string := "https://www.imf.org/external/datamapper/api/v1".
Definition COUNTRY : string := "ECU".

(** [get_json(url, retries)]: the body of the [for attempt in
    range(retries)] loop, with [todo] iterations left. Falling off the
    end of the loop returns [None]. *)
Fixpoint get_json_from (url : string) (retries attempt todo : nat)
    (w : world) : json * world :=
  match todo with
  | 0 => (JNull, w)
  | S todo' =>
      let '(r, w) := http_get (Request url []) w in
      match r with
      | HttpOk body => (body, w)
      | HttpError e =>
          if (attempt <? retries - 1)%nat
          then get_json_from url retries (S attempt) todo'
                 (sleep (inject_Z (2 ^ Z.of_nat attempt)%Z) w)
          else (JNull, print ("  FAILED: " +:+ e) w)
      end
  end.

Definition get_json (url : string) (retries : nat) (w : world) : json * world :=
  get_json_from url retries 0 retries w.

(** [fetch_indicator_data(code)] *)
Definition fetch_indicator_data (code : string) : M json :=
  do data <- total (get_json (BASE +:+ "/" +:+ code +:+ "/" +:+ COUNTRY) 3) ;;
  if negb (truthy data) then ret (JObj ∅)
  else
    do has_values <- pure (contains "values" data) ;;
    if negb has_values then ret (JObj ∅)
    else
      do values <- pure (getitem data "values") ;;
      do series <- pure (Py.get values code (JObj ∅)) ;;
      pure (Py.get series COUNTRY (JObj ∅)).

(** *** [main], lines 75-98: the download loop and its counters *)

Record tally : Type := Tally {
  all_data : gmap string json;
  success : nat;
  empty : nat;
  failed : nat
}.

Definition progress (i n : nat) (code label : string) : string :=
  "[" +:+ pretty i +:+ "/" +:+ pretty n +:+ "] " +:+ code +:+ ": " +:+ label +:+ "...".

(** [result and len(result) > 0] *)
Definition has_data (result : json) : res bool :=
  if truthy result then rbind (len result) (λ n, Ok (0 <? n)%nat) else Ok false.

Definition loop_body (n i : nat) (item : string * string) (t : tally) : M tally :=
  let '(code, label) := item in
  exec act (print_end (progress i n code label) " ") ;;
  do result <- fetch_indicator_data code ;;
  do ok <- pure (has_data result) ;;
  do t <- (if ok then
             do k <- pure (len result) ;;
             exec act (print ("OK (" +:+ pretty k +:+ " years)")) ;;
             ret (Tally (<[code := result]> (all_data t)) (S (success t)) (empty t) (failed t))
           else if negb (is_none result) then
             exec act (print "no data for ECU") ;;
             ret (Tally (all_data t) (success t) (S (empty t)) (failed t))
           else
             exec act (print "skipped") ;;
             ret (Tally (all_data t) (success t) (empty t) (S (failed t)))) ;;
  exec (if (i mod 8 =? 0)%nat then act (sleep 1.5%Q) else ret tt) ;;
  ret t.

Definition results_line (t : tally) : string :=
  nl +:+ "Results: " +:+ pretty (success t) +:+ " with data, "
     +:+ pretty (empty t) +:+ " empty, " +:+ pretty (failed t) +:+ " failed" +:+ nl.

(** [indicators] is the dict of [fetch_indicators()], as its items in
    insertion order. *)
Definition download_all (indicators : list (string * string)) : M tally :=
  do t <- for_enumerate (loop_body (length indicators)) 1
            (sorted snd indicators) (Tally ∅ 0 0 0) ;;
  exec act (print (results_line t)) ;;
  ret t.

(** *** [build_panel]

    From here on [all_data] has the type its annotation gives it, a
    dict of dicts keyed by strings ([dict[str, dict[str, float]]]); the
    values stay arbitrary [json], since [fetch_indicator_data] hands on
    what the provider sent. A row is an insertion-ordered dict. *)

Definition row : Type := list (string * json).

Definition all_years (all_data : gmap string (gmap string json)) : gset string :=
  map_fold (λ _ year_dict acc, acc ∪ dom year_dict) ∅ all_data.

(** [f"{label} [{code}]"] *)
Definition column (label code : string) : string :=
  label +:+ " [" +:+ code +:+ "]".

(** [value = all_data.get(code, {}).get(year)] *)
Definition value_at (all_data : gmap string (gmap string json))
    (code year : string) : json :=
  default JNull (default ∅ (all_data !! code) !! year).

(** [value if value is not None else ""] *)
Definition cell (value : json) : json :=
  if is_none value then JStr "" else value.

Definition build_row (all_data : gmap string (gmap string json))
    (indicators : list (string * string)) (year : string) : row :=
  fold_left
    (λ row item,
       let '(code, label) := item in
       Dict.setitem String.eqb (column label code) (cell (value_at all_data code year)) row)
    (sorted snd indicators)
    [("Year", JStr year)].

Definition build_panel (all_data : gmap string (gmap string json))
    (indicators : list (string * string)) : list row :=
  build_row all_data indicators <$> sorted id (elements (all_years all_data)).

(** *** [main], lines 101-123: what is kept, the CSV writer, the metadata *)

(** [{k: v for k, v in indicators.items() if k in all_data}] *)
Definition kept {V : Type} (indicators : list (string * string))
    (all_data : gmap string V) : list (string * string) :=
  filter (λ kv, is_Some (all_data !! kv.1)) indicators.

(** [csv.DictWriter(f, fieldnames).writerows(rows)]: a key of a row that
    is not among [fieldnames] raises [ValueError]; a field the row lacks
    is written as the empty string. *)
Definition unknown_fields (fieldnames : list string) (r : row) : list string :=
  filter (λ k, k ∉ fieldnames) (Dict.keys r).

Definition writerow (fieldnames : list string) (r : row) : res (list json) :=
  match unknown_fields fieldnames r with
  | [] => Ok ((λ k, default (JStr "") (Dict.get String.eqb k r)) <$> fieldnames)
  | _ :: _ => Raise ValueError
  end.

Fixpoint writerows (fieldnames : list string) (rows : list row) : res (list (list json)) :=
  match rows with
  | [] => Ok []
  | r :: rows' =>
      rbind (writerow fieldnames r) (λ line,
      rbind (writerows fieldnames rows') (λ lines, Ok (line :: lines)))
  end.

(** [if rows: fieldnames = rows[0].keys(); writeheader(); writerows(rows)];
    [None] stands for the branch that writes no file. *)
Definition write_panel (rows : list row) : res (option (list string * list (list json))) :=
  match rows with
  | [] => Ok None
  | first :: _ =>
      let fieldnames := Dict.keys first in
      rbind (writerows fieldnames rows) (λ lines, Ok (Some (fieldnames, lines)))
  end.

(** [f"{years[0]}-{years[-1]}" if years else ""] *)
Definition span (years : list string) : string :=
  match years with
  | [] => ""
  | first :: _ => first +:+ "-" +:+ List.last years first
  end.

Record metadata : Type := Metadata {
  m_code : string;
  m_label : string;
  years_available : string
}.

Definition metadata_row (all_data : gmap string (gmap string json))
    (item : string * string) : res metadata :=
  let '(code, label) := item in
  match all_data !! code with
  | None => Raise KeyError
  | Some year_dict =>
      let years := sorted id (elements (dom year_dict)) in
      Ok (Metadata code label (span years))
  end.

Fixpoint metadata_rows (all_data : gmap string (gmap string json))
    (items : list (string * string)) : res (list metadata) :=
  match items with
  | [] => Ok []
  | item :: items' =>
      rbind (metadata_row all_data item) (λ m,
      rbind (metadata_rows all_data items') (λ ms, Ok (m :: ms)))
  end.

Definition write_metadata (all_data : gmap string (gmap string json))
    (kept : list (string * string)) : res (list metadata) :=
  metadata_rows all_data (sorted snd kept).

(** *** [fetch_indicators]

    The dict it returns, as the map from a code to its label. (The order
    of its items, which [main] only uses to break ties between equal
    labels, is not kept.) *)

(** [meta.get("label") or code] *)
Definition label_or_code (code : string) (meta : json) : json :=
  match meta with
  | JObj m =>
      let label := default JNull (m !! "label") in
      if truthy label then label else JStr code
  | _ => JNull
  end.

Definition is_dict (x : json) : bool :=
  match x with JObj _ => true | _ => false end.

(** [{code: (meta.get("label") or code) for code, meta in raw.items()}]:
    [raw.items()] and every [meta.get] need a dict. *)
Definition labels_of (raw : json) : res (gmap string json) :=
  match raw with
  | JObj m =>
      if decide (map_Forall (λ _ meta, is_dict meta = true) m)
      then Ok (map_imap (λ code meta, Some (label_or_code code meta)) m)
      else Raise AttributeError
  | _ => Raise AttributeError
  end.

Definition fetch_indicators : M (gmap string json) :=
  do data <- total (get_json (BASE +:+ "/indicators") 3) ;;
  if negb (truthy data) then ret ∅
  else
    do raw <- pure (Py.get data "indicators" (JObj ∅)) ;;
    pure (labels_of raw).

End IMF.

(** ** ecuador_worldbank.py *)

Module WB.

Definition API_BASE : string := "https://api.worldbank.org/v2".
Definition COUNTRY : string := "ECU".

Definition is_two_element_list (data : json) : bool :=
  match data with
  | JArr l => Nat.eqb (length l) 2
  | _ => false
  end.

Fixpoint get_json_from (r : request) (retries attempt todo : nat)
    (w : world) : json * world :=
  match todo with
  | 0 => (JNull, w)
  | S todo' =>
      let '(a, w) := http_get r w in
      match a with
      | HttpOk data =>
          if is_two_element_list data then (data, w) else (JNull, w)
      | HttpError e =>
          if (attempt <? retries - 1)%nat
          then get_json_from r retries (S attempt) todo'
                 (sleep (inject_Z (2 ^ Z.of_nat attempt)%Z) w)
          else (JNull, print ("  FAILED: " +:+ e) w)
      end
  end.

(** [get_json(url, params, retries)]; [params] is [None] or a dict whose
    values are already written as they go on the query string. *)
Definition get_json (url : string) (params : option (list (string * string)))
    (retries : nat) (w : world) : json * world :=
  let base_params := [("format", "json"); ("per_page", "10000")] in
  let base_params :=
    match params with
    | Some (p :: ps) => Dict.update String.eqb base_params (p :: ps)
    | _ => base_params
    end in
  get_json_from (Request url base_params) retries 0 retries w.

(** [fetch_indicator_data(indicator_id)]. The dict it builds is keyed by
    whatever truthy, hashable [date] the records carry. *)
Definition add_record (result : list (json * json)) (record : json)
    : res (list (json * json)) :=
  rbind (Py.get record "date" JNull) (λ year,
  rbind (Py.get record "value" JNull) (λ value,
    if truthy year && negb (is_none value) then
      if hashable year then Ok (Dict.setitem key_eqb year value result)
      else Raise TypeError
    else Ok result)).

Fixpoint add_records (result : list (json * json)) (records : list json)
    : res (list (json * json)) :=
  match records with
  | [] => Ok result
  | record :: records' =>
      rbind (add_record result record) (λ result', add_records result' records')
  end.

Definition fetch_indicator_data (indicator_id : string) : M (list (json * json)) :=
  do resp <- total (get_json
               (API_BASE +:+ "/country/" +:+ COUNTRY +:+ "/indicator/" +:+ indicator_id)
               None 3) ;;
  if negb (truthy resp) then ret []
  else
    do records <- pure (index resp 1) ;;
    if negb (truthy records) then ret []
    else
      do records <- pure (iter records) ;;
      pure (add_records [] records).

(** *** [main], lines 80-115: the download loop and its counters *)

(** An entry of the indicator listing, by the keys [main] reads; a key
    the entry lacks is [None], and [topics] holds each topic's
    ["value"] ([""] when it has none). *)
Record indicator : Type := Indicator {
  ind_id : string;
  ind_name : option string;
  ind_sourceOrganization : option string;
  ind_topics : list string
}.

Record info : Type := Info {
  i_code : string;
  i_name : string;
  i_source_org : string;
  i_topics : string
}.

Record tally : Type := Tally {
  all_data : gmap string (list (json * json));
  indicator_info : gmap string info;
  success : nat;
  empty : nat;
  failed : nat
}.

Definition progress (i n : nat) (code name : string) : string :=
  "[" +:+ pretty i +:+ "/" +:+ pretty n +:+ "] " +:+ code +:+ ": "
      +:+ slice_to 60 name +:+ "...".

Definition loop_body (n i : nat) (ind : indicator) (t : tally) : M tally :=
  let code := ind_id ind in
  let name := default code (ind_name ind) in
  let source_org := default "" (ind_sourceOrganization ind) in
  let topics := String.concat ", " (filter (λ v, v ≠ "") (ind_topics ind)) in
  exec act (print_end (progress i n code name) " ") ;;
  do result <- fetch_indicator_data code ;;
  do t <- (match result with
           | _ :: _ =>
               exec act (print ("OK (" +:+ pretty (length result) +:+ " years)")) ;;
               ret (Tally (<[code := result]> (all_data t))
                          (<[code := Info code name source_org topics]> (indicator_info t))
                          (S (success t)) (empty t) (failed t))
           | [] =>
               exec act (print "no data") ;;
               ret (Tally (all_data t) (indicator_info t)
                          (success t) (S (empty t)) (failed t))
           end) ;;
  exec act (sleep (if (i mod 15 =? 0)%nat then 1.0%Q else 0.15%Q)) ;;
  ret t.

Definition results_line (t : tally) : string :=
  nl +:+ "Results: " +:+ pretty (success t) +:+ " with data, "
     +:+ pretty (empty t) +:+ " empty, " +:+ pretty (failed t) +:+ " failed" +:+ nl.

Definition download_all (all_indicators : list indicator) : M tally :=
  do t <- for_enumerate (loop_body (length all_indicators)) 1
            all_indicators (Tally ∅ ∅ 0 0 0) ;;
  exec act (print (results_line t)) ;;
  ret t.

(** *** [main], lines 117-129: the wide table

    As in [IMF], [all_data] is typed by its annotation from here on. *)

Definition row : Type := list (string * json).

Definition all_years (all_data : gmap string (gmap string json)) : gset string :=
  map_fold (λ _ year_dict acc, acc ∪ dom year_dict) ∅ all_data.

(** [f"{indicator_info[code]['name']} [{code}]"] *)
Definition column (name code : string) : string :=
  name +:+ " [" +:+ code +:+ "]".

Definition cell (value : json) : json :=
  if is_none value then JStr "" else value.

(** One turn of [for code in sorted(all_data.keys())] *)
Definition set_cell (all_data : gmap string (gmap string json))
    (indicator_info : gmap string info) (year : string)
    (r : row) (code : string) : res row :=
  match all_data !! code with
  | None => Raise KeyError
  | Some year_dict =>
      let value := default JNull (year_dict !! year) in
      match indicator_info !! code with
      | None => Raise KeyError
      | Some inf =>
          Ok (Dict.setitem String.eqb (column (i_name inf) code) (cell value) r)
      end
  end.

Fixpoint set_cells (all_data : gmap string (gmap string json))
    (indicator_info : gmap string info) (year : string)
    (r : row) (codes : list string) : res row :=
  match codes with
  | [] => Ok r
  | code :: codes' =>
      rbind (set_cell all_data indicator_info year r code)
            (λ r', set_cells all_data indicator_info year r' codes')
  end.

Definition build_row (all_data : gmap string (gmap string json))
    (indicator_info : gmap string info) (year : string) : res row :=
  set_cells all_data indicator_info year [("Year", JStr year)]
    (sorted id (elements (dom all_data))).

Fixpoint build_rows (all_data : gmap string (gmap string json))
    (indicator_info : gmap string info) (years : list string) : res (list row) :=
  match years with
  | [] => Ok []
  | year :: years' =>
      rbind (build_row all_data indicator_info year) (λ r,
      rbind (build_rows all_data indicator_info years') (λ rs, Ok (r :: rs)))
  end.

Definition build_panel (all_data : gmap string (gmap string json))
    (indicator_info : gmap string info) : res (list row) :=
  build_rows all_data indicator_info (sorted id (elements (all_years all_data))).

(** *** [main], lines 143-151: the metadata *)

Definition span (years : list string) : string :=
  match years with
  | [] => ""
  | first :: _ => first +:+ "-" +:+ List.last years first
  end.

Record metadata : Type := Metadata {
  m_info : info;
  years_available : string
}.

Definition metadata_row (all_data : gmap string (gmap string json))
    (indicator_info : gmap string info) (code : string) : res metadata :=
  match indicator_info !! code with
  | None => Raise KeyError
  | Some inf =>
      match all_data !! code with
      | None => Raise KeyError
      | Some year_dict =>
          let years := sorted id (elements (dom year_dict)) in
          Ok (Metadata inf (span years))
      end
  end.

Fixpoint metadata_rows (all_data : gmap string (gmap string json))
    (indicator_info : gmap string info) (codes : list string) : res (list metadata) :=
  match codes with
  | [] => Ok []
  | code :: codes' =>
      rbind (metadata_row all_data indicator_info code) (λ m,
      rbind (metadata_rows all_data indicator_info codes') (λ ms, Ok (m :: ms)))
  end.

Definition write_metadata (all_data : gmap string (gmap string json))
    (indicator_info : gmap string info) : res (list metadata) :=
  metadata_rows all_data indicator_info (sorted id (elements (dom indicator_info))).

(** *** [fetch_all_indicators]

    The [while True] loop, with [fuel] turns allowed: [None] is a loop
    that has not ended within them. The list holds the records as they
    came. *)

Definition SOURCE : Z := 2.

Definition listing_params (page : nat) : list (string * string) :=
  [("source", pretty SOURCE); ("page", pretty page); ("per_page", "1000")].

(** [page >= meta.get("pages", 1)] *)
Definition reached_last_page (page : nat) (meta : json) : res bool :=
  rbind (Py.get meta "pages" (JNum 1)) (λ pages,
    match as_number pages with
    | Some q => Ok (Qle_bool q (inject_Z (Z.of_nat page)))
    | None => Raise TypeError
    end).

Fixpoint fetch_all_indicators_from (fuel page : nat) (indicators : list json)
    (w : world) : option (res (list json) * world) :=
  match fuel with
  | 0 => None
  | S fuel' =>
      let '(resp, w) :=
        get_json (API_BASE +:+ "/indicator") (Some (listing_params page)) 3 w in
      if negb (truthy resp) then Some (Ok indicators, w)
      else
        match index resp 1 with
        | Raise e => Some (Raise e, w)
        | Ok records =>
            if negb (truthy records) then Some (Ok indicators, w)
            else
              match index resp 0, iter records with
              | Raise e, _ | _, Raise e => Some (Raise e, w)
              | Ok meta, Ok new =>
                  let indicators := indicators ++ new in
                  match reached_last_page page meta with
                  | Raise e => Some (Raise e, w)
                  | Ok true => Some (Ok indicators, w)
                  | Ok false =>
                      fetch_all_indicators_from fuel' (S page) indicators
                        (sleep 0.3%Q w)
                  end
              end
        end
  end.

Definition fetch_all_indicators (fuel : nat) (w : world)
    : option (res (list json) * world) :=
  fetch_all_indicators_from fuel 1 [] w.

End WB.

(** ** ecuador_fred.py: the category crawler *)

Module FRED.

Definition ECUADOR_CATEGORY_ID : Z := 32696.
Definition base_url : string := "https://api.stlouisfed.org/fred".

(** An element of ["seriess"]: its ["id"], and its ["title"] when the
    key is there. *)
Record series_entry : Type := SeriesEntry {
  s_id : string;
  s_title : option string
}.

(** The outcome of the request for a category's series: the list under
    ["seriess"] ([[]] when the key is missing), or the exception. *)
Inductive fetched (A : Type) : Type :=
  | Fetched (a : A)
  | FetchError (e : string).
Arguments Fetched {A} a.
Arguments FetchError {A} e.

(** What the provider serves below one category id: the answer to
    [/category/series], and the answer to [/category/children] ([None]
    when that request raises) with, for every child [(id, name)], what
    is served below it. The type is inductive: the category graph is a
    finite tree. The failures of the tree are those of the provider and
    of the network; those of the interpreter are in [crawl_category]. *)
Unset Elimination Schemes.
Inductive category : Type :=
  | Category (seriess : fetched (list series_entry))
             (children : option (list (Z * string * category))).
Set Elimination Schemes.

Record state : Type := State {
  all_series : list (string * string);
  out : list event
}.

Definition emit (e : event) (st : state) : state :=
  {| all_series := all_series st; out := out st ++ [e] |}.

(** [all_series[s["id"]] = s.get("title", s["id"])] *)
Definition label (s : series_entry) : string := default (s_id s) (s_title s).

Definition record (st : state) (s : series_entry) : state :=
  {| all_series := Dict.setitem String.eqb (s_id s) (label s) (all_series st);
     out := out st |}.

Definition series_request (api_key : string) (cat_id : Z) : request :=
  Request (base_url +:+ "/category/series")
    [("api_key", api_key); ("category_id", pretty cat_id);
     ("file_type", "json"); ("limit", "1000")].

Definition children_request (api_key : string) (cat_id : Z) : request :=
  Request (base_url +:+ "/category/children")
    [("api_key", api_key); ("category_id", pretty cat_id); ("file_type", "json")].

(** ['  ' * depth] *)
Definition indent (depth : nat) : string := String.concat "" (replicate depth "  ").

(** The loop over the children of a category. It prints the line of a
    child and calls [crawl_category] for it, here [call]. A call that
    raises ([None]) does so inside the [try] block of the loop, whose
    [except Exception: pass] ends the loop: the children that are left
    are not visited. *)
Definition crawl_children (call : Z → category → state → option state) (depth : nat)
    : list (Z * string * category) → state → state :=
  fix go cs st :=
    match cs with
    | [] => st
    | (child_id, child_name, below) :: cs' =>
        match call child_id below
                (emit (Printed (indent depth +:+ "  -> subcategory: " +:+ child_name
                                  +:+ " (" +:+ pretty child_id +:+ ")" +:+ nl)) st)
        with
        | Some st' => go cs' st'
        | None =>
            emit (Printed (indent depth +:+ "  -> subcategory: " +:+ child_name
                             +:+ " (" +:+ pretty child_id +:+ ")" +:+ nl)) st
        end
    end.

(** [crawl_category(cat_id, depth)] under the recursion limit of the
    interpreter. [frames] is the number of frames that are free when the
    call is made: with none the call raises [RecursionError] before its
    body runs ([None]). [cost] is the number of frames that
    [requests.get], [raise_for_status] and [json] need below the frame of
    [crawl_category]: with fewer left the request raises
    [RecursionError], with the text [recursion_error], inside its [try]
    block, and is handled as any other failure of the request.
    [time.sleep] and [print] are built in and need no frame. An event
    [Requested] is the call of [requests.get]. *)
Fixpoint crawl_category (api_key : string) (cost : nat) (recursion_error : string)
    (frames : nat) (cat_id : Z) (depth : nat)
    (served : category) (st : state) {struct served} : option state :=
  match frames with
  | 0 => None
  | S room =>
      match served with
      | Category seriess children =>
          let st := emit (Requested (series_request api_key cat_id)) st in
          let st :=
            match (if (room <? cost)%nat then FetchError recursion_error else seriess) with
            | Fetched l => fold_left record l st
            | FetchError e =>
                emit (Printed ("  Warning: could not fetch series for category "
                                 +:+ pretty cat_id +:+ ": " +:+ e +:+ nl)) st
            end in
          let st := emit (Slept 0.3%Q) st in
          let st := emit (Requested (children_request api_key cat_id)) st in
          let st :=
            if (room <? cost)%nat then st
            else
              match children with
              | Some cs =>
                  crawl_children
                    (λ child_id below st,
                       crawl_category api_key cost recursion_error room
                         child_id (S depth) below st)
                    depth cs st
              | None => st
              end in
          Some (emit (Slept 0.2%Q) st)
      end
  end.

(** [discover_ecuador_series(api_key)], given what is served below
    [ECUADOR_CATEGORY_ID]; [frames] are the frames that are free when it
    calls [crawl_category]. A [RecursionError] of that first call is
    caught nowhere: [None]. *)
Definition discover_ecuador_series (api_key : string) (cost : nat)
    (recursion_error : string) (frames : nat) (served : category)
    : option (list (string * string) * list event) :=
  let st := State [] [] in
  let st := emit (Printed ("Discovering all Ecuador series under FRED category "
                             +:+ pretty ECUADOR_CATEGORY_ID +:+ "..." +:+ nl)) st in
  match crawl_category api_key cost recursion_error frames ECUADOR_CATEGORY_ID 0 served st with
  | None => None
  | Some st =>
      let st := emit (Printed ("Found " +:+ pretty (length (all_series st))
                                 +:+ " Ecuador-specific series." +:+ nl +:+ nl)) st in
      Some (all_series st, out st)
  end.


(** *** [_label_to_filename]

    On the UTF-8 bytes of the label. A character outside ASCII is one
    or more bytes above 127, none of which is in the class [[a-z0-9]] or
    is one of the characters replaced or stripped, so that a run of
    characters outside the class is a run of bytes outside it. *)

Definition is_upper (c : Ascii.ascii) : bool :=
  (65 <=? Ascii.nat_of_ascii c)%nat && (Ascii.nat_of_ascii c <=? 90)%nat.

(** The class [[a-z0-9]] *)
Definition is_lower_or_digit (c : Ascii.ascii) : bool :=
  ((97 <=? Ascii.nat_of_ascii c)%nat && (Ascii.nat_of_ascii c <=? 122)%nat)
  || ((48 <=? Ascii.nat_of_ascii c)%nat && (Ascii.nat_of_ascii c <=? 57)%nat).

Definition underscore : Ascii.ascii := Ascii.ascii_of_nat 95.

(** [s.lower()], as far as the class [[a-z0-9]] can tell. The letters
    [A-Z] go to [a-z]. Two characters outside ASCII have an ASCII letter
    in their lower case: U+0130 (bytes C4 B0) goes to [i] and U+0307
    (bytes CC 87), and U+212A (bytes E2 84 AA) goes to [k]. Every other
    character outside ASCII goes to characters outside ASCII, and is
    left as it is: it is outside the class before and after. *)
Definition lower_byte (c : Ascii.ascii) : Ascii.ascii :=
  if is_upper c then Ascii.ascii_of_nat (Ascii.nat_of_ascii c + 32) else c.

Definition is_byte (n : nat) (c : Ascii.ascii) : bool :=
  (Ascii.nat_of_ascii c =? n)%nat.

Fixpoint lower (s : list Ascii.ascii) : list Ascii.ascii :=
  match s with
  | [] => []
  | c :: s1 =>
      match s1 with
      | c2 :: s2 =>
          if is_byte 196 c && is_byte 176 c2 then
            Ascii.ascii_of_nat 105 :: Ascii.ascii_of_nat 204 :: Ascii.ascii_of_nat 135
              :: lower s2
          else
            match s2 with
            | c3 :: s3 =>
                if is_byte 226 c && is_byte 132 c2 && is_byte 170 c3
                then Ascii.ascii_of_nat 107 :: lower s3
                else lower_byte c :: lower s1
            | [] => lower_byte c :: lower s1
            end
      | [] => [lower_byte c]
      end
  end.

(** [s.replace(old, new)] for a one-character [old] *)
Definition replace (old : Ascii.ascii) (new : string) (s : list Ascii.ascii)
    : list Ascii.ascii :=
  flat_map (λ c, if Ascii.eqb c old then String.list_ascii_of_string new else [c]) s.

(** [re.sub(r"[^a-z0-9]+", "_", s)]; [in_run] says that the character
    before was outside the class. *)
Fixpoint sub_runs (in_run : bool) (s : list Ascii.ascii) : list Ascii.ascii :=
  match s with
  | [] => []
  | c :: s' =>
      if is_lower_or_digit c then c :: sub_runs false s'
      else if in_run then sub_runs true s'
      else underscore :: sub_runs true s'
  end.

(** [s.lstrip("_")] and [s.strip("_")] *)
Fixpoint lstrip (s : list Ascii.ascii) : list Ascii.ascii :=
  match s with
  | c :: s' => if Ascii.eqb c underscore then lstrip s' else s
  | [] => []
  end.

Definition strip (s : list Ascii.ascii) : list Ascii.ascii :=
  reverse (lstrip (reverse (lstrip s))).

Definition label_to_filename_chars (label : list Ascii.ascii) : list Ascii.ascii :=
  let s := lower label in
  let s := replace (Ascii.ascii_of_nat 47) "_"
             (replace (Ascii.ascii_of_nat 38) "and"
                (replace (Ascii.ascii_of_nat 37) "pct" s)) in
  let s := sub_runs false s in
  strip s.

Definition _label_to_filename (label : string) : string :=
  String.string_of_list_ascii
    (label_to_filename_chars (String.list_ascii_of_string label)).

(** *** [download_series]

    The [Fred] client and the disk, as the function meets them: the
    observations of a series (a date and a value, [None] for NaN) or the
    exception of [get_series]; the attributes of a series or the
    exception of [get_series_info]; and, for a file name, the exception
    of [to_csv] if it raises. *)
Record client : Type := Client {
  get_series : string → fetched (list (string * option Q));
  get_series_info : string → fetched (gmap string string);
  to_csv : string → option string
}.

(** [series.dropna()] *)
Definition dropna (series : list (string * option Q)) : list (string * Q) :=
  omap (λ o, (λ v, (o.1, v)) <$> o.2) series.

Record download : Type := Download {
  data : list (string * list (string * Q));
  metadata : list (list (string * string));
  errors : list (string * string * string);
  files : list (string * list (string * Q));
  log : list event
}.

Definition say_end (text e : string) (d : download) : download :=
  {| data := data d; metadata := metadata d; errors := errors d;
     files := files d; log := log d ++ [Printed (text +:+ e)] |}.

Definition say (text : string) : download → download := say_end text nl.

(** [f"{series_id:30s}"] *)
Definition pad30 (s : string) : string :=
  s +:+ String.concat "" (replicate (30 - length (chars s)) " ").

Definition series_progress (i n : nat) (series_id label : string) : string :=
  "  [" +:+ pretty i +:+ "/" +:+ pretty n +:+ "] " +:+ pad30 series_id
    +:+ " — " +:+ slice_to 55 label +:+ "...".

(** The [except Exception as e] of the loop. *)
Definition failed_with (series_id label e : string) (d : download) : download :=
  say ("FAILED: " +:+ e)
    {| data := data d; metadata := metadata d;
       errors := errors d ++ [(series_id, label, e)];
       files := files d; log := log d |}.

Definition info_row (series_id fname label label_prefix : string)
    (info : gmap string string) : list (string * string) :=
  [("series_id", series_id);
   ("filename", fname +:+ ".csv");
   ("label", label);
   ("title", default "" (info !! "title"));
   ("frequency", default "" (info !! "frequency_short"));
   ("units", default "" (info !! "units_short"));
   ("seasonal_adjustment", default "" (info !! "seasonal_adjustment_short"));
   ("last_updated", default "" (info !! "last_updated"));
   ("observation_start", default "" (info !! "observation_start"));
   ("observation_end", default "" (info !! "observation_end"));
   ("source", label_prefix);
   ("notes", slice_to 200 (default "" (info !! "notes")))].

Definition bare_row (series_id fname label label_prefix : string)
    : list (string * string) :=
  [("series_id", series_id);
   ("filename", fname +:+ ".csv");
   ("label", label);
   ("source", label_prefix)].

Definition download_one (fred : client) (label_prefix : string) (n : nat)
    (d : download) (turn : nat * (string * string)) : download :=
  let '(i, (series_id, label)) := turn in
  let d := say_end (series_progress i n series_id label) " " d in
  match get_series fred series_id with
  | FetchError e => failed_with series_id label e d
  | Fetched raw =>
      let series := dropna raw in
      if (length series =? 0)%nat then say "empty" d
      else
        let d := {| data := Dict.setitem String.eqb series_id series (data d);
                    metadata := metadata d; errors := errors d;
                    files := files d; log := log d |} in
        let fname := _label_to_filename label in
        match to_csv fred (fname +:+ ".csv") with
        | Some e => failed_with series_id label e d
        | None =>
            let row :=
              match get_series_info fred series_id with
              | Fetched info => info_row series_id fname label label_prefix info
              | FetchError _ => bare_row series_id fname label label_prefix
              end in
            say ("OK (" +:+ pretty (length series) +:+ " obs)")
              {| data := data d; metadata := metadata d ++ [row]; errors := errors d;
                 files := Dict.setitem String.eqb (fname +:+ ".csv") series (files d);
                 log := log d |}
        end
  end.

(** [series_dict] is the dict, as its items in insertion order. *)
Definition download_series (fred : client) (series_dict : list (string * string))
    (label_prefix : string) : download :=
  fold_left (download_one fred label_prefix (length series_dict))
    (zip (seq 1 (length series_dict)) series_dict)
    (Download [] [] [] [] []).

End FRED.

(** ** ecuador_run_all.py: the final audit *)

Module RunAll.

Definition SCRIPTS : list (string * string) :=
  [("IMF DataMapper", "ecuador_imf.py");
   ("World Bank (WDI)", "ecuador_worldbank.py");
   ("FRED", "ecuador_fred.py")].

(** A directory entry: its name and, when it opens and decodes as
    UTF-8, its lines. *)
Record file : Type := File {
  file_name : string;
  file_lines : option (list string)
}.

(** The file system: the entries of a directory, [None] for a path
    that does not exist. *)
Definition filesystem : Type := string → option (list file).

Definition ends_with (suffix s : string) : bool :=
  let n := String.length s in
  let m := String.length suffix in
  (m <=? n)%nat && String.eqb (String.substring (n - m) m s) suffix.

(** [directory.glob("*.csv")] *)
Definition glob_csv (entries : list file) : list file :=
  filter (λ f, ends_with ".csv" (file_name f) = true) entries.

(** [total_rows += sum(1 for _ in open(f)) - 1], skipped when it raises *)
Definition add_rows (total_rows : Z) (f : file) : Z :=
  match file_lines f with
  | Some ls => (total_rows + (Z.of_nat (length ls) - 1))%Z
  | None => total_rows
  end.

Definition count_csvs (fs : filesystem) (directory : string) : nat * Z :=
  match fs directory with
  | None => (0, 0%Z)
  | Some entries =>
      let csv_files := glob_csv entries in
      (length csv_files, fold_left add_rows csv_files 0%Z)
  end.

(** How [subprocess.run] ended for one script. *)
Inductive outcome : Type :=
  | Returned (returncode : Z) (elapsed : Q)
  | TimeoutExpired
  | Failed (e : string).

Definition result_of (o : outcome) : string * Q :=
  match o with
  | Returned returncode elapsed =>
      (if (returncode =? 0)%Z then "OK" else "ERROR", elapsed)
  | TimeoutExpired => ("TIMEOUT", 1800%Q)
  | Failed e => ("FAILED: " +:+ e, 0%Q)
  end.

(** [results], after the loop over [SCRIPTS] *)
Definition run_all (run : string → outcome) : list (string * (string * Q)) :=
  fold_left
    (λ results item, Dict.setitem String.eqb item.1 (result_of (run item.2)) results)
    SCRIPTS [].

Definition data_dirs (root : string) : list (string * string) :=
  [("IMF DataMapper", root +:+ "/ecuador_data/imf");
   ("World Bank (WDI)", root +:+ "/ecuador_data/worldbank");
   ("FRED", root +:+ "/ecuador_data/fred")].

Record summary_row : Type := SummaryRow {
  sr_name : string;
  sr_status : string;
  n_files : nat;
  n_rows : Z;
  sr_elapsed : Q
}.

Definition summary_row_of (fs : filesystem) (root : string)
    (results : list (string * (string * Q))) (name : string) : summary_row :=
  let status := Dict.get String.eqb name results in
  let ddir := Dict.get String.eqb name (data_dirs root) in
  let '(n_files, n_rows) :=
    match ddir with
    | Some d => count_csvs fs d
    | None => (0, 0%Z)
    end in
  SummaryRow name (from_option fst "?" status) n_files n_rows
             (from_option snd 0%Q status).

Definition exists_dir (fs : filesystem) (d : string) : bool :=
  match fs d with Some _ => true | None => false end.

Record summary : Type := Summary {
  rows : list summary_row;
  total_files : nat;
  total_rows : Z
}.

(** [main], lines 60-82 *)
Definition audit (fs : filesystem) (root : string)
    (results : list (string * (string * Q))) : summary :=
  let existing := filter (λ d, exists_dir fs d = true) (Dict.values (data_dirs root)) in
  {| rows := (λ item, summary_row_of fs root results item.1) <$> SCRIPTS;
     total_files := foldr Nat.add 0 ((λ d, (count_csvs fs d).1) <$> existing);
     total_rows := foldr Z.add 0%Z ((λ d, (count_csvs fs d).2) <$> existing) |}.

Definition main (run : string → outcome) (fs : filesystem) (root : string) : summary :=
  audit fs root (run_all run).

End RunAll.

(** * The vocabulary of the statements *)

(** ** Orders and dictionaries *)

(** [x] comes no later than [y] when both are sorted by [key]. Strings
    compare as Python compares them: byte by byte, which for UTF-8 is
    code point by code point. *)
Definition by_key {A : Type} (key : A → string) (x y : A) : Prop :=
  String.le (key x) (key y).

(** The keys of a dict after [d[k] = v], from the keys before. *)
Definition keys_after (ks : list string) (k : string) : list string :=
  if bool_decide (k ∈ ks) then ks else ks ++ [k].

(** A loop that sets [d[f x] = g x] for the [x] of a list. *)
Definition fill {V X : Type} (f : X → string) (g : X → V) (xs : list X)
    (d : list (string * V)) : list (string * V) :=
  fold_left (λ d x, Dict.setitem String.eqb (f x) (g x) d) xs d.

(** ** Requests *)

(** The delay before retry number [k + 1], in seconds. *)
Definition backoff (k : nat) : Q := inject_Z (2 ^ Z.of_nat k).

(** The query that [WB.get_json] sends when it is given no [params]. *)
Definition wb_request (url : string) : request :=
  Request url [("format", "json"); ("per_page", "10000")].

(** The addresses the two downloaders ask. *)
Definition imf_url (code : string) : string :=
  IMF.BASE +:+ "/" +:+ code +:+ "/" +:+ IMF.COUNTRY.

Definition wb_url (indicator_id : string) : string :=
  WB.API_BASE +:+ "/country/" +:+ WB.COUNTRY +:+ "/indicator/" +:+ indicator_id.

(** The counters [success], [empty], [failed] at the end of a run that
    did not raise. *)
Definition counters_imf (r : res IMF.tally * world) : option (nat * nat * nat) :=
  match r.1 with
  | Ok t => Some (IMF.success t, IMF.empty t, IMF.failed t)
  | Raise _ => None
  end.

Definition counters_wb (r : res WB.tally * world) : option (nat * nat * nat) :=
  match r.1 with
  | Ok t => Some (WB.success t, WB.empty t, WB.failed t)
  | Raise _ => None
  end.

(** ** Panels *)

(** The periods of a panel: [sorted(all_years)]. *)
Definition periods (all_data : gmap string (gmap string json)) : list string :=
  sorted id (elements (IMF.all_years all_data)).

(** The column and the cell that one turn of the inner loop of
    [IMF.build_panel] writes. *)
Definition imf_column (item : string * string) : string := IMF.column item.2 item.1.

Definition imf_cell (all_data : gmap string (gmap string json)) (year : string)
    (item : string * string) : json :=
  IMF.cell (IMF.value_at all_data item.1 year).

(** The same for the World Bank rows; the name is read from
    [indicator_info]. *)
Definition wb_column (indicator_info : gmap string WB.info) (code : string) : string :=
  WB.column (from_option WB.i_name "" (indicator_info !! code)) code.

Definition wb_cell (all_data : gmap string (gmap string json)) (year code : string) : json :=
  WB.cell (default JNull (default ∅ (all_data !! code) !! year)).

Definition wb_codes (all_data : gmap string (gmap string json)) : list string :=
  sorted id (elements (dom all_data)).

(** [row["Year"]] *)
Definition year_of (r : list (string * json)) : option json :=
  Dict.get String.eqb "Year" r.

(** The header of the IMF table, from the indicators alone. *)
Definition imf_header (indicators : list (string * string)) : list string :=
  fold_left keys_after (imf_column <$> sorted snd indicators) ["Year"].

(** What the input mapping holds for an indicator and a period. *)
Definition observation (all_data : gmap string (gmap string json))
    (code year : string) : option json :=
  all_data !! code ≫= (λ year_dict, year_dict !! year).

(** The values of the mapping are numbers, or [None] where the provider
    sent [null]. *)
Definition numeric (all_data : gmap string (gmap string json)) : Prop :=
  ∀ code year v, observation all_data code year = Some v → v = JNull ∨ ∃ q, v = JNum q.

(** [numeric], as a check that runs. *)
Definition is_number_or_none (v : json) : bool :=
  match v with JNull | JNum _ => true | _ => false end.

Definition numeric_check (all_data : gmap string (gmap string json)) : Prop :=
  map_Forall (λ _ year_dict,
    map_Forall (λ _ v, is_number_or_none v = true) (year_dict : gmap string json)) all_data.

(** [s] is the span of the keys of a series: empty for no key, else the
    least and the greatest of its keys (in the order of strings) around
    a hyphen. *)
Definition is_span (year_dict : gmap string json) (s : string) : Prop :=
  (year_dict = ∅ ∧ s = "")
  ∨ ∃ lo hi,
      is_Some (year_dict !! lo) ∧ is_Some (year_dict !! hi) ∧
      (∀ y, is_Some (year_dict !! y) → String.le lo y ∧ String.le y hi) ∧
      s = lo +:+ "-" +:+ hi.




(** ** Category trees and directories *)

(** Induction on a category tree: the children may be assumed to have
    the property. *)
Fixpoint category_ind (P : FRED.category → Prop)
    (step : ∀ seriess children,
        match children with
        | Some cs => Forall (λ child, P child.2) cs
        | None => True
        end → P (FRED.Category seriess children))
    (c : FRED.category) : P c :=
  match c with
  | FRED.Category seriess children =>
      step seriess children
        match children as o
          return match o with
                 | Some cs => Forall (λ child, P child.2) cs
                 | None => True
                 end
        with
        | Some cs =>
            (fix children_ok (cs : list (Z * string * FRED.category))
               : Forall (λ child, P child.2) cs :=
               match cs as l return Forall (λ child, P child.2) l with
               | [] => @List.Forall_nil _ (λ child, P child.2)
               | child :: cs' =>
                   @List.Forall_cons _ (λ child, P child.2) child cs'
                     (category_ind P step child.2) (children_ok cs')
               end) cs
        | None => I
        end
  end.

(** The depth of a tree: the calls of [crawl_category] that are open at
    once when the crawl is at its deepest. *)
Fixpoint depth_of (c : FRED.category) : nat :=
  match c with
  | FRED.Category _ children =>
      S (match children with
         | Some cs => max_list_with (λ child, depth_of child.2) cs
         | None => 0
         end)
  end.

(** The line counts of the CSV files of a directory that can be read. *)
Definition line_counts (entries : list RunAll.file) : list nat :=
  omap (λ f, length <$> RunAll.file_lines f) (RunAll.glob_csv entries).

(** ** Concrete inputs *)

(** A provider that fails [n] requests and then answers [body]; one that
    is out of reach; one that answers every request with [body]. *)
Definition fails_then (n : nat) (body : json) : request → nat → http :=
  λ _ k, if (k <? n)%nat then HttpError "503 Server Error" else HttpOk body.

Definition unreachable : request → nat → http :=
  λ _ _, HttpError "ConnectionError".

Definition serves (body : json) : request → nat → http := λ _ _, HttpOk body.

(** What the IMF provider sends for an indicator whose 2001 value is
    [null]: [{"values": {"NGDP_RPCH": {"ECU": {"2000": 1.1, "2001": null}}}}]. *)
Definition imf_body_with_null : json :=
  JObj {[ "values" :=
    JObj {[ "NGDP_RPCH" :=
      JObj {[ "ECU" := JObj {[ "2000" := JNum 1.1; "2001" := JNull ]} ]} ]} ]}.

(** Two World Bank indicators whose codes and names sort in opposite
    orders. *)
Definition land_and_investment : gmap string (gmap string json) :=
  {[ "AG.LND.TOTL.K2" := {[ "2001" := JNum 256370 ]};
     "BX.KLT.DINV.CD.WD" := {[ "2001" := JNum 538.6 ]} ]}.

Definition land_and_investment_info : gmap string WB.info :=
  {[ "AG.LND.TOTL.K2" := WB.Info "AG.LND.TOTL.K2" "Land area (sq. km)" "" "";
     "BX.KLT.DINV.CD.WD" := WB.Info "BX.KLT.DINV.CD.WD" "Foreign direct investment" "" "" ]}.

(** Two indicators with data and one without: growth for 2001 and 2003
    with a true zero in 2003, inflation for 2003 and a [null] for 1999. *)
Definition demo_data : gmap string (gmap string json) :=
  {[ "NGDP_RPCH" := {[ "2001" := JNum 4.0; "2003" := JNum 0 ]};
     "PCPIPCH" := {[ "2003" := JNum 7.9; "1999" := JNull ]} ]}.

Definition demo_catalog : list (string * string) :=
  [("NGDP_RPCH", "Real GDP growth");
   ("LUR", "Unemployment rate");
   ("PCPIPCH", "Inflation rate")].

Definition demo_indicators : list (string * string) :=
  IMF.kept demo_catalog demo_data.

Definition demo_info : gmap string WB.info :=
  {[ "NGDP_RPCH" := WB.Info "NGDP_RPCH" "Real GDP growth" "IMF" "";
     "PCPIPCH" := WB.Info "PCPIPCH" "Inflation rate" "IMF" "" ]}.


(** The tree of the end-to-end scenario: below the root the series A
    and B and one child category, below which are C and, once more, A. *)
Definition demo_tree : FRED.category :=
  FRED.Category
    (FRED.Fetched [FRED.SeriesEntry "A" (Some "Series A"); FRED.SeriesEntry "B" None])
    (Some [(32697%Z, "Prices",
            FRED.Category
              (FRED.Fetched [FRED.SeriesEntry "C" (Some "Series C");
                             FRED.SeriesEntry "A" (Some "Series A, again")])
              (Some []))]).


(** Two indicators whose labels and codes give one column name,
    ["A [B [C]"], and the first of which has an observation in 2001. *)
Definition clash_data : gmap string (gmap string json) :=
  {[ "B [C" := {[ "2001" := JNum 1 ]};
     "C" := {[ "2002" := JNum 5 ]} ]}.

Definition clash_indicators : list (string * string) :=
  [("B [C", "A"); ("C", "A [B")].

Definition clash_info : gmap string WB.info :=
  {[ "B [C" := WB.Info "B [C" "A" "" "";
     "C" := WB.Info "C" "A [B" "" "" ]}.


(** A file system after a run in which the IMF script failed half-way,
    and how the three scripts ended. *)
Definition demo_fs : RunAll.filesystem :=
  λ d, if String.eqb d "/repo/ecuador_data/imf" then
         Some [RunAll.File "indicator_metadata.csv" (Some ["code,label,years_available"]);
               RunAll.File "notes.txt" (Some ["x"]);
               RunAll.File "broken.csv" None]
       else if String.eqb d "/repo/ecuador_data/fred" then
         Some [RunAll.File "wti_crude_oil_price.csv" (Some ["date,value"; "2001-01-01,29.6"])]
       else None.

Definition demo_run : string → RunAll.outcome :=
  λ script, if String.eqb script "ecuador_imf.py" then RunAll.Returned 1 12.5%Q
            else if String.eqb script "ecuador_worldbank.py" then RunAll.TimeoutExpired
            else RunAll.Returned 0 40%Q.

(** Closed, decidable side conditions. *)
Ltac by_computation := apply (bool_decide_unpack _); vm_compute; exact I.

(** ** The download loops *)

(** The state of the IMF loop after the indicators [done]. *)
Definition imf_accounted (done : list (string * string)) (t : IMF.tally) : Prop :=
  IMF.success t + IMF.empty t + IMF.failed t = length done ∧
  (∀ code v, IMF.all_data t !! code = Some v → truthy v = true ∧ code ∈ done.*1) ∧
  (size (IMF.all_data t) ≤ IMF.success t)%nat ∧
  (NoDup done.*1 → size (IMF.all_data t) = IMF.success t).

(** The state of the World Bank loop after the indicators [done]. *)
Definition wb_accounted (done : list WB.indicator) (t : WB.tally) : Prop :=
  WB.success t + WB.empty t = length done ∧
  WB.failed t = 0 ∧
  dom (WB.all_data t) = dom (WB.indicator_info t) ∧
  (∀ code series, WB.all_data t !! code = Some series →
     series ≠ [] ∧ Forall (λ kv, is_none kv.2 = false) series ∧
     code ∈ WB.ind_id <$> done) ∧
  (∀ code inf, WB.indicator_info t !! code = Some inf → WB.i_code inf = code) ∧
  (size (WB.all_data t) ≤ WB.success t)%nat.

(** ** The World Bank listing *)

(** The query for one page of the listing, as [get_json] sends it. *)
Definition wb_listing_request (page : nat) : request :=
  Request (WB.API_BASE +:+ "/indicator")
    [("format", "json"); ("per_page", "1000"); ("source", "2"); ("page", pretty page)].

(** The provider answers the query for [page], whenever it comes, with
    a header that announces [pages] pages and with [records]. *)
Definition serves_page (w : world) (page pages : nat) (records : list json) : Prop :=
  ∀ n, ∃ meta,
    net w (wb_listing_request page) n = HttpOk (JArr [JObj meta; JArr records]) ∧
    meta !! "pages" = Some (JNum (inject_Z (Z.of_nat pages))).

(** ** File names *)

(** No two underscores in a row. *)
Fixpoint no_double_underscore (s : list Ascii.ascii) : bool :=
  match s with
  | [] => true
  | a :: s' =>
      negb (Ascii.eqb a FRED.underscore
            && match s' with b :: _ => Ascii.eqb b FRED.underscore | [] => false end)
      && no_double_underscore s'
  end.

(** A name made of [a-z], [0-9] and single underscores between them. *)
Definition clean_name (s : list Ascii.ascii) : Prop :=
  Forall (λ c, FRED.is_lower_or_digit c = true ∨ c = FRED.underscore) s ∧
  no_double_underscore s = true ∧
  head s ≠ Some FRED.underscore ∧
  last s ≠ Some FRED.underscore.

(** A label of ASCII characters. *)
Definition ascii_label (label : string) : Prop :=
  Forall (λ c, Ascii.nat_of_ascii c < 128)%nat (String.list_ascii_of_string label).

(** ** The FRED downloads *)

(** The series identifiers of the recorded errors. *)
Definition error_ids (d : FRED.download) : list string :=
  (λ e, e.1.1) <$> FRED.errors d.

(** A metadata row was written for the series. *)
Definition has_row (d : FRED.download) (series_id : string) : Prop :=
  Exists (λ row, Dict.get String.eqb "series_id" row = Some series_id) (FRED.metadata d).

(** Nothing is recorded for the series. *)
Definition untouched (d : FRED.download) (series_id : string) : Prop :=
  Dict.get String.eqb series_id (FRED.data d) = None ∧
  (series_id ∉ error_ids d) ∧
  ¬ has_row d series_id.

(** [get_series] answers, and nothing is left of the answer after
    [dropna]. *)
Definition is_empty_series (fred : FRED.client) (series_id : string) : bool :=
  match FRED.get_series fred series_id with
  | FRED.Fetched raw => bool_decide (FRED.dropna raw = [])
  | FRED.FetchError _ => false
  end.

(** What the three results hold for one series of the dict, by what the
    client and the disk did for it. *)
Definition series_outcome (fred : FRED.client) (label_prefix : string)
    (d : FRED.download) (series_id label : string) : Prop :=
  let fname := FRED._label_to_filename label in
  match FRED.get_series fred series_id with
  | FRED.FetchError e =>
      Dict.get String.eqb series_id (FRED.data d) = None ∧
      (series_id, label, e) ∈ FRED.errors d ∧
      ¬ has_row d series_id
  | FRED.Fetched raw =>
      match FRED.dropna raw with
      | [] => untouched d series_id
      | series =>
          Dict.get String.eqb series_id (FRED.data d) = Some series ∧
          match FRED.to_csv fred (fname +:+ ".csv") with
          | Some e => (series_id, label, e) ∈ FRED.errors d ∧ ¬ has_row d series_id
          | None =>
              (series_id ∉ error_ids d) ∧
              (match FRED.get_series_info fred series_id with
               | FRED.Fetched info =>
                   FRED.info_row series_id fname label label_prefix info
               | FRED.FetchError _ =>
                   FRED.bare_row series_id fname label label_prefix
               end) ∈ FRED.metadata d
          end
      end
  end.

(** One turn of the loop records for its own series only. *)
Definition touches_only (series_id : string) (d d' : FRED.download) : Prop :=
  (∀ k, k ≠ series_id →
        Dict.get String.eqb k (FRED.data d') = Dict.get String.eqb k (FRED.data d)) ∧
  (∃ es, FRED.errors d' = FRED.errors d ++ es ∧ Forall (λ e, e.1.1 = series_id) es) ∧
  (∃ rows, FRED.metadata d' = FRED.metadata d ++ rows ∧
           Forall (λ row, Dict.get String.eqb "series_id" row = Some series_id) rows).

(** The state of the loop after the items [done]. *)
Definition download_accounted (fred : FRED.client) (label_prefix : string)
    (done : list (string * string)) (d : FRED.download) : Prop :=
  (∀ series_id label, (series_id, label) ∈ done →
     series_outcome fred label_prefix d series_id label) ∧
  (∀ series_id, series_id ∉ done.*1 → untouched d series_id) ∧
  (length (FRED.metadata d) + length (FRED.errors d)
   + length (filter (λ kv, is_empty_series fred kv.1 = true) done)
   = length done)%nat.

(** ** Further concrete inputs *)

(** A listing whose header announces three pages, of which the provider
    serves the first two and refuses every other. *)
Definition listing_cut_short : request → nat → http :=
  λ r _,
    match Dict.get String.eqb "page" (params r) with
    | Some p =>
        if String.eqb p "1" then
          HttpOk (JArr [JObj {[ "pages" := JNum 3 ]};
                        JArr [JObj {[ "id" := JStr "AG.LND.TOTL.K2" ]}]])
        else if String.eqb p "2" then
          HttpOk (JArr [JObj {[ "pages" := JNum 3 ]};
                        JArr [JObj {[ "id" := JStr "NY.GDP.MKTP.CD" ]}]])
        else HttpError "502 Bad Gateway"
    | None => HttpError "400 Bad Request"
    end.

Definition listing_cut_short_records (page : nat) : list json :=
  if (page =? 1)%nat then [JObj {[ "id" := JStr "AG.LND.TOTL.K2" ]}]
  else [JObj {[ "id" := JStr "NY.GDP.MKTP.CD" ]}].

(** A client that has observations for WTI (one of them NaN), only NaN
    for an old series, and refuses any other identifier; it has the
    attributes of WTI and of no other series, and the disk takes every
    file. *)
Definition demo_client : FRED.client :=
  {| FRED.get_series := λ series_id,
       if String.eqb series_id "DCOILWTICO" then
         FRED.Fetched [("2001-01-01", Some 29.6%Q); ("2001-01-02", None)]
       else if String.eqb series_id "OLD" then
         FRED.Fetched [("1960-01-01", None)]
       else FRED.FetchError "Bad Request. The series does not exist.";
     FRED.get_series_info := λ series_id,
       if String.eqb series_id "DCOILWTICO" then
         FRED.Fetched {[ "title" := "Crude Oil Prices: West Texas Intermediate";
                         "notes" := "Definitions, Sources and Explanatory Notes" ]}
       else FRED.FetchError "Bad Request.";
     FRED.to_csv := λ _, None |}.

Definition demo_series_dict : list (string * string) :=
  [("DCOILWTICO", "WTI Crude Oil Price");
   ("OLD", "Discontinued series");
   ("GONE", "Removed series")].

(** ** The effort of the crawl *)

(** The categories of a tree, and those among them whose request for
    the series failed. *)
Fixpoint categories (c : FRED.category) : nat :=
  match c with
  | FRED.Category _ children =>
      S (match children with
         | Some cs => sum_list_with (λ child, categories child.2) cs
         | None => 0
         end)
  end.

Fixpoint failed_series (c : FRED.category) : nat :=
  match c with
  | FRED.Category seriess children =>
      (match seriess with FRED.Fetched _ => 0 | FRED.FetchError _ => 1 end
       + match children with
         | Some cs => sum_list_with (λ child, failed_series child.2) cs
         | None => 0
         end)%nat
  end.

Definition count_events (p : event → bool) (events : list event) : nat :=
  length (filter (λ e, p e = true) events).

Definition is_request (e : event) : bool :=
  match e with Requested _ => true | _ => false end.
Definition is_sleep (e : event) : bool :=
  match e with Slept _ => true | _ => false end.
Definition is_sleep_of (seconds : Q) (e : event) : bool :=
  match e with Slept s => Qeq_bool s seconds | _ => false end.
Definition is_print (e : event) : bool :=
  match e with Printed _ => true | _ => false end.

(** What a crawl costs: two requests and two pauses, of 0.3 s and of
    0.2 s, for each of [n] categories, and [lines] lines printed. *)
Definition costs (events : list event) (n lines : nat) : Prop :=
  count_events is_request events = (2 * n)%nat ∧
  count_events is_sleep events = (2 * n)%nat ∧
  count_events (is_sleep_of 0.3%Q) events = n ∧
  count_events (is_sleep_of 0.2%Q) events = n ∧
  count_events is_print events = lines.

(** ** The records of a World Bank answer *)

(** The date of a record when it is a string, its value, and whether
    the loop of [fetch_indicator_data] keeps the record. *)
Definition wb_date (record : json) : string :=
  match record with
  | JObj m => match m !! "date" with Some (JStr y) => y | _ => "" end
  | _ => ""
  end.

Definition wb_value (record : json) : json :=
  match record with
  | JObj m => default JNull (m !! "value")
  | _ => JNull
  end.

Definition wb_observed (record : json) : bool :=
  negb (String.eqb (wb_date record) "") && negb (is_none (wb_value record)).

(** A record as the provider sends them: an object whose date, if it
    has one, is a string or a false value ([null], [0], ...). *)
Definition wb_well_formed (record : json) : bool :=
  match record with
  | JObj m =>
      match m !! "date" with
      | Some (JStr _) | None => true
      | Some d => negb (truthy d)
      end
  | _ => false
  end.

(** A dict with string keys, as the dict of Python values it is. *)
Definition str_keys (d : list (string * json)) : list (json * json) :=
  (λ kv, (JStr kv.1, kv.2)) <$> d.

(** ** The load on the providers *)

(** The pauses of a given length that a run has made. *)
Definition pauses_of (seconds : Q) (w : world) : nat :=
  length (filter (λ s, Qeq_bool s seconds = true) (slept w)).

(** One turn of a download loop, from [w] to [w']: one to three
    requests with the back-off of [get_json] between them, and then
    the [pause] of the loop. *)
Definition one_fetch (w w' : world) (pause : list Q) : Prop :=
  ∃ k, (1 ≤ k ≤ 3)%nat ∧
       served w' = (served w + k)%nat ∧
       slept w' = slept w ++ (backoff <$> seq 0 (k - 1)) ++ pause.

(** * Properties *)

(** ** The world after one step *)

Section world_steps.
Implicit Types (w : world) (r : request).

Lemma http_get_answer r w : (http_get r w).1 = net w r (served w).
Proof. reflexivity. Qed.

Lemma http_get_net r w : net (http_get r w).2 = net w.
Proof. reflexivity. Qed.

Lemma http_get_served r w : served (http_get r w).2 = S (served w).
Proof. reflexivity. Qed.

Lemma http_get_slept r w : slept (http_get r w).2 = slept w.
Proof. unfold slept; simpl. rewrite omap_app; simpl. apply app_nil_r. Qed.

Lemma http_get_printed r w : printed (http_get r w).2 = printed w.
Proof. unfold printed; simpl. rewrite omap_app; simpl. apply app_nil_r. Qed.

Lemma sleep_slept s w : slept (sleep s w) = slept w ++ [s].
Proof. unfold slept; simpl. by rewrite omap_app. Qed.

Lemma sleep_printed s w : printed (sleep s w) = printed w.
Proof. unfold printed; simpl. rewrite omap_app; simpl. apply app_nil_r. Qed.

Lemma print_slept text w : slept (print text w) = slept w.
Proof. unfold slept; simpl. rewrite omap_app; simpl. apply app_nil_r. Qed.

Lemma print_printed text w : printed (print text w) = printed w ++ [text +:+ nl].
Proof. unfold printed; simpl. by rewrite omap_app. Qed.
End world_steps.

(** ** [get_json]: retries, back-off, the single warning *)

Section get_json.
Variables (url : string) (retries : nat).

Local Abbreviation r := (Request url []).

Lemma imf_loop_failure attempt todo w e :
  net w r (served w) = HttpError e →
  IMF.get_json_from url retries attempt (S todo) w
  = if (attempt <? retries - 1)%nat
    then IMF.get_json_from url retries (S attempt) todo
           (sleep (backoff attempt) (http_get r w).2)
    else (JNull, print ("  FAILED: " +:+ e) (http_get r w).2).
Proof. intros He. cbn [IMF.get_json_from]. unfold http_get. by rewrite He. Qed.

Lemma imf_loop_success attempt todo w body :
  net w r (served w) = HttpOk body →
  IMF.get_json_from url retries attempt (S todo) w = (body, (http_get r w).2).
Proof. intros He. cbn [IMF.get_json_from]. unfold http_get. by rewrite He. Qed.

(** All of the [todo] attempts that are left fail: the loop returns
    [None], has slept [2 ** attempt] after each failure but the last,
    and has printed one line. *)
Lemma imf_loop_all_fail todo : ∀ attempt w,
  attempt + todo = retries → 0 < todo →
  (∀ k, k < todo → ∃ e, net w r (served w + k) = HttpError e) →
  ∃ e,
    net w r (served w + (todo - 1)) = HttpError e ∧
    (IMF.get_json_from url retries attempt todo w).1 = JNull ∧
    slept (IMF.get_json_from url retries attempt todo w).2
      = slept w ++ (backoff <$> seq attempt (todo - 1)) ∧
    printed (IMF.get_json_from url retries attempt todo w).2
      = printed w ++ ["  FAILED: " +:+ e +:+ nl] ∧
    served (IMF.get_json_from url retries attempt todo w).2 = served w + todo.
Proof.
  induction todo as [|todo IH]; intros attempt w Hsum Hpos Hfail; [lia|].
  destruct (Hfail 0 ltac:(lia)) as [e0 He0]. rewrite Nat.add_0_r in He0.
  rewrite (imf_loop_failure _ _ _ _ He0).
  destruct todo as [|todo].
  - assert ((attempt <? retries - 1)%nat = false) as -> by (apply Nat.ltb_ge; lia).
    exists e0. cbn [fst snd]. rewrite Nat.add_0_r.
    rewrite print_slept, print_printed, http_get_slept, http_get_printed.
    simpl. rewrite app_nil_r. repeat split; try done. lia.
  - assert ((attempt <? retries - 1)%nat = true) as -> by (apply Nat.ltb_lt; lia).
    set (w1 := sleep _ _).
    destruct (IH (S attempt) w1) as (e & Hlast & Hres & Hsl & Hpr & Hsv);
      [lia | lia | |].
    { intros k Hk. destruct (Hfail (S k) ltac:(lia)) as [e He].
      exists e. subst w1. simpl. rewrite <- He. f_equal. lia. }
    exists e. split.
    { rewrite <- Hlast. subst w1. simpl. f_equal. lia. }
    split; [done|]. rewrite Hsl, Hpr, Hsv.
    subst w1. rewrite sleep_slept, sleep_printed, http_get_slept, http_get_printed.
    repeat split; [| simpl; lia].
    rewrite <- app_assoc. simpl. by rewrite Nat.sub_0_r.
Qed.

(** [n] failures, then a success, all within the attempts left. *)
Lemma imf_loop_eventual_success n : ∀ todo attempt w body,
  attempt + todo = retries → n < todo →
  (∀ k, k < n → ∃ e, net w r (served w + k) = HttpError e) →
  net w r (served w + n) = HttpOk body →
  (IMF.get_json_from url retries attempt todo w).1 = body ∧
  slept (IMF.get_json_from url retries attempt todo w).2
    = slept w ++ (backoff <$> seq attempt n) ∧
  printed (IMF.get_json_from url retries attempt todo w).2 = printed w.
Proof.
  induction n as [|n IH]; intros todo attempt w body Hsum Hlt Hfail Hok;
    (destruct todo as [|todo]; [lia|]).
  - rewrite Nat.add_0_r in Hok. rewrite (imf_loop_success _ _ _ _ Hok).
    cbn [fst snd]. rewrite http_get_slept, http_get_printed. simpl.
    by rewrite app_nil_r.
  - destruct (Hfail 0 ltac:(lia)) as [e0 He0]. rewrite Nat.add_0_r in He0.
    rewrite (imf_loop_failure _ _ _ _ He0).
    assert ((attempt <? retries - 1)%nat = true) as -> by (apply Nat.ltb_lt; lia).
    set (w1 := sleep _ _).
    destruct (IH todo (S attempt) w1 body) as (Hres & Hsl & Hpr); [lia | lia | | |].
    { intros k Hk. destruct (Hfail (S k) ltac:(lia)) as [e He].
      exists e. subst w1. simpl. rewrite <- He. f_equal. lia. }
    { rewrite <- Hok. subst w1. simpl. f_equal. lia. }
    rewrite Hres, Hsl, Hpr. subst w1.
    rewrite sleep_slept, sleep_printed, http_get_slept, http_get_printed.
    by rewrite <- app_assoc.
Qed.
End get_json.

Section wb_get_json.
Variables (r : request) (retries : nat).

Lemma wb_loop_failure attempt todo w e :
  net w r (served w) = HttpError e →
  WB.get_json_from r retries attempt (S todo) w
  = if (attempt <? retries - 1)%nat
    then WB.get_json_from r retries (S attempt) todo
           (sleep (backoff attempt) (http_get r w).2)
    else (JNull, print ("  FAILED: " +:+ e) (http_get r w).2).
Proof. intros He. cbn [WB.get_json_from]. unfold http_get. by rewrite He. Qed.

Lemma wb_loop_success attempt todo w data :
  net w r (served w) = HttpOk data →
  WB.get_json_from r retries attempt (S todo) w
  = (if WB.is_two_element_list data then data else JNull, (http_get r w).2).
Proof.
  intros He. cbn [WB.get_json_from]. unfold http_get. rewrite He.
  by destruct (WB.is_two_element_list data).
Qed.

Lemma wb_loop_all_fail todo : ∀ attempt w,
  attempt + todo = retries → 0 < todo →
  (∀ k, k < todo → ∃ e, net w r (served w + k) = HttpError e) →
  ∃ e,
    net w r (served w + (todo - 1)) = HttpError e ∧
    (WB.get_json_from r retries attempt todo w).1 = JNull ∧
    slept (WB.get_json_from r retries attempt todo w).2
      = slept w ++ (backoff <$> seq attempt (todo - 1)) ∧
    printed (WB.get_json_from r retries attempt todo w).2
      = printed w ++ ["  FAILED: " +:+ e +:+ nl] ∧
    served (WB.get_json_from r retries attempt todo w).2 = served w + todo.
Proof.
  induction todo as [|todo IH]; intros attempt w Hsum Hpos Hfail; [lia|].
  destruct (Hfail 0 ltac:(lia)) as [e0 He0]. rewrite Nat.add_0_r in He0.
  rewrite (wb_loop_failure _ _ _ _ He0).
  destruct todo as [|todo].
  - assert ((attempt <? retries - 1)%nat = false) as -> by (apply Nat.ltb_ge; lia).
    exists e0. cbn [fst snd]. rewrite Nat.add_0_r.
    rewrite print_slept, print_printed, http_get_slept, http_get_printed.
    simpl. rewrite app_nil_r. repeat split; try done. lia.
  - assert ((attempt <? retries - 1)%nat = true) as -> by (apply Nat.ltb_lt; lia).
    set (w1 := sleep _ _).
    destruct (IH (S attempt) w1) as (e & Hlast & Hres & Hsl & Hpr & Hsv);
      [lia | lia | |].
    { intros k Hk. destruct (Hfail (S k) ltac:(lia)) as [e He].
      exists e. subst w1. simpl. rewrite <- He. f_equal. lia. }
    exists e. split.
    { rewrite <- Hlast. subst w1. simpl. f_equal. lia. }
    split; [done|]. rewrite Hsl, Hpr, Hsv.
    subst w1. rewrite sleep_slept, sleep_printed, http_get_slept, http_get_printed.
    repeat split; [| simpl; lia].
    rewrite <- app_assoc. simpl. by rewrite Nat.sub_0_r.
Qed.

Lemma wb_loop_eventual_success n : ∀ todo attempt w data,
  attempt + todo = retries → n < todo →
  (∀ k, k < n → ∃ e, net w r (served w + k) = HttpError e) →
  net w r (served w + n) = HttpOk data →
  (WB.get_json_from r retries attempt todo w).1
    = (if WB.is_two_element_list data then data else JNull) ∧
  slept (WB.get_json_from r retries attempt todo w).2
    = slept w ++ (backoff <$> seq attempt n) ∧
  printed (WB.get_json_from r retries attempt todo w).2 = printed w.
Proof.
  induction n as [|n IH]; intros todo attempt w data Hsum Hlt Hfail Hok;
    (destruct todo as [|todo]; [lia|]).
  - rewrite Nat.add_0_r in Hok. rewrite (wb_loop_success _ _ _ _ Hok).
    cbn [fst snd]. rewrite http_get_slept, http_get_printed. simpl.
    by rewrite app_nil_r.
  - destruct (Hfail 0 ltac:(lia)) as [e0 He0]. rewrite Nat.add_0_r in He0.
    rewrite (wb_loop_failure _ _ _ _ He0).
    assert ((attempt <? retries - 1)%nat = true) as -> by (apply Nat.ltb_lt; lia).
    set (w1 := sleep _ _).
    destruct (IH todo (S attempt) w1 data) as (Hres & Hsl & Hpr); [lia | lia | | |].
    { intros k Hk. destruct (Hfail (S k) ltac:(lia)) as [e He].
      exists e. subst w1. simpl. rewrite <- He. f_equal. lia. }
    { rewrite <- Hok. subst w1. simpl. f_equal. lia. }
    rewrite Hres, Hsl, Hpr. subst w1.
    rewrite sleep_slept, sleep_printed, http_get_slept, http_get_printed.
    by rewrite <- app_assoc.
Qed.
End wb_get_json.

(** C3, as stated, fails. With [retries = 2] (which is [>= 1]) a provider
    that fails twice and would answer the third request is never asked a
    third time: [IMF.get_json] returns [None]. And with [retries = 3] a
    third answer that is not a two-element list makes [WB.get_json] return
    [None], not the parsed answer. *)
Lemma C3_counterexample :
  let body := JObj {[ "values" := JObj ∅ ]} in
  let message := JArr [JObj {[ "message" := JStr "Invalid value" ]}] in
  ((1 ≤ 2)%nat ∧
   fails_then 2 body (Request "u" []) 0 = HttpError "503 Server Error" ∧
   fails_then 2 body (Request "u" []) 1 = HttpError "503 Server Error" ∧
   fails_then 2 body (Request "u" []) 2 = HttpOk body ∧
   (IMF.get_json "u" 2 (start (fails_then 2 body))).1 = JNull ∧
   body ≠ JNull) ∧
  ((1 ≤ 3)%nat ∧
   fails_then 2 message (wb_request "u") 2 = HttpOk message ∧
   (WB.get_json "u" None 3 (start (fails_then 2 message))).1 = JNull ∧
   message ≠ JNull).
Proof. repeat split; try done; lia. Qed.

(** C3, amended. With [retries >= 3], two failures followed by a success
    make [IMF.get_json] return the parsed answer, and [WB.get_json] return
    it when it is a two-element list and [None] otherwise, after sleeping
    1 s and 2 s and without a warning. With [retries >= 1], failures on
    all [retries] attempts make both return [None], print exactly one
    line, the warning with the text of the last failure, and sleep
    [2 ** k] seconds after failure [k] for [k = 0 .. retries - 2]: 1 s,
    2 s, 4 s, ... with no sleep after the last failure. *)
Theorem C3_get_json_retry_backoff (url : string) (retries : nat) (w : world) :
  (∀ body,
     (3 ≤ retries)%nat →
     (∀ k, k < 2 → ∃ e, net w (Request url []) (served w + k) = HttpError e) →
     net w (Request url []) (served w + 2) = HttpOk body →
     (IMF.get_json url retries w).1 = body ∧
     slept (IMF.get_json url retries w).2 = slept w ++ [1%Q; 2%Q] ∧
     printed (IMF.get_json url retries w).2 = printed w) ∧
  (∀ data,
     (3 ≤ retries)%nat →
     (∀ k, k < 2 → ∃ e, net w (wb_request url) (served w + k) = HttpError e) →
     net w (wb_request url) (served w + 2) = HttpOk data →
     (WB.get_json url None retries w).1
       = (if WB.is_two_element_list data then data else JNull) ∧
     slept (WB.get_json url None retries w).2 = slept w ++ [1%Q; 2%Q] ∧
     printed (WB.get_json url None retries w).2 = printed w) ∧
  ((1 ≤ retries)%nat →
   (∀ k, k < retries → ∃ e, net w (Request url []) (served w + k) = HttpError e) →
   (IMF.get_json url retries w).1 = JNull ∧
   (∃ e, net w (Request url []) (served w + (retries - 1)) = HttpError e ∧
         printed (IMF.get_json url retries w).2
         = printed w ++ ["  FAILED: " +:+ e +:+ nl]) ∧
   slept (IMF.get_json url retries w).2
     = slept w ++ ((λ k, inject_Z (2 ^ Z.of_nat k)) <$> seq 0 (retries - 1))) ∧
  ((1 ≤ retries)%nat →
   (∀ k, k < retries → ∃ e, net w (wb_request url) (served w + k) = HttpError e) →
   (WB.get_json url None retries w).1 = JNull ∧
   (∃ e, net w (wb_request url) (served w + (retries - 1)) = HttpError e ∧
         printed (WB.get_json url None retries w).2
         = printed w ++ ["  FAILED: " +:+ e +:+ nl]) ∧
   slept (WB.get_json url None retries w).2
     = slept w ++ ((λ k, inject_Z (2 ^ Z.of_nat k)) <$> seq 0 (retries - 1))).
Proof.
  repeat split.
  1-3: intros; edestruct (imf_loop_eventual_success url retries 2 retries 0 w)
         as (? & ? & ?); eauto; lia.
  1-3: intros; edestruct (wb_loop_eventual_success (wb_request url) retries 2 retries 0 w)
         as (? & ? & ?); eauto; lia.
  1-3: intros; edestruct (imf_loop_all_fail url retries retries 0 w)
         as (e & ? & ? & ? & ? & _); eauto; lia.
  1-3: intros; edestruct (wb_loop_all_fail (wb_request url) retries retries 0 w)
         as (e & ? & ? & ? & ? & _); eauto; lia.
Qed.

Lemma C3_witness :
  (IMF.get_json "u" 3 (start (fails_then 2 (JObj ∅)))).1 = JObj ∅ ∧
  slept (IMF.get_json "u" 3 (start (fails_then 2 (JObj ∅)))).2 = [1%Q; 2%Q] ∧
  (IMF.get_json "u" 4 (start unreachable)).1 = JNull ∧
  slept (IMF.get_json "u" 4 (start unreachable)).2 = [1%Q; 2%Q; 4%Q].
Proof.
  destruct (C3_get_json_retry_backoff "u" 3 (start (fails_then 2 (JObj ∅))))
    as (Hok & _).
  destruct (Hok (JObj ∅)) as (H1 & H2 & _);
    [lia | intros k Hk; exists "503 Server Error";
           destruct k as [|[|k]]; [reflexivity | reflexivity | lia]
     | reflexivity |].
  destruct (C3_get_json_retry_backoff "u" 4 (start unreachable))
    as (_ & _ & Hfail & _).
  destruct Hfail as (H3 & _ & H4);
    [lia | intros k Hk; by exists "ConnectionError" |].
  repeat split; assumption.
Defined.

(** ** The download loops: what a failed request is counted as *)

(** When [get_json] gives [None], [IMF.fetch_indicator_data] gives [{}]:
    the caller cannot tell the failure from an indicator without data. *)
Lemma imf_fetch_after_failure (code : string) (w : world) :
  (IMF.get_json (imf_url code) 3 w).1 = JNull →
  IMF.fetch_indicator_data code w = (Ok (JObj ∅), (IMF.get_json (imf_url code) 3 w).2).
Proof.
  unfold IMF.fetch_indicator_data, bind, total. fold (imf_url code).
  destruct (IMF.get_json (imf_url code) 3 w) as [data w']. simpl. by intros ->.
Qed.

Lemma wb_fetch_after_failure (indicator_id : string) (w : world) :
  (WB.get_json (wb_url indicator_id) None 3 w).1 = JNull →
  WB.fetch_indicator_data indicator_id w
  = (Ok [], (WB.get_json (wb_url indicator_id) None 3 w).2).
Proof.
  unfold WB.fetch_indicator_data, bind, total. fold (wb_url indicator_id).
  destruct (WB.get_json (wb_url indicator_id) None 3 w) as [resp w']. simpl. by intros ->.
Qed.

(** One turn of the IMF loop for an indicator whose three requests all
    fail: the turn ends normally, [empty] goes up by one, and [failed],
    [success] and [all_data] stay as they are. *)
Lemma imf_turn_after_failure (n i : nat) (code label : string) (t : IMF.tally) (w : world) :
  (∀ k, k < 3 → ∃ e, net w (Request (imf_url code) []) (served w + k) = HttpError e) →
  ∃ w',
    IMF.loop_body n i (code, label) t w
    = (Ok (IMF.Tally (IMF.all_data t) (IMF.success t) (S (IMF.empty t)) (IMF.failed t)), w').
Proof.
  intros Hfail. unfold IMF.loop_body, bind, act.
  set (w0 := print_end _ _ w).
  destruct (imf_loop_all_fail (imf_url code) 3 3 0 w0) as (e & _ & Hnone & _);
    [lia | lia | exact Hfail |].
  rewrite (imf_fetch_after_failure code w0 Hnone).
  unfold pure, ret.
  assert (IMF.has_data (JObj ∅) = Ok false) as -> by reflexivity.
  cbn [is_none negb]. destruct (i mod 8 =? 0)%nat; eauto.
Qed.

Lemma wb_turn_after_failure (n i : nat) (ind : WB.indicator) (t : WB.tally) (w : world) :
  (∀ k, k < 3 →
     ∃ e, net w (wb_request (wb_url (WB.ind_id ind))) (served w + k) = HttpError e) →
  ∃ w',
    WB.loop_body n i ind t w
    = (Ok (WB.Tally (WB.all_data t) (WB.indicator_info t)
                    (WB.success t) (S (WB.empty t)) (WB.failed t)), w').
Proof.
  intros Hfail. unfold WB.loop_body, bind, act.
  set (w0 := print_end _ _ w).
  destruct (wb_loop_all_fail (wb_request (wb_url (WB.ind_id ind))) 3 3 0 w0)
    as (e & _ & Hnone & _); [lia | lia | exact Hfail |].
  rewrite (wb_fetch_after_failure (WB.ind_id ind) w0 Hnone).
  unfold ret. simpl. eauto.
Qed.

(** The World Bank loop never touches [failed]. *)
Lemma wb_turn_failed (n i : nat) (ind : WB.indicator) (t t' : WB.tally) (w w' : world) :
  WB.loop_body n i ind t w = (Ok t', w') → WB.failed t' = WB.failed t.
Proof.
  unfold WB.loop_body, bind, act, ret.
  destruct (WB.fetch_indicator_data _ _) as [[[|kv result]|e] w1]; simpl;
    intros [= <- _]; reflexivity.
Qed.

(** C1: the code at the failing input. The provider is out of reach, so
    every request for the one indicator fails and [get_json] returns
    [None] after its retries. Both loops report the indicator as empty
    ("no data"), with [failed] at 0, and nothing but the counts reaches
    the final report. *)
Theorem C1_failed_request_counted_as_empty :
  counters_imf (IMF.download_all [("NGDP_RPCH", "Real GDP growth")] (start unreachable))
    = Some (0, 1, 0) ∧
  printed (IMF.download_all [("NGDP_RPCH", "Real GDP growth")] (start unreachable)).2
    = ["[1/1] NGDP_RPCH: Real GDP growth... ";
       "  FAILED: ConnectionError" +:+ nl;
       "no data for ECU" +:+ nl;
       nl +:+ "Results: 0 with data, 1 empty, 0 failed" +:+ nl +:+ nl] ∧
  counters_wb (WB.download_all
                 [WB.Indicator "NY.GDP.MKTP.CD" (Some "GDP (current US$)") None []]
                 (start unreachable))
    = Some (0, 1, 0) ∧
  printed (WB.download_all
             [WB.Indicator "NY.GDP.MKTP.CD" (Some "GDP (current US$)") None []]
             (start unreachable)).2
    = ["[1/1] NY.GDP.MKTP.CD: GDP (current US$)... ";
       "  FAILED: ConnectionError" +:+ nl;
       "no data" +:+ nl;
       nl +:+ "Results: 0 with data, 1 empty, 0 failed" +:+ nl +:+ nl].
Proof. repeat split; vm_compute; reflexivity. Qed.

(** ** The series downloaders: which values reach the mapping *)

(** [IMF.fetch_indicator_data] returns what the provider has under
    ["values"][code]["ECU"] as it is. *)
Lemma imf_fetch_verbatim (code : string) (w : world) (m vs cs : gmap string json)
    (series : json) :
  net w (Request (imf_url code) []) (served w) = HttpOk (JObj m) →
  m !! "values" = Some (JObj vs) →
  vs !! code = Some (JObj cs) →
  cs !! "ECU" = Some series →
  (IMF.fetch_indicator_data code w).1 = Ok series.
Proof.
  intros Hnet Hm Hvs Hcs.
  unfold IMF.fetch_indicator_data, bind, total, IMF.get_json. fold (imf_url code).
  rewrite (imf_loop_success _ _ _ _ _ _ Hnet). cbn [fst snd].
  assert (truthy (JObj m) = true) as ->.
  { simpl. destruct (size m) eqn:Hsize; [|done].
    apply map_size_empty_iff in Hsize. subst m. by rewrite lookup_empty in Hm. }
  unfold pure, ret. cbn [negb contains getitem Py.get].
  rewrite bool_decide_true by (rewrite Hm; eauto).
  cbn [negb]. rewrite Hm. cbn [Py.get]. rewrite Hvs. cbn [Py.get fst].
  unfold IMF.COUNTRY. by rewrite Hcs.
Qed.

(** The dict that [WB.fetch_indicator_data] builds holds no [None]. *)
Lemma wb_add_record_values (result result' : list (json * json)) (record : json) :
  Forall (λ kv, is_none kv.2 = false) result →
  WB.add_record result record = Ok result' →
  Forall (λ kv, is_none kv.2 = false) result'.
Proof.
  intros Hres. unfold WB.add_record.
  destruct (Py.get record "date" JNull) as [year|]; [|done].
  destruct (Py.get record "value" JNull) as [value|]; [|done]. cbn [rbind].
  destruct (truthy year); [|by intros [= <-]]. cbn [andb].
  destruct (is_none value) eqn:Hvalue; [by intros [= <-]|]. cbn [negb].
  destruct (hashable year); [|done]. intros [= <-].
  clear -Hres Hvalue. induction Hres as [|[k v] result Hv Hres IH]; simpl.
  - by constructor.
  - destruct (key_eqb k year); constructor; auto.
Qed.

Lemma wb_add_records_values (records : list json) : ∀ result result',
  Forall (λ kv, is_none kv.2 = false) result →
  WB.add_records result records = Ok result' →
  Forall (λ kv, is_none kv.2 = false) result'.
Proof.
  induction records as [|record records IH]; intros result result' Hres; simpl.
  - by intros [= <-].
  - destruct (WB.add_record result record) as [result1|] eqn:Hadd; [|done].
    simpl. eauto using wb_add_record_values.
Qed.

Lemma wb_fetch_values (indicator_id : string) (w : world) (result : list (json * json)) :
  (WB.fetch_indicator_data indicator_id w).1 = Ok result →
  Forall (λ kv, is_none kv.2 = false) result.
Proof.
  unfold WB.fetch_indicator_data, bind, total, ret, pure.
  destruct (WB.get_json _ _ _ _) as [resp w'].
  destruct (truthy resp); cbn [negb]; [|by intros [= <-]].
  destruct (index resp 1) as [records|]; [|done].
  destruct (truthy records); cbn [negb]; [|by intros [= <-]].
  destruct (iter records) as [rs|]; [|done]. cbn [fst].
  by apply wb_add_records_values.
Qed.

(** C2: the code at the failing input. [IMF.fetch_indicator_data] hands
    the provider's mapping on with its [null] entry: the returned mapping
    has the key ["2001"] with the value [None]. *)
Theorem C2_imf_mapping_keeps_null :
  (IMF.fetch_indicator_data "NGDP_RPCH" (start (serves imf_body_with_null))).1
    = Ok (JObj {[ "2000" := JNum 1.1; "2001" := JNull ]}) ∧
  ({[ "2000" := JNum 1.1; "2001" := JNull ]} : gmap string json) !! "2001" = Some JNull.
Proof.
  split; [|reflexivity].
  apply (imf_fetch_verbatim "NGDP_RPCH" _
           {[ "values" := JObj {[ "NGDP_RPCH" :=
                JObj {[ "ECU" := JObj {[ "2000" := JNum 1.1; "2001" := JNull ]} ]} ]} ]}
           {[ "NGDP_RPCH" := JObj {[ "ECU" := JObj {[ "2000" := JNum 1.1; "2001" := JNull ]} ]} ]}
           {[ "ECU" := JObj {[ "2000" := JNum 1.1; "2001" := JNull ]} ]});
    reflexivity.
Qed.

(** ** [sorted] *)

Section sorted_facts.
Context {A : Type} (key : A → string).

Lemma leb_le (a b : string) : String.leb a b = true ↔ String.le a b.
Proof. unfold String.le. by rewrite Is_true_true. Qed.

Lemma not_leb_le (a b : string) : String.leb a b = false → String.le b a.
Proof.
  intros Hab. destruct (String.le_total a b) as [Hle|Hle]; [|done].
  apply leb_le in Hle. congruence.
Qed.

Lemma insert_sorted_perm x l : insert_sorted key x l ≡ₚ x :: l.
Proof.
  induction l as [|y l IH]; simpl; [done|].
  destruct (String.leb (key x) (key y)); [done|].
  rewrite IH. apply Permutation_swap.
Qed.

Lemma sorted_perm l : sorted key l ≡ₚ l.
Proof.
  induction l as [|x l IH]; simpl; [done|].
  unfold sorted in IH. by rewrite insert_sorted_perm, IH.
Qed.

Lemma elem_of_sorted x l : x ∈ sorted key l ↔ x ∈ l.
Proof. by rewrite sorted_perm. Qed.

Lemma NoDup_sorted l : NoDup l → NoDup (sorted key l).
Proof. by rewrite sorted_perm. Qed.

Lemma insert_sorted_ascending x l :
  StronglySorted (by_key key) l → StronglySorted (by_key key) (insert_sorted key x l).
Proof.
  induction 1 as [|y l Hl IH Hy]; simpl.
  - by repeat constructor.
  - destruct (String.leb (key x) (key y)) eqn:Hxy.
    + apply leb_le in Hxy. constructor; [by constructor|].
      constructor; [done|]. eapply Forall_impl; [exact Hy|].
      intros z Hz. unfold by_key in *. by etrans.
    + apply not_leb_le in Hxy. constructor; [done|].
      rewrite insert_sorted_perm. by constructor.
Qed.

Lemma sorted_ascending l : StronglySorted (by_key key) (sorted key l).
Proof.
  induction l as [|x l IH]; simpl; [constructor|].
  by apply insert_sorted_ascending.
Qed.
End sorted_facts.

(** ** Insertion-ordered dictionaries with string keys *)

Section dict_facts.
Context {V : Type}.
Implicit Types (d : list (string * V)) (k : string) (v : V).

Lemma keys_setitem k v d :
  Dict.keys (Dict.setitem String.eqb k v d) = keys_after (Dict.keys d) k.
Proof.
  unfold keys_after, Dict.keys. induction d as [|[k' v'] d IH]; csimpl; [done|].
  destruct (String.eqb_spec k' k) as [->|Hne].
  - by rewrite bool_decide_true by left.
  - csimpl. rewrite IH. case_bool_decide as Hin.
    + by rewrite bool_decide_true by by right.
    + rewrite bool_decide_false; [done|].
      intros [?|?]%elem_of_cons; congruence.
Qed.

Lemma get_setitem k k' v d :
  Dict.get String.eqb k' (Dict.setitem String.eqb k v d)
  = if decide (k = k') then Some v else Dict.get String.eqb k' d.
Proof.
  induction d as [|[k0 v0] d IH]; simpl.
  - destruct (String.eqb_spec k k'), (decide (k = k')); congruence.
  - destruct (String.eqb_spec k0 k) as [->|Hne]; simpl.
    + destruct (String.eqb_spec k k'), (decide (k = k')); congruence.
    + destruct (String.eqb_spec k0 k') as [->|Hne'].
      * by rewrite decide_False by congruence.
      * apply IH.
Qed.

Lemma get_is_Some k d : is_Some (Dict.get String.eqb k d) ↔ k ∈ Dict.keys d.
Proof.
  unfold Dict.keys. induction d as [|[k0 v0] d IH]; simpl.
  - rewrite elem_of_nil. split; [by intros [? ?]|done].
  - rewrite elem_of_cons. destruct (String.eqb_spec k0 k) as [->|Hne].
    + split; eauto.
    + rewrite IH. naive_solver.
Qed.

Lemma keys_fill {X} (f : X → string) (g : X → V) xs : ∀ d,
  Dict.keys (fill f g xs d) = fold_left keys_after (f <$> xs) (Dict.keys d).
Proof.
  induction xs as [|x xs IH]; intros d; simpl; [done|].
  unfold fill in *. simpl. by rewrite IH, keys_setitem.
Qed.

Lemma keys_after_fresh (ks : list string) ks' :
  NoDup (ks ++ ks') → fold_left keys_after ks' ks = ks ++ ks'.
Proof.
  revert ks. induction ks' as [|k ks' IH]; intros ks Hnd; simpl.
  - by rewrite app_nil_r.
  - unfold keys_after at 2. rewrite bool_decide_false.
    + rewrite IH; rewrite <- app_assoc; done.
    + apply NoDup_app in Hnd as (_ & Hdisj & _). intros Hin.
      apply (Hdisj k Hin). by left.
Qed.

Lemma elem_of_keys_after (ks' : list string) : ∀ ks k,
  k ∈ fold_left keys_after ks' ks ↔ k ∈ ks ∨ k ∈ ks'.
Proof.
  induction ks' as [|k' ks' IH]; intros ks k; simpl.
  - rewrite elem_of_nil. naive_solver.
  - rewrite IH, elem_of_cons. unfold keys_after. case_bool_decide.
    + naive_solver.
    + rewrite elem_of_app, list_elem_of_singleton. naive_solver.
Qed.

Lemma get_fill_other {X} (f : X → string) (g : X → V) xs k : ∀ d,
  k ∉ f <$> xs → Dict.get String.eqb k (fill f g xs d) = Dict.get String.eqb k d.
Proof.
  induction xs as [|x xs IH]; intros d Hk; [done|].
  unfold fill in *. simpl. rewrite IH.
  - rewrite get_setitem, decide_False; [done|].
    intros Heq. apply Hk. rewrite <- Heq. by left.
  - intros Hin. apply Hk. by right.
Qed.

Lemma get_fill {X} (f : X → string) (g : X → V) xs x : ∀ d,
  NoDup (f <$> xs) → x ∈ xs →
  Dict.get String.eqb (f x) (fill f g xs d) = Some (g x).
Proof.
  induction xs as [|x0 xs IH]; intros d Hnd Hx; [by apply elem_of_nil in Hx|].
  apply NoDup_cons in Hnd as [Hx0 Hnd]. unfold fill in *. simpl.
  destruct (decide (f x = f x0)) as [Heq|Hne].
  - rewrite Heq. fold (fill f g xs (Dict.setitem String.eqb (f x0) (g x0) d)).
    rewrite get_fill_other by done. rewrite get_setitem, decide_True by done.
    apply elem_of_cons in Hx as [->|Hx]; [done|].
    exfalso. apply Hx0. rewrite <- Heq. by apply list_elem_of_fmap_2.
  - apply IH; [done|]. apply elem_of_cons in Hx as [->|Hx]; [done|done].
Qed.
End dict_facts.

(** ** The wide table *)

Lemma column_not_Year (label code : string) : IMF.column label code ≠ "Year".
Proof.
  unfold IMF.column. intros H.
  do 4 (destruct label as [|? label];
        [vm_compute in H; discriminate H|];
        change (String ?a ?l +:+ ?s) with (String a (l +:+ s)) in H;
        injection H as _ H).
  destruct label; vm_compute in H; discriminate H.
Qed.

Lemma wb_column_eq : WB.column = IMF.column.
Proof. reflexivity. Qed.

Lemma wb_all_years_eq : WB.all_years = IMF.all_years.
Proof. reflexivity. Qed.

Lemma elem_of_all_years (all_data : gmap string (gmap string json)) (year : string) :
  year ∈ IMF.all_years all_data
  ↔ ∃ code year_dict, all_data !! code = Some year_dict ∧ is_Some (year_dict !! year).
Proof.
  unfold IMF.all_years.
  apply (map_fold_weak_ind (λ acc (m : gmap string (gmap string json)),
    year ∈ acc ↔ ∃ code year_dict, m !! code = Some year_dict ∧ is_Some (year_dict !! year))).
  - rewrite elem_of_empty. split; [done|]. intros (code & yd & Hm & _).
    by rewrite lookup_empty in Hm.
  - intros code yd m acc Hfresh IH. rewrite elem_of_union, IH, elem_of_dom. split.
    + intros [(code' & yd' & Hm & Hy)|Hy].
      * exists code', yd'. split; [|done].
        rewrite lookup_insert_ne; [done|]. intros ->. congruence.
      * exists code, yd. by rewrite lookup_insert_eq.
    + intros (code' & yd' & Hm & Hy).
      destruct (decide (code = code')) as [->|Hne].
      * rewrite lookup_insert_eq in Hm. injection Hm as ->. by right.
      * rewrite lookup_insert_ne in Hm by done. left. eauto.
Qed.

Lemma elem_of_periods (all_data : gmap string (gmap string json)) (year : string) :
  year ∈ periods all_data
  ↔ ∃ code year_dict, all_data !! code = Some year_dict ∧ is_Some (year_dict !! year).
Proof. unfold periods. by rewrite elem_of_sorted, elem_of_elements, elem_of_all_years. Qed.

Lemma periods_ascending (all_data : gmap string (gmap string json)) :
  StronglySorted String.le (periods all_data).
Proof. apply (sorted_ascending id). Qed.

Lemma periods_NoDup (all_data : gmap string (gmap string json)) :
  NoDup (periods all_data).
Proof. apply NoDup_sorted, NoDup_elements. Qed.

Lemma imf_build_row_fill (all_data : gmap string (gmap string json))
    (indicators : list (string * string)) (year : string) :
  IMF.build_row all_data indicators year
  = fill imf_column (imf_cell all_data year) (sorted snd indicators) [("Year", JStr year)].
Proof.
  unfold IMF.build_row, fill. generalize [("Year", JStr year)].
  induction (sorted snd indicators) as [|[code label] items IH]; intros r; [done|].
  simpl. apply IH.
Qed.

Lemma Year_not_imf_column (items : list (string * string)) : "Year" ∉ imf_column <$> items.
Proof.
  intros ([code label] & Heq & _)%list_elem_of_fmap.
  symmetry in Heq. by apply column_not_Year in Heq.
Qed.

Lemma wb_set_cells_fill (all_data : gmap string (gmap string json))
    (indicator_info : gmap string WB.info) (year : string) (codes : list string) : ∀ r,
  (∀ code, code ∈ codes → is_Some (all_data !! code) ∧ is_Some (indicator_info !! code)) →
  WB.set_cells all_data indicator_info year r codes
  = Ok (fill (wb_column indicator_info) (wb_cell all_data year) codes r).
Proof.
  induction codes as [|code codes IH]; intros r Hok; [done|].
  destruct (Hok code ltac:(by left)) as [[yd Hyd] [inf Hinf]].
  cbn [WB.set_cells]. unfold WB.set_cell at 1. rewrite Hyd, Hinf. cbn [rbind].
  rewrite IH by (intros c Hc; apply Hok; by right).
  unfold fill. simpl. unfold wb_column, wb_cell. by rewrite Hyd, Hinf.
Qed.

Lemma elem_of_wb_codes (all_data : gmap string (gmap string json)) (code : string) :
  code ∈ wb_codes all_data ↔ is_Some (all_data !! code).
Proof. unfold wb_codes. by rewrite elem_of_sorted, elem_of_elements, elem_of_dom. Qed.

Lemma wb_build_row_fill (all_data : gmap string (gmap string json))
    (indicator_info : gmap string WB.info) (year : string) :
  dom all_data ⊆ dom indicator_info →
  WB.build_row all_data indicator_info year
  = Ok (fill (wb_column indicator_info) (wb_cell all_data year)
             (wb_codes all_data) [("Year", JStr year)]).
Proof.
  intros Hdom. unfold WB.build_row. apply wb_set_cells_fill.
  intros code Hcode%elem_of_wb_codes. split; [done|].
  apply elem_of_dom, Hdom, elem_of_dom, Hcode.
Qed.

Lemma wb_build_rows_fill (all_data : gmap string (gmap string json))
    (indicator_info : gmap string WB.info) (years : list string) :
  dom all_data ⊆ dom indicator_info →
  WB.build_rows all_data indicator_info years
  = Ok ((λ year, fill (wb_column indicator_info) (wb_cell all_data year)
                      (wb_codes all_data) [("Year", JStr year)]) <$> years).
Proof.
  intros Hdom. induction years as [|year years IH]; [done|].
  cbn [WB.build_rows]. by rewrite wb_build_row_fill, IH.
Qed.

Lemma Year_not_wb_column (indicator_info : gmap string WB.info) (codes : list string) :
  "Year" ∉ wb_column indicator_info <$> codes.
Proof.
  intros (code & Heq & _)%list_elem_of_fmap.
  symmetry in Heq. by apply column_not_Year in Heq.
Qed.

(** C5. The ["Year"] fields of the rows of the IMF panel, and of the
    World Bank panel, are in order the periods of [all_data]: ascending,
    without repetition, and a period is among them exactly when some
    indicator's series has it. The World Bank table is built whenever
    every indicator with data has its [indicator_info], as [main]
    arranges. *)
Theorem C5_panel_rows_are_the_sorted_union_of_periods
    (all_data : gmap string (gmap string json))
    (indicators : list (string * string)) (indicator_info : gmap string WB.info) :
  dom all_data ⊆ dom indicator_info →
  ∃ years wb_rows,
    WB.build_panel all_data indicator_info = Ok wb_rows ∧
    year_of <$> IMF.build_panel all_data indicators = (λ y, Some (JStr y)) <$> years ∧
    year_of <$> wb_rows = (λ y, Some (JStr y)) <$> years ∧
    StronglySorted String.le years ∧
    NoDup years ∧
    ∀ year, year ∈ years
            ↔ ∃ code year_dict,
                all_data !! code = Some year_dict ∧ is_Some (year_dict !! year).
Proof.
  intros Hdom. exists (periods all_data). eexists. split.
  { unfold WB.build_panel. rewrite wb_all_years_eq.
    by apply wb_build_rows_fill. }
  split; [|split; [|split; [|split]]].
  - unfold IMF.build_panel. fold (periods all_data).
    rewrite <- list_fmap_compose. apply list_fmap_ext. intros _ year _. simpl.
    rewrite imf_build_row_fill. unfold year_of.
    by rewrite get_fill_other by apply Year_not_imf_column.
  - rewrite <- list_fmap_compose. apply list_fmap_ext. intros _ year _. simpl.
    unfold year_of. by rewrite get_fill_other by apply Year_not_wb_column.
  - apply periods_ascending.
  - apply periods_NoDup.
  - apply elem_of_periods.
Qed.

(** The rows of a panel, one per period. *)
Lemma elem_of_imf_panel (all_data : gmap string (gmap string json))
    (indicators : list (string * string)) (r : IMF.row) :
  r ∈ IMF.build_panel all_data indicators
  ↔ ∃ year, year ∈ periods all_data ∧
            r = fill imf_column (imf_cell all_data year) (sorted snd indicators)
                     [("Year", JStr year)].
Proof.
  unfold IMF.build_panel. fold (periods all_data). rewrite list_elem_of_fmap.
  split; intros (year & ? & ?); exists year; by rewrite imf_build_row_fill in *.
Qed.

Lemma keys_imf_row (all_data : gmap string (gmap string json))
    (indicators : list (string * string)) (r : IMF.row) :
  r ∈ IMF.build_panel all_data indicators → Dict.keys r = imf_header indicators.
Proof. intros (year & _ & ->)%elem_of_imf_panel. by rewrite keys_fill. Qed.

Lemma no_unknown_fields (fieldnames : list string) (r : IMF.row) :
  Dict.keys r = fieldnames → IMF.unknown_fields fieldnames r = [].
Proof.
  intros <-. unfold IMF.unknown_fields.
  assert (∀ ks : list string, ks ⊆ Dict.keys r → filter (λ k, k ∉ Dict.keys r) ks = [])
    as Hall; [|by apply Hall].
  induction ks as [|k ks IH]; intros Hsub; [done|].
  rewrite filter_cons_False.
  - apply IH. intros x Hx. apply Hsub. by right.
  - intros Hk. apply Hk, Hsub. by left.
Qed.

Lemma writerows_ok (fieldnames : list string) (rows : list IMF.row) :
  (∀ r, r ∈ rows → Dict.keys r = fieldnames) →
  ∃ lines, IMF.writerows fieldnames rows = Ok lines ∧ length lines = length rows.
Proof.
  induction rows as [|r rows IH]; intros Hkeys; [by exists []|].
  destruct IH as (lines & Hlines & Hlen); [intros; apply Hkeys; by right|].
  cbn [IMF.writerows]. unfold IMF.writerow.
  rewrite no_unknown_fields by (apply Hkeys; by left).
  cbn [rbind]. rewrite Hlines. cbn [rbind]. eexists. split; [done|]. simpl. by rewrite Hlen.
Qed.

(** C10. Every row of the IMF panel has the keys "Year" and
    [f"{label} [{code}]"] for the indicators it is given, and no other;
    the keys, in their order, are the same for all rows and do not depend
    on the data (on which periods an indicator covers); so the header
    taken from the first row is the key list of every row, no row has a
    field outside of it, and [writerows] returns without [ValueError],
    with one line per row. *)
Theorem C10_imf_rows_share_one_key_set
    (all_data : gmap string (gmap string json)) (indicators : list (string * string)) :
  (∀ r k, r ∈ IMF.build_panel all_data indicators →
     (k ∈ Dict.keys r
      ↔ k = "Year" ∨ ∃ code label, (code, label) ∈ indicators ∧ k = IMF.column label code)) ∧
  (∀ r1 r2, r1 ∈ IMF.build_panel all_data indicators →
            r2 ∈ IMF.build_panel all_data indicators →
            Dict.keys r1 = Dict.keys r2) ∧
  (∀ other_data r r', r ∈ IMF.build_panel all_data indicators →
                      r' ∈ IMF.build_panel other_data indicators →
                      Dict.keys r = Dict.keys r') ∧
  (∀ first rest r, IMF.build_panel all_data indicators = first :: rest →
                   r ∈ first :: rest →
                   IMF.unknown_fields (Dict.keys first) r = []) ∧
  (∃ written, IMF.write_panel (IMF.build_panel all_data indicators) = Ok written ∧
              match written with
              | Some (fieldnames, lines) =>
                  length lines = length (IMF.build_panel all_data indicators)
              | None => IMF.build_panel all_data indicators = []
              end).
Proof.
  split; [|split; [|split; [|split]]].
  - intros r k Hr. rewrite (keys_imf_row _ _ _ Hr). unfold imf_header.
    rewrite elem_of_keys_after, list_elem_of_singleton, list_elem_of_fmap.
    split; (intros [?|Hcol]; [by left|right]).
    + destruct Hcol as ([code label] & -> & Hin%elem_of_sorted). by exists code, label.
    + destruct Hcol as (code & label & Hin & ->).
      exists (code, label). split; [done|]. by apply elem_of_sorted.
  - intros r1 r2 H1 H2. by rewrite (keys_imf_row _ _ _ H1), (keys_imf_row _ _ _ H2).
  - intros other r r' H1 H2. by rewrite (keys_imf_row _ _ _ H1), (keys_imf_row _ _ _ H2).
  - intros first rest r Hrows Hr. apply no_unknown_fields.
    rewrite <- Hrows in Hr.
    rewrite (keys_imf_row all_data indicators r Hr).
    symmetry. apply (keys_imf_row all_data indicators). rewrite Hrows. by left.
  - unfold IMF.write_panel.
    destruct (IMF.build_panel all_data indicators) as [|first rest] eqn:Hrows.
    + by exists None.
    + destruct (writerows_ok (Dict.keys first) (first :: rest)) as (lines & Hlines & Hlen).
      { intros r Hr. rewrite <- Hrows in Hr.
        rewrite (keys_imf_row all_data indicators r Hr).
        symmetry. apply (keys_imf_row all_data indicators). rewrite Hrows. by left. }
      rewrite Hlines. cbn [rbind]. by exists (Some (Dict.keys first, lines)).
Qed.

Lemma elem_of_wb_panel (all_data : gmap string (gmap string json))
    (indicator_info : gmap string WB.info) (wb_rows : list WB.row) (r : WB.row) :
  dom all_data ⊆ dom indicator_info →
  WB.build_panel all_data indicator_info = Ok wb_rows →
  r ∈ wb_rows
  ↔ ∃ year, year ∈ periods all_data ∧
            r = fill (wb_column indicator_info) (wb_cell all_data year)
                     (wb_codes all_data) [("Year", JStr year)].
Proof.
  intros Hdom. unfold WB.build_panel. rewrite wb_all_years_eq. fold (periods all_data).
  rewrite wb_build_rows_fill by done. intros [= <-]. rewrite list_elem_of_fmap.
  split; intros (year & ? & ?); by exists year.
Qed.

(** C4, as stated, fails for the World Bank table: its columns follow the
    codes. Here the column of "Land area (sq. km)" comes before the
    column of "Foreign direct investment", against the order of the
    labels. *)
Lemma C4_counterexample :
  WB.build_panel land_and_investment land_and_investment_info
    = Ok [[("Year", JStr "2001");
           ("Land area (sq. km) [AG.LND.TOTL.K2]", JNum 256370);
           ("Foreign direct investment [BX.KLT.DINV.CD.WD]", JNum 538.6)]] ∧
  ¬ String.le "Land area (sq. km)" "Foreign direct investment".
Proof. split; [vm_compute; reflexivity | vm_compute; tauto]. Qed.

(** C4, amended. When no two indicators share a column name, every row
    of the IMF panel has the fields "Year" and then [f"{label} [{code}]"]
    for the indicators in ascending order of their labels (equal labels
    in the order of the dict); every row of the World Bank panel has the
    fields "Year" and then [f"{name} [{code}]"] for the indicators with
    data in ascending order of their codes. *)
Theorem C4_column_order
    (all_data : gmap string (gmap string json))
    (indicators : list (string * string)) (indicator_info : gmap string WB.info) :
  dom all_data ⊆ dom indicator_info →
  NoDup ((λ item, IMF.column item.2 item.1) <$> indicators) →
  NoDup ((λ code, WB.column (from_option WB.i_name "" (indicator_info !! code)) code)
           <$> sorted id (elements (dom all_data))) →
  ∃ wb_rows,
    WB.build_panel all_data indicator_info = Ok wb_rows ∧
    (∀ r, r ∈ IMF.build_panel all_data indicators →
          Dict.keys r
          = "Year" :: ((λ item, IMF.column item.2 item.1) <$> sorted snd indicators)) ∧
    StronglySorted (λ a b, String.le a.2 b.2) (sorted snd indicators) ∧
    sorted snd indicators ≡ₚ indicators ∧
    (∀ r, r ∈ wb_rows →
          Dict.keys r
          = "Year" :: ((λ code, WB.column (from_option WB.i_name "" (indicator_info !! code)) code)
                         <$> sorted id (elements (dom all_data)))) ∧
    StronglySorted String.le (sorted id (elements (dom all_data))) ∧
    (∀ code, code ∈ sorted id (elements (dom all_data)) ↔ is_Some (all_data !! code)).
Proof.
  intros Hdom Himf Hwb.
  destruct (WB.build_panel all_data indicator_info) as [wb_rows|e] eqn:Hpanel; last first.
  { unfold WB.build_panel in Hpanel. by rewrite wb_build_rows_fill in Hpanel. }
  exists wb_rows. split; [done|]. split; [|split; [|split; [|split; [|split]]]].
  - intros r (year & _ & ->)%elem_of_imf_panel. rewrite keys_fill.
    change (Dict.keys [("Year", JStr year)]) with ["Year"].
    apply (keys_after_fresh ["Year"]). apply NoDup_cons. split.
    + apply Year_not_imf_column.
    + unfold imf_column. by rewrite sorted_perm.
  - apply (sorted_ascending snd).
  - apply sorted_perm.
  - intros r (year & _ & ->)%(elem_of_wb_panel _ _ _ _ Hdom Hpanel). rewrite keys_fill.
    change (Dict.keys [("Year", JStr year)]) with ["Year"].
    apply (keys_after_fresh ["Year"]). apply NoDup_cons. split.
    + apply Year_not_wb_column.
    + exact Hwb.
  - apply (sorted_ascending id).
  - apply elem_of_wb_codes.
Qed.

(** ** The cells *)

Lemma value_at_observation (all_data : gmap string (gmap string json)) (code year : string) :
  IMF.value_at all_data code year = default JNull (observation all_data code year).
Proof.
  unfold IMF.value_at, observation. destruct (all_data !! code); simpl; [done|].
  by rewrite lookup_empty.
Qed.

Lemma cell_of_observation (all_data : gmap string (gmap string json)) (code year : string) :
  numeric all_data →
  let c := IMF.cell (default JNull (observation all_data code year)) in
  (c = JStr "" ↔ observation all_data code year = None
                 ∨ observation all_data code year = Some JNull) ∧
  (∀ q, observation all_data code year = Some (JNum q) → c = JNum q).
Proof.
  intros Hnum. specialize (Hnum code year).
  destruct (observation all_data code year) as [v|]; simpl.
  - destruct (Hnum v eq_refl) as [->|[q ->]]; simpl.
    + split; [|done]. split; [by right|done].
    + split; [|by intros ? [= ->]]. split; [done|]. by intros [?|?].
  - split; [|done]. split; [by left|done].
Qed.

(** C6, as stated, fails when two indicators give one column name: they
    share one field of the row, which holds what the indicator written
    last has for the period. Here the indicator with the code ["B [C"]
    and the label ["A"] has the value 1 in 2001; the indicator with the
    code ["C"] and the label ["A [B"] has none, is written second (in
    the order of the labels, and of the codes), and leaves the field
    ["A [B [C]"] of the row of 2001 empty, in both panels. *)
Lemma C6_counterexample :
  observation clash_data "B [C" "2001" = Some (JNum 1) ∧
  IMF.column "A" "B [C" = "A [B [C]" ∧
  IMF.column "A [B" "C" = "A [B [C]" ∧
  IMF.build_panel clash_data clash_indicators
    = [[("Year", JStr "2001"); ("A [B [C]", JStr "")];
       [("Year", JStr "2002"); ("A [B [C]", JNum 5)]] ∧
  WB.build_panel clash_data clash_info
    = Ok [[("Year", JStr "2001"); ("A [B [C]", JStr "")];
          [("Year", JStr "2002"); ("A [B [C]", JNum 5)]].
Proof. repeat split; vm_compute; reflexivity. Qed.

(** C6, amended. When no two indicators share a column name, and the
    mapping holds numbers or [None]: in the IMF panel and in the World
    Bank panel, the cell of a period and an indicator is the empty
    string exactly when the input mapping has no number for that pair
    (no entry, or an entry that is [None]); a number, zero included, is
    rendered as itself. *)
Theorem C6_cell_empty_iff_no_observation
    (all_data : gmap string (gmap string json))
    (indicators : list (string * string)) (indicator_info : gmap string WB.info) :
  dom all_data ⊆ dom indicator_info →
  NoDup ((λ item, IMF.column item.2 item.1) <$> indicators) →
  NoDup ((λ code, WB.column (from_option WB.i_name "" (indicator_info !! code)) code)
           <$> sorted id (elements (dom all_data))) →
  numeric all_data →
  ∃ wb_rows,
    WB.build_panel all_data indicator_info = Ok wb_rows ∧
    (∀ r year code label,
       r ∈ IMF.build_panel all_data indicators →
       year_of r = Some (JStr year) →
       (code, label) ∈ indicators →
       ∃ c, Dict.get String.eqb (IMF.column label code) r = Some c ∧
            (c = JStr "" ↔ observation all_data code year = None
                          ∨ observation all_data code year = Some JNull) ∧
            (∀ q, observation all_data code year = Some (JNum q) → c = JNum q)) ∧
    (∀ r year code inf,
       r ∈ wb_rows →
       year_of r = Some (JStr year) →
       is_Some (all_data !! code) →
       indicator_info !! code = Some inf →
       ∃ c, Dict.get String.eqb (WB.column (WB.i_name inf) code) r = Some c ∧
            (c = JStr "" ↔ observation all_data code year = None
                          ∨ observation all_data code year = Some JNull) ∧
            (∀ q, observation all_data code year = Some (JNum q) → c = JNum q)).
Proof.
  intros Hdom Himf Hwb Hnum.
  destruct (WB.build_panel all_data indicator_info) as [wb_rows|e] eqn:Hpanel; last first.
  { unfold WB.build_panel in Hpanel. by rewrite wb_build_rows_fill in Hpanel. }
  exists wb_rows. split; [done|]. split.
  - intros r year code label (y & _ & ->)%elem_of_imf_panel Hyear Hin.
    unfold year_of in Hyear.
    rewrite get_fill_other in Hyear by apply Year_not_imf_column.
    injection Hyear as ->.
    exists (imf_cell all_data year (code, label)). split.
    + apply (get_fill imf_column (imf_cell all_data year) _ (code, label)).
      * unfold imf_column. by rewrite sorted_perm.
      * by apply elem_of_sorted.
    + unfold imf_cell. cbn [fst]. rewrite value_at_observation.
      by apply cell_of_observation.
  - intros r year code inf (y & _ & ->)%(elem_of_wb_panel _ _ _ _ Hdom Hpanel)
      Hyear Hcode Hinf.
    unfold year_of in Hyear.
    rewrite get_fill_other in Hyear by apply Year_not_wb_column.
    injection Hyear as ->.
    exists (wb_cell all_data year code). split.
    + replace (WB.column (WB.i_name inf) code) with (wb_column indicator_info code)
        by (unfold wb_column; by rewrite Hinf).
      apply (get_fill (wb_column indicator_info) (wb_cell all_data year)); [exact Hwb|].
      by apply elem_of_wb_codes.
    + unfold wb_cell. fold (IMF.value_at all_data code year).
      rewrite value_at_observation. by apply cell_of_observation.
Qed.

(** ** The coverage span of the metadata *)

(** What [main] keeps are indicators of the catalogue that have data. *)
Lemma kept_has_data {V : Type} (indicators : list (string * string))
    (all_data : gmap string V) (code label : string) :
  (code, label) ∈ IMF.kept indicators all_data
  ↔ (code, label) ∈ indicators ∧ is_Some (all_data !! code).
Proof. unfold IMF.kept. rewrite list_elem_of_filter. simpl. tauto. Qed.

Lemma wb_span_eq : WB.span = IMF.span.
Proof. reflexivity. Qed.

Lemma ascending_last (years : list string) (d : string) :
  StronglySorted String.le years →
  ∀ y, y ∈ years → String.le y (List.last years d).
Proof.
  induction 1 as [|x l Hl IH Hx]; intros y Hy; [by apply elem_of_nil in Hy|].
  destruct l as [|x' l]; simpl.
  - apply list_elem_of_singleton in Hy as ->. done.
  - apply elem_of_cons in Hy as [->|Hy].
    + etrans; [|apply IH; by left]. by apply Forall_cons in Hx as [? _].
    + by apply IH.
Qed.

Lemma last_elem_of (years : list string) (d : string) :
  years ≠ [] → List.last years d ∈ years.
Proof.
  induction years as [|x [|x' l] IH]; intros Hne; [done|by left|].
  right. by apply IH.
Qed.

Lemma span_is_span (year_dict : gmap string json) :
  is_span year_dict (IMF.span (sorted id (elements (dom year_dict)))).
Proof.
  pose proof (sorted_ascending id (elements (dom year_dict))) as Hasc.
  assert (∀ y, y ∈ sorted id (elements (dom year_dict)) ↔ is_Some (year_dict !! y)) as Hin.
  { intros y. by rewrite elem_of_sorted, elem_of_elements, elem_of_dom. }
  destruct (sorted id (elements (dom year_dict))) as [|lo years] eqn:Hyears.
  - left. split; [|done]. apply map_eq. intros y. rewrite lookup_empty.
    apply eq_None_not_Some. rewrite <- Hin. apply not_elem_of_nil.
  - right. exists lo, (List.last (lo :: years) lo).
    split; [apply Hin; by left|].
    split; [apply Hin; by apply last_elem_of|].
    split; [|done]. intros y Hy%Hin. split.
    + apply elem_of_cons in Hy as [->|Hy]; [done|].
      apply StronglySorted_inv in Hasc as [_ Hlo].
      by apply (proj1 (Forall_forall _ _) Hlo).
    + by apply (ascending_last (lo :: years) lo Hasc).
Qed.

Lemma imf_metadata_rows_ok (all_data : gmap string (gmap string json))
    (items : list (string * string)) :
  (∀ code label, (code, label) ∈ items → is_Some (all_data !! code)) →
  ∃ rows,
    IMF.metadata_rows all_data items = Ok rows ∧
    Forall2 (λ item m,
               IMF.m_code m = item.1 ∧ IMF.m_label m = item.2 ∧
               ∃ year_dict, all_data !! item.1 = Some year_dict ∧
                            is_span year_dict (IMF.years_available m))
            items rows.
Proof.
  induction items as [|[code label] items IH]; intros Hok; [by exists []|].
  destruct IH as (rows & Hrows & Hall); [intros c l ?; apply (Hok c l); by right|].
  destruct (Hok code label ltac:(by left)) as [year_dict Hyd].
  cbn [IMF.metadata_rows]. unfold IMF.metadata_row. rewrite Hyd. cbn [rbind].
  rewrite Hrows. cbn [rbind]. eexists. split; [done|]. constructor; [|done].
  cbn. repeat split. exists year_dict. split; [done|]. apply span_is_span.
Qed.

Lemma wb_metadata_rows_ok (all_data : gmap string (gmap string json))
    (indicator_info : gmap string WB.info) (codes : list string) :
  (∀ code, code ∈ codes → is_Some (indicator_info !! code) ∧ is_Some (all_data !! code)) →
  ∃ rows,
    WB.metadata_rows all_data indicator_info codes = Ok rows ∧
    Forall2 (λ code m,
               indicator_info !! code = Some (WB.m_info m) ∧
               ∃ year_dict, all_data !! code = Some year_dict ∧
                            is_span year_dict (WB.years_available m))
            codes rows.
Proof.
  induction codes as [|code codes IH]; intros Hok; [by exists []|].
  destruct IH as (rows & Hrows & Hall); [intros c ?; apply (Hok c); by right|].
  destruct (Hok code ltac:(by left)) as [[inf Hinf] [year_dict Hyd]].
  cbn [WB.metadata_rows]. unfold WB.metadata_row. rewrite Hinf, Hyd. cbn [rbind].
  rewrite Hrows. cbn [rbind]. eexists. split; [done|]. constructor; [|done].
  cbn. split; [done|]. exists year_dict. split; [done|].
  rewrite wb_span_eq. apply span_is_span.
Qed.





(** ** The category crawler *)

Import FRED.

Section dict_last_write.
Context {V X : Type} (f : X → string) (g : X → V).


(** The value under a key is the one written last. *)
Lemma get_fill_last xs k : ∀ d : list (string * V),
  Dict.get String.eqb k (fill f g xs d)
  = match last (filter (λ x, f x = k) xs) with
    | Some x => Some (g x)
    | None => Dict.get String.eqb k d
    end.
Proof.
  induction xs as [|x xs IH]; intros d; [done|].
  change (fill f g (x :: xs) d) with (fill f g xs (Dict.setitem String.eqb (f x) (g x) d)).
  rewrite IH, get_setitem. destruct (decide (f x = k)) as [Heq|Hne].
  - rewrite filter_cons_True by done. rewrite last_cons.
    by destruct (last (filter (λ x, f x = k) xs)).
  - by rewrite filter_cons_False by done.
Qed.

Lemma NoDup_keys_after (ks' : list string) : ∀ ks,
  NoDup ks → NoDup (fold_left keys_after ks' ks).
Proof.
  induction ks' as [|k ks' IH]; intros ks Hnd; [done|].
  simpl. apply IH. unfold keys_after. case_bool_decide; [done|].
  apply NoDup_app. split; [done|]. split.
  - intros x Hx ->%list_elem_of_singleton. done.
  - apply NoDup_singleton.
Qed.

Lemma NoDup_keys_fill xs (d : list (string * V)) :
  NoDup (Dict.keys d) → NoDup (Dict.keys (fill f g xs d)).
Proof. intros Hnd. rewrite keys_fill. by apply NoDup_keys_after. Qed.

End dict_last_write.

Lemma all_series_emit (e : event) (st : state) : all_series (emit e st) = all_series st.
Proof. reflexivity. Qed.


Lemma crawl_children_cons (call : Z → category → state → option state) (depth : nat)
    (child_id : Z) (child_name : string) (below : category)
    (cs : list (Z * string * category)) (st : state) :
  crawl_children call depth ((child_id, child_name, below) :: cs) st
  = match call child_id below
            (emit (Printed (indent depth +:+ "  -> subcategory: " +:+ child_name
                              +:+ " (" +:+ pretty child_id +:+ ")" +:+ nl)) st)
    with
    | Some st' => crawl_children call depth cs st'
    | None =>
        emit (Printed (indent depth +:+ "  -> subcategory: " +:+ child_name
                         +:+ " (" +:+ pretty child_id +:+ ")" +:+ nl)) st
    end.
Proof. reflexivity. Qed.




(** ** The final audit *)

Import RunAll.

Lemma add_rows_sum (files : list file) : ∀ total : Z,
  fold_left add_rows files total
  = (total + Z.of_nat (foldr Nat.add 0%nat (omap (λ f, length <$> file_lines f) files))
     - Z.of_nat (length (omap (λ f, length <$> file_lines f) files)))%Z.
Proof.
  induction files as [|f files IH]; intros total; [simpl; lia|].
  cbn [fold_left]. rewrite IH. unfold add_rows.
  change (omap ?g (f :: files))
    with (match g f with Some n => n :: omap g files | None => omap g files end).
  cbv beta.
  destruct (file_lines f) as [ls|]; cbn [fmap option_fmap option_map foldr length]; lia.
Qed.

Lemma count_csvs_missing (fs : filesystem) (d : string) :
  fs d = None → count_csvs fs d = (0, 0%Z).
Proof. unfold count_csvs. by intros ->. Qed.

Lemma sum_over_existing (fs : filesystem) (ds : list string) :
  foldr Z.add 0%Z ((λ d, (count_csvs fs d).2) <$> filter (λ d, exists_dir fs d = true) ds)
  = foldr Z.add 0%Z ((λ d, (count_csvs fs d).2) <$> ds)
  ∧ foldr Nat.add 0 ((λ d, (count_csvs fs d).1) <$> filter (λ d, exists_dir fs d = true) ds)
    = foldr Nat.add 0 ((λ d, (count_csvs fs d).1) <$> ds).
Proof.
  induction ds as [|d ds [IHr IHf]]; [done|].
  destruct (exists_dir fs d) eqn:Hd.
  - rewrite !filter_cons_True by done. csimpl. by rewrite IHr, IHf.
  - rewrite !filter_cons_False by (by rewrite Hd). csimpl.
    rewrite count_csvs_missing; [by rewrite IHr, IHf|].
    unfold exists_dir in Hd. by destruct (fs d).
Qed.

(** C9. Whatever the three scripts did (returned 0 or not, timed out,
    could not be started) and whatever the output directories hold, the
    TOTAL line shows the sum of the rows of the three provider lines, and
    the sum of their files; a provider line shows the count of its own
    directory; and the rows of a directory are the lines of its readable
    CSV files less one per such file. *)
Theorem C9_total_rows_is_sum_of_provider_rows
    (run : string → outcome) (fs : filesystem) (root : string) :
  let s := main run fs root in
  total_rows s = foldr Z.add 0%Z (n_rows <$> rows s) ∧
  total_files s = foldr Nat.add 0 (n_files <$> rows s) ∧
  (n_files <$> rows s, n_rows <$> rows s)
    = ((λ d, (count_csvs fs d).1) <$> Dict.values (data_dirs root),
       (λ d, (count_csvs fs d).2) <$> Dict.values (data_dirs root)) ∧
  (sr_status <$> rows s = (λ item, (result_of (run item.2)).1) <$> SCRIPTS) ∧
  (∀ d entries, fs d = Some entries →
     (count_csvs fs d).2
     = (Z.of_nat (foldr Nat.add 0%nat (line_counts entries))
        - Z.of_nat (length (line_counts entries)))%Z).
Proof.
  intros s. subst s. unfold main, audit. cbn [total_rows total_files rows].
  destruct (sum_over_existing fs (Dict.values (data_dirs root))) as [-> ->].
  assert (∀ results name d,
            Dict.get String.eqb name (data_dirs root) = Some d →
            n_files (summary_row_of fs root results name) = (count_csvs fs d).1 ∧
            n_rows (summary_row_of fs root results name) = (count_csvs fs d).2) as Hrow.
  { intros results name d Hd. unfold summary_row_of. rewrite Hd.
    by destruct (count_csvs fs d). }
  destruct (Hrow (run_all run) "IMF DataMapper" _ eq_refl) as [Hf1 Hr1].
  destruct (Hrow (run_all run) "World Bank (WDI)" _ eq_refl) as [Hf2 Hr2].
  destruct (Hrow (run_all run) "FRED" _ eq_refl) as [Hf3 Hr3].
  assert (∀ results name,
            sr_status (summary_row_of fs root results name)
            = from_option fst "?" (Dict.get String.eqb name results)) as Hstatus.
  { intros results name. unfold summary_row_of.
    by destruct (match Dict.get String.eqb name (data_dirs root) with
                 | Some d => count_csvs fs d
                 | None => (0, 0%Z)
                 end). }
  unfold SCRIPTS, Dict.values, data_dirs in *.
  cbn [fmap list_fmap foldr fst snd] in *.
  rewrite Hr1, Hr2, Hr3, Hf1, Hf2, Hf3, !Hstatus.
  split; [done|]. split; [done|]. split; [done|]. split; [reflexivity|].
  intros d entries Hd. unfold count_csvs, line_counts. rewrite Hd. cbn [snd].
  rewrite add_rows_sum. lia.
Qed.

(** ** The theorems at concrete inputs *)

Lemma numeric_check_sound (all_data : gmap string (gmap string json)) :
  numeric_check all_data → numeric all_data.
Proof.
  intros Hcheck code year v. unfold observation.
  destruct (all_data !! code) as [year_dict|] eqn:Hcode; [|done]. simpl. intros Hv.
  pose proof (Hcheck code year_dict Hcode year v Hv) as Hnum.
  destruct v; try discriminate Hnum; eauto.
Qed.

Lemma demo_dom : dom demo_data ⊆ dom demo_info.
Proof. by_computation. Qed.

Lemma demo_imf_columns : NoDup ((λ item, IMF.column item.2 item.1) <$> demo_indicators).
Proof. by_computation. Qed.

Lemma demo_wb_columns :
  NoDup ((λ code, WB.column (from_option WB.i_name "" (demo_info !! code)) code)
           <$> sorted id (elements (dom demo_data))).
Proof. by_computation. Qed.

Lemma demo_numeric : numeric demo_data.
Proof. apply numeric_check_sound. by_computation. Qed.

Lemma C4_witness :
  Forall (λ r, Dict.keys r
               = ["Year"; "Inflation rate [PCPIPCH]"; "Real GDP growth [NGDP_RPCH]"])
         (IMF.build_panel demo_data demo_indicators).
Proof.
  destruct (C4_column_order demo_data demo_indicators demo_info
              demo_dom demo_imf_columns demo_wb_columns) as (wb_rows & _ & Hkeys & _).
  apply Forall_forall. exact Hkeys.
Defined.

Lemma C5_witness :
  ∃ years,
    year_of <$> IMF.build_panel demo_data demo_indicators = (λ y, Some (JStr y)) <$> years ∧
    NoDup years ∧
    ("1999" ∈ years ↔ ∃ code year_dict,
        demo_data !! code = Some year_dict ∧ is_Some (year_dict !! "1999")).
Proof.
  destruct (C5_panel_rows_are_the_sorted_union_of_periods demo_data demo_indicators
              demo_info demo_dom) as (years & wb_rows & _ & Himf & _ & _ & Hnd & Hin).
  exists years. split; [exact Himf|]. split; [exact Hnd|]. apply Hin.
Defined.

Lemma C6_witness :
  ∃ c, Dict.get String.eqb "Real GDP growth [NGDP_RPCH]"
         (IMF.build_row demo_data demo_indicators "2003") = Some c ∧
       (c = JStr "" ↔ observation demo_data "NGDP_RPCH" "2003" = None
                     ∨ observation demo_data "NGDP_RPCH" "2003" = Some JNull) ∧
       (∀ q, observation demo_data "NGDP_RPCH" "2003" = Some (JNum q) → c = JNum q).
Proof.
  destruct (C6_cell_empty_iff_no_observation demo_data demo_indicators demo_info
              demo_dom demo_imf_columns demo_wb_columns demo_numeric)
    as (wb_rows & _ & Himf & _).
  apply (Himf (IMF.build_row demo_data demo_indicators "2003")
              "2003" "NGDP_RPCH" "Real GDP growth").
  - unfold IMF.build_panel. apply list_elem_of_fmap_2. by_computation.
  - reflexivity.
  - by_computation.
Defined.



Lemma C9_witness :
  total_rows (main demo_run demo_fs "/repo")
    = foldr Z.add 0%Z (n_rows <$> rows (main demo_run demo_fs "/repo")) ∧
  sr_status <$> rows (main demo_run demo_fs "/repo") = ["ERROR"; "TIMEOUT"; "OK"].
Proof.
  destruct (C9_total_rows_is_sum_of_provider_rows demo_run demo_fs "/repo")
    as (Hrows & _ & _ & Hstatus & _).
  split; [exact Hrows | exact Hstatus].
Defined.

Lemma C10_witness :
  ∃ written,
    IMF.write_panel (IMF.build_panel demo_data demo_indicators) = Ok written ∧
    match written with
    | Some (fieldnames, lines) =>
        length lines = length (IMF.build_panel demo_data demo_indicators)
    | None => IMF.build_panel demo_data demo_indicators = []
    end.
Proof.
  destruct (C10_imf_rows_share_one_key_set demo_data demo_indicators)
    as (_ & _ & _ & _ & Hwritten).
  exact Hwritten.
Defined.

(** * Further properties of the code *)

Local Open Scope nat_scope.

(** ** [get_json]: the effort is bounded *)

Section get_json_effort.
Variables (retries : nat).

Lemma imf_loop_effort (url : string) (todo : nat) : ∀ attempt w,
  attempt + todo = retries →
  ∃ n, (n ≤ todo)%nat ∧ (0 < todo → 0 < n) ∧
       served (IMF.get_json_from url retries attempt todo w).2 = served w + n ∧
       slept (IMF.get_json_from url retries attempt todo w).2
         = slept w ++ (backoff <$> seq attempt (n - 1)) ∧
       (printed (IMF.get_json_from url retries attempt todo w).2 = printed w
        ∨ (IMF.get_json_from url retries attempt todo w).1 = JNull ∧ n = todo ∧
          ∃ e, printed (IMF.get_json_from url retries attempt todo w).2
               = printed w ++ ["  FAILED: " +:+ e +:+ nl]).
Proof.
  induction todo as [|todo IH]; intros attempt w Hsum.
  { exists 0. simpl. rewrite app_nil_r. repeat split; try lia. by left. }
  destruct (net w (Request url []) (served w)) as [e|body] eqn:Hnet.
  - rewrite (imf_loop_failure _ _ _ _ _ _ Hnet).
    destruct (attempt <? retries - 1)%nat eqn:Hlast.
    + apply Nat.ltb_lt in Hlast.
      destruct (IH (S attempt) (sleep (backoff attempt) (http_get (Request url []) w).2))
        as (n & Hn & Hpos & Hsv & Hsl & Hpr); [lia|].
      assert (0 < n) as Hn0 by (apply Hpos; lia).
      exists (S n). rewrite Hsv, Hsl, sleep_slept, http_get_slept.
      rewrite sleep_printed, http_get_printed in Hpr.
      split; [lia|]. split; [lia|]. split; [simpl; lia|]. split.
      * rewrite <- app_assoc. simpl. rewrite Nat.sub_0_r.
        destruct n as [|n]; [lia|]. simpl. by rewrite Nat.sub_0_r.
      * destruct Hpr as [Hpr|(Hnull & -> & e' & Hpr)]; [by left|].
        right. split; [done|]. split; [done|]. by exists e'.
    + apply Nat.ltb_ge in Hlast. exists 1. cbn [fst snd].
      rewrite print_slept, print_printed, http_get_slept, http_get_printed.
      simpl. rewrite app_nil_r. split; [lia|]. split; [lia|]. split; [lia|].
      split; [done|]. right. split; [done|]. split; [lia|]. by exists e.
  - rewrite (imf_loop_success _ _ _ _ _ _ Hnet). exists 1. cbn [fst snd].
    rewrite http_get_slept, http_get_printed. simpl. rewrite app_nil_r.
    split; [lia|]. split; [lia|]. split; [lia|]. split; [done|]. by left.
Qed.

Lemma wb_loop_effort (r : request) (todo : nat) : ∀ attempt w,
  attempt + todo = retries →
  ∃ n, (n ≤ todo)%nat ∧ (0 < todo → 0 < n) ∧
       served (WB.get_json_from r retries attempt todo w).2 = served w + n ∧
       slept (WB.get_json_from r retries attempt todo w).2
         = slept w ++ (backoff <$> seq attempt (n - 1)) ∧
       (printed (WB.get_json_from r retries attempt todo w).2 = printed w
        ∨ (WB.get_json_from r retries attempt todo w).1 = JNull ∧ n = todo ∧
          ∃ e, printed (WB.get_json_from r retries attempt todo w).2
               = printed w ++ ["  FAILED: " +:+ e +:+ nl]).
Proof.
  induction todo as [|todo IH]; intros attempt w Hsum.
  { exists 0. simpl. rewrite app_nil_r. repeat split; try lia. by left. }
  destruct (net w r (served w)) as [e|body] eqn:Hnet.
  - rewrite (wb_loop_failure _ _ _ _ _ _ Hnet).
    destruct (attempt <? retries - 1)%nat eqn:Hlast.
    + apply Nat.ltb_lt in Hlast.
      destruct (IH (S attempt) (sleep (backoff attempt) (http_get r w).2))
        as (n & Hn & Hpos & Hsv & Hsl & Hpr); [lia|].
      assert (0 < n) as Hn0 by (apply Hpos; lia).
      exists (S n). rewrite Hsv, Hsl, sleep_slept, http_get_slept.
      rewrite sleep_printed, http_get_printed in Hpr.
      split; [lia|]. split; [lia|]. split; [simpl; lia|]. split.
      * rewrite <- app_assoc. simpl. rewrite Nat.sub_0_r.
        destruct n as [|n]; [lia|]. simpl. by rewrite Nat.sub_0_r.
      * destruct Hpr as [Hpr|(Hnull & -> & e' & Hpr)]; [by left|].
        right. split; [done|]. split; [done|]. by exists e'.
    + apply Nat.ltb_ge in Hlast. exists 1. cbn [fst snd].
      rewrite print_slept, print_printed, http_get_slept, http_get_printed.
      simpl. rewrite app_nil_r. split; [lia|]. split; [lia|]. split; [lia|].
      split; [done|]. right. split; [done|]. split; [lia|]. by exists e.
  - rewrite (wb_loop_success _ _ _ _ _ _ Hnet). exists 1. cbn [fst snd].
    rewrite http_get_slept, http_get_printed. simpl. rewrite app_nil_r.
    split; [lia|]. split; [lia|]. split; [lia|]. split; [done|]. by left.
Qed.
End get_json_effort.

(** X1. Whatever the provider does, [get_json] (of both scripts) makes
    at least one request when [retries >= 1] and at most [retries]; after
    [n] requests it has slept [n - 1] times, for 1, 2, 4, ... seconds;
    and either it prints nothing, or it returns [None], has used all
    [retries] attempts and has printed the one warning. With
    [retries = 0] it asks nothing and prints nothing. *)
Theorem X1_get_json_effort_is_bounded (url : string)
    (params : option (list (string * string))) (retries : nat) (w : world) :
  (∃ n, (n ≤ retries)%nat ∧ (0 < retries → 0 < n) ∧
        served (IMF.get_json url retries w).2 = served w + n ∧
        slept (IMF.get_json url retries w).2
          = slept w ++ ((λ k, inject_Z (2 ^ Z.of_nat k)) <$> seq 0 (n - 1)) ∧
        (printed (IMF.get_json url retries w).2 = printed w
         ∨ (IMF.get_json url retries w).1 = JNull ∧ n = retries ∧
           ∃ e, printed (IMF.get_json url retries w).2
                = printed w ++ ["  FAILED: " +:+ e +:+ nl])) ∧
  (∃ n, (n ≤ retries)%nat ∧ (0 < retries → 0 < n) ∧
        served (WB.get_json url params retries w).2 = served w + n ∧
        slept (WB.get_json url params retries w).2
          = slept w ++ ((λ k, inject_Z (2 ^ Z.of_nat k)) <$> seq 0 (n - 1)) ∧
        (printed (WB.get_json url params retries w).2 = printed w
         ∨ (WB.get_json url params retries w).1 = JNull ∧ n = retries ∧
           ∃ e, printed (WB.get_json url params retries w).2
                = printed w ++ ["  FAILED: " +:+ e +:+ nl])).
Proof.
  split.
  - by apply imf_loop_effort.
  - unfold WB.get_json. by apply wb_loop_effort.
Qed.

Lemma X1_witness :
  ∃ n, 0 < n ∧ n ≤ 3 ∧
       served (IMF.get_json (imf_url "NGDP_RPCH") 3 (start unreachable)).2 = n.
Proof.
  destruct (X1_get_json_effort_is_bounded (imf_url "NGDP_RPCH") None 3 (start unreachable))
    as [(n & Hle & Hpos & Hserved & _) _].
  exists n. split; [apply Hpos; lia|]. split; [exact Hle|exact Hserved].
Defined.

(** ** [IMF.fetch_indicator_data]: missing keys and malformed answers *)

Lemma imf_fetch_on_dict (code : string) (w : world) (m : gmap string json) :
  net w (Request (imf_url code) []) (served w) = HttpOk (JObj m) →
  (IMF.fetch_indicator_data code w).1
  = match m !! "values" with
    | None => Ok (JObj ∅)
    | Some values =>
        rbind (Py.get values code (JObj ∅)) (λ series, Py.get series "ECU" (JObj ∅))
    end.
Proof.
  intros Hnet.
  unfold IMF.fetch_indicator_data, bind, total, IMF.get_json. fold (imf_url code).
  rewrite (imf_loop_success _ _ _ _ _ _ Hnet). cbn [fst snd].
  destruct (truthy (JObj m)) eqn:Htruthy; cbn [negb].
  - unfold pure, ret. cbn [contains getitem].
    destruct (m !! "values") as [values|] eqn:Hvalues.
    + rewrite bool_decide_true by eauto. cbn [negb].
      destruct (Py.get values code (JObj ∅)) as [series|e]; [|done]. done.
    + rewrite bool_decide_false by (by intros [? ?]). done.
  - simpl in Htruthy. destruct (size m) eqn:Hsize; [|done].
    apply map_size_empty_iff in Hsize. subst m. by rewrite lookup_empty.
Qed.

(** X3. When the provider answers with an object, a key that is
    missing at any level (["values"], the code, the country) gives the
    empty mapping; a value under ["values"] or under the code that is not
    an object raises [AttributeError], which nothing in [main] catches. *)
Theorem X3_imf_fetch_missing_keys (code : string) (w : world) (m : gmap string json) :
  net w (Request (imf_url code) []) (served w) = HttpOk (JObj m) →
  (m !! "values" = None → (IMF.fetch_indicator_data code w).1 = Ok (JObj ∅)) ∧
  (∀ vs, m !! "values" = Some (JObj vs) → vs !! code = None →
         (IMF.fetch_indicator_data code w).1 = Ok (JObj ∅)) ∧
  (∀ vs cs, m !! "values" = Some (JObj vs) → vs !! code = Some (JObj cs) →
            cs !! "ECU" = None →
            (IMF.fetch_indicator_data code w).1 = Ok (JObj ∅)) ∧
  (∀ v, m !! "values" = Some v → IMF.is_dict v = false →
        (IMF.fetch_indicator_data code w).1 = Raise AttributeError) ∧
  (∀ vs v, m !! "values" = Some (JObj vs) → vs !! code = Some v →
           IMF.is_dict v = false →
           (IMF.fetch_indicator_data code w).1 = Raise AttributeError).
Proof.
  intros Hnet. rewrite (imf_fetch_on_dict code w m Hnet).
  split; [by intros ->|]. split; [by intros vs -> Hvs; simpl; rewrite Hvs|].
  split; [by intros vs cs -> Hvs Hcs; simpl; rewrite Hvs; simpl; rewrite Hcs|].
  split.
  - intros v -> Hv. by destruct v.
  - intros vs v -> Hvs Hv. simpl. rewrite Hvs. by destruct v.
Qed.

Lemma X3_witness :
  (IMF.fetch_indicator_data "LUR"
     (start (serves (JObj {[ "values" := JObj {[ "NGDP_RPCH" := JObj ∅ ]} ]})))).1
    = Ok (JObj ∅) ∧
  (IMF.fetch_indicator_data "LUR" (start (serves (JObj {[ "values" := JArr [] ]})))).1
    = Raise AttributeError.
Proof.
  split.
  - destruct (X3_imf_fetch_missing_keys "LUR"
                (start (serves (JObj {[ "values" := JObj {[ "NGDP_RPCH" := JObj ∅ ]} ]})))
                {[ "values" := JObj {[ "NGDP_RPCH" := JObj ∅ ]} ]} eq_refl)
      as (_ & Hcode & _).
    apply (Hcode {[ "NGDP_RPCH" := JObj ∅ ]}); reflexivity.
  - destruct (X3_imf_fetch_missing_keys "LUR"
                (start (serves (JObj {[ "values" := JArr [] ]})))
                {[ "values" := JArr [] ]} eq_refl)
      as (_ & _ & _ & Hbad & _).
    apply (Hbad (JArr [])); reflexivity.
Defined.

(** ** [IMF.fetch_indicators] *)

Lemma label_or_code_truthy (code : string) (meta : gmap string json) :
  truthy (IMF.label_or_code code (JObj meta)) = true ∨ code = "".
Proof.
  unfold IMF.label_or_code.
  destruct (truthy (default JNull (meta !! "label"))) eqn:Hlabel; [by left|].
  simpl. destruct (String.eqb_spec code ""); [by right|by left].
Qed.

(** X4. [fetch_indicators] returns the empty catalogue when the request
    fails after its retries. When the answer is an object whose
    ["indicators"] is an object of objects, the catalogue has exactly its
    codes; the label of a code is its ["label"] when that is truthy and
    the code itself otherwise, so that no label is empty or [None] (but
    for the code [""]). *)
Theorem X4_fetch_indicators_labels (w : world) :
  ((∀ k, k < 3 →
      ∃ e, net w (Request (IMF.BASE +:+ "/indicators") []) (served w + k) = HttpError e) →
   (IMF.fetch_indicators w).1 = Ok ∅) ∧
  (∀ m raw,
     net w (Request (IMF.BASE +:+ "/indicators") []) (served w) = HttpOk (JObj m) →
     m !! "indicators" = Some (JObj raw) →
     map_Forall (λ _ meta, IMF.is_dict meta = true) raw →
     ∃ catalogue,
       (IMF.fetch_indicators w).1 = Ok catalogue ∧
       dom catalogue = dom raw ∧
       ∀ code meta, raw !! code = Some (JObj meta) →
         ∃ label,
           catalogue !! code = Some label ∧
           (truthy label = true ∨ code = "") ∧
           (∀ l, meta !! "label" = Some l → truthy l = true → label = l) ∧
           (truthy (default JNull (meta !! "label")) = false → label = JStr code)).
Proof.
  split.
  - intros Hfail. unfold IMF.fetch_indicators, bind, total, IMF.get_json.
    destruct (imf_loop_all_fail (IMF.BASE +:+ "/indicators") 3 3 0 w)
      as (e & _ & Hnone & _); [lia | lia | exact Hfail |].
    destruct (IMF.get_json_from _ 3 0 3 w) as [data w']. simpl in Hnone. by subst.
  - intros m raw Hnet Hm Hdicts.
    unfold IMF.fetch_indicators, bind, total, IMF.get_json.
    rewrite (imf_loop_success _ _ _ _ _ _ Hnet). cbn [fst snd].
    assert (truthy (JObj m) = true) as ->.
    { simpl. destruct (size m) eqn:Hsize; [|done].
      apply map_size_empty_iff in Hsize. subst m. by rewrite lookup_empty in Hm. }
    unfold pure. cbn [negb Py.get]. rewrite Hm. cbn [fst IMF.labels_of].
    rewrite decide_True by done. eexists. split; [done|]. split.
    + apply set_eq. intros code. rewrite !elem_of_dom, map_lookup_imap.
      destruct (raw !! code); simpl; split; intros [? ?]; eauto.
    + intros code meta Hcode. exists (IMF.label_or_code code (JObj meta)).
      rewrite map_lookup_imap, Hcode. simpl. split; [done|].
      split; [apply label_or_code_truthy|]. split.
      * intros l Hl Htruthy. rewrite Hl. simpl. by rewrite Htruthy.
      * by intros ->.
Qed.

Lemma X4_witness :
  ∃ catalogue,
    (IMF.fetch_indicators
       (start (serves (JObj {[ "indicators" :=
          JObj {[ "NGDP_RPCH" := JObj {[ "label" := JStr "Real GDP growth" ]};
                  "LUR" := JObj {[ "label" := JNull ]} ]} ]})))).1 = Ok catalogue ∧
    catalogue !! "LUR" = Some (JStr "LUR").
Proof.
  destruct (X4_fetch_indicators_labels
              (start (serves (JObj {[ "indicators" :=
                 JObj {[ "NGDP_RPCH" := JObj {[ "label" := JStr "Real GDP growth" ]};
                         "LUR" := JObj {[ "label" := JNull ]} ]} ]}))))
    as [_ Hok].
  destruct (Hok {[ "indicators" :=
                   JObj {[ "NGDP_RPCH" := JObj {[ "label" := JStr "Real GDP growth" ]};
                           "LUR" := JObj {[ "label" := JNull ]} ]} ]}
                {[ "NGDP_RPCH" := JObj {[ "label" := JStr "Real GDP growth" ]};
                   "LUR" := JObj {[ "label" := JNull ]} ]})
    as (catalogue & Hcat & _ & Hlabels); [reflexivity | reflexivity | by_computation |].
  exists catalogue. split; [exact Hcat|].
  destruct (Hlabels "LUR" {[ "label" := JNull ]} eq_refl) as (label & Hl & _ & _ & Hcode).
  rewrite Hl. f_equal. by apply Hcode.
Defined.

(** ** The download loops: what the counters add up to *)

Lemma for_enumerate_invariant {A St : Type} (body : nat → A → St → M St)
    (P : list A → St → Prop) :
  (∀ done i x s w s' w', P done s → body i x s w = (Ok s', w') → P (done ++ [x]) s') →
  ∀ xs done i s w s' w',
    P done s → for_enumerate body i xs s w = (Ok s', w') → P (done ++ xs) s'.
Proof.
  intros Hstep. induction xs as [|x xs IH]; intros done i s w s' w' HP; simpl.
  - intros [= <- _]. by rewrite app_nil_r.
  - unfold bind. destruct (body i x s w) as [[s1|e] w1] eqn:Hbody; [|done].
    intros Hrest. replace (done ++ x :: xs) with ((done ++ [x]) ++ xs)
      by (by rewrite <- app_assoc).
    eapply IH; [|exact Hrest]. by eapply Hstep.
Qed.

(** One turn of the IMF loop that ends normally: either the indicator
    is stored, with a truthy result, and [success] goes up; or nothing
    is stored and one of [empty], [failed] goes up. *)
Lemma imf_turn (n i : nat) (code label : string) (t t' : IMF.tally) (w w' : world) :
  IMF.loop_body n i (code, label) t w = (Ok t', w') →
  (∃ result, truthy result = true ∧
             IMF.all_data t' = <[code := result]> (IMF.all_data t) ∧
             IMF.success t' = S (IMF.success t) ∧
             IMF.empty t' = IMF.empty t ∧ IMF.failed t' = IMF.failed t)
  ∨ (IMF.all_data t' = IMF.all_data t ∧ IMF.success t' = IMF.success t ∧
     IMF.empty t' + IMF.failed t' = S (IMF.empty t + IMF.failed t)).
Proof.
  unfold IMF.loop_body, bind, act, pure, ret.
  destruct (IMF.fetch_indicator_data code _) as [[result|e] w1]; [|done].
  unfold IMF.has_data. destruct (truthy result) eqn:Htruthy.
  - destruct (len result) as [k|e]; [|done]. cbn [rbind].
    destruct (0 <? k)%nat.
    + destruct (i mod 8 =? 0)%nat; intros [= <- _]; left; by exists result.
    + destruct (is_none result); cbn [negb];
        destruct (i mod 8 =? 0)%nat; intros [= <- _]; right; simpl; repeat split; lia.
  - destruct (is_none result); cbn [negb];
      destruct (i mod 8 =? 0)%nat; intros [= <- _]; right; simpl; repeat split; lia.
Qed.

Lemma imf_accounted_turn (done : list (string * string)) (n i : nat)
    (item : string * string) (t t' : IMF.tally) (w w' : world) :
  imf_accounted done t →
  IMF.loop_body n i item t w = (Ok t', w') →
  imf_accounted (done ++ [item]) t'.
Proof.
  intros (Hsum & Hdata & Hle & Heq) Hturn. destruct item as [code label].
  unfold imf_accounted. rewrite length_app, fmap_app. simpl.
  apply imf_turn in Hturn
    as [(result & Htruthy & -> & -> & -> & ->)|(-> & -> & Hcount)].
  - split; [lia|]. split; [|split].
    + intros c v. rewrite elem_of_app, list_elem_of_singleton.
      destruct (decide (code = c)) as [->|Hne].
      * rewrite lookup_insert_eq. intros [= <-]. auto.
      * rewrite lookup_insert_ne by done. intros Hc.
        destruct (Hdata c v Hc). auto.
    + rewrite map_size_insert. destruct (IMF.all_data t !! code); simpl; lia.
    + intros (Hnd & Hfresh & _)%NoDup_app. rewrite map_size_insert.
      destruct (IMF.all_data t !! code) as [v|] eqn:Hcode.
      * exfalso. destruct (Hdata code v Hcode) as [_ Hin].
        apply (Hfresh code Hin). by left.
      * simpl. by rewrite Heq.
  - split; [lia|]. split; [|split].
    + intros c v Hc. destruct (Hdata c v Hc). rewrite elem_of_app. auto.
    + done.
    + intros (Hnd & _)%NoDup_app. auto.
Qed.

Lemma imf_accounted_start : imf_accounted [] (IMF.Tally ∅ 0 0 0).
Proof.
  split; [done|]. split; [|split; [done|done]].
  intros code v Hv. simpl in Hv. by rewrite lookup_empty in Hv.
Qed.

(** X6. When the IMF download loop ends normally, its three counters
    add up to the number of indicators; every series it has stored is
    truthy (non-empty) and belongs to an indicator of the catalogue; it
    has stored one series per success (the codes of a dict are distinct);
    and the last line printed is the results line with these counters. *)
Theorem X6_imf_counters_add_up (indicators : list (string * string))
    (w w' : world) (t : IMF.tally) :
  IMF.download_all indicators w = (Ok t, w') →
  IMF.success t + IMF.empty t + IMF.failed t = length indicators ∧
  (∀ code v, IMF.all_data t !! code = Some v →
             truthy v = true ∧ ∃ label, (code, label) ∈ indicators) ∧
  (size (IMF.all_data t) ≤ IMF.success t)%nat ∧
  (NoDup indicators.*1 → size (IMF.all_data t) = IMF.success t) ∧
  ∃ earlier, printed w' = earlier ++ [IMF.results_line t +:+ nl].
Proof.
  unfold IMF.download_all, bind, act, ret.
  destruct (for_enumerate _ 1 _ _ w) as [[t1|e] w1] eqn:Hloop; [|done].
  intros [= <- <-].
  apply (for_enumerate_invariant _ imf_accounted) with (done := []) in Hloop
    as (Hsum & Hdata & Hle & Heq);
    [| intros done i x s w0 s' w0'; apply imf_accounted_turn | apply imf_accounted_start].
  simpl in *. pose proof (sorted_perm snd indicators) as Hperm.
  split; [by rewrite Hsum, Hperm|]. split; [|split; [done|split]].
  - intros code v Hv. destruct (Hdata code v Hv) as [Ht Hin]. split; [done|].
    apply list_elem_of_fmap in Hin as ([c label] & -> & Hin).
    exists label. by rewrite <- Hperm.
  - intros Hnd. apply Heq. by rewrite Hperm.
  - exists (printed w1). apply print_printed.
Qed.

Lemma X6_witness :
  ∃ t w',
    IMF.download_all [("NGDP_RPCH", "Real GDP growth"); ("LUR", "Unemployment rate")]
      (start (serves imf_body_with_null)) = (Ok t, w') ∧
    IMF.success t + IMF.empty t + IMF.failed t = 2.
Proof.
  destruct (IMF.download_all
              [("NGDP_RPCH", "Real GDP growth"); ("LUR", "Unemployment rate")]
              (start (serves imf_body_with_null))) as [[t|e] w'] eqn:Hrun.
  - exists t, w'. split; [reflexivity|].
    by apply (X6_imf_counters_add_up _ _ _ _ Hrun).
  - vm_compute in Hrun. discriminate Hrun.
Defined.

Lemma wb_turn (n i : nat) (ind : WB.indicator) (t t' : WB.tally) (w w' : world) :
  WB.loop_body n i ind t w = (Ok t', w') →
  WB.failed t' = WB.failed t ∧
  ((∃ result inf,
      result ≠ [] ∧ Forall (λ kv, is_none kv.2 = false) result ∧
      WB.i_code inf = WB.ind_id ind ∧
      WB.all_data t' = <[WB.ind_id ind := result]> (WB.all_data t) ∧
      WB.indicator_info t' = <[WB.ind_id ind := inf]> (WB.indicator_info t) ∧
      WB.success t' = S (WB.success t) ∧ WB.empty t' = WB.empty t)
   ∨ (WB.all_data t' = WB.all_data t ∧ WB.indicator_info t' = WB.indicator_info t ∧
      WB.success t' = WB.success t ∧ WB.empty t' = S (WB.empty t))).
Proof.
  unfold WB.loop_body, bind, act, ret.
  destruct (WB.fetch_indicator_data (WB.ind_id ind) _) as [[result|e] w1] eqn:Hfetch;
    [|done].
  pose proof (wb_fetch_values (WB.ind_id ind) _ result
                ltac:(by rewrite Hfetch)) as Hvalues.
  destruct result as [|kv result]; simpl; intros [= <- _]; (split; [done|]).
  - by right.
  - left. eexists (kv :: result), _. repeat split; done.
Qed.

Lemma wb_accounted_turn (done : list WB.indicator) (n i : nat)
    (ind : WB.indicator) (t t' : WB.tally) (w w' : world) :
  wb_accounted done t →
  WB.loop_body n i ind t w = (Ok t', w') →
  wb_accounted (done ++ [ind]) t'.
Proof.
  intros (Hsum & Hfailed & Hdom & Hdata & Hinfo & Hle) Hturn.
  unfold wb_accounted. rewrite length_app, fmap_app. simpl.
  apply wb_turn in Hturn
    as [-> [(result & inf & Hne & Hvals & Hcode & -> & -> & -> & ->)
           |(-> & -> & -> & ->)]].
  - split; [lia|]. split; [done|]. split; [by rewrite !dom_insert_L, Hdom|].
    split; [|split].
    + intros c series. rewrite elem_of_app, list_elem_of_singleton.
      destruct (decide (WB.ind_id ind = c)) as [<-|Hc].
      * rewrite lookup_insert_eq. intros [= <-]. auto.
      * rewrite lookup_insert_ne by done. intros Hs.
        destruct (Hdata c series Hs) as (? & ? & ?). auto.
    + intros c inf'. destruct (decide (WB.ind_id ind = c)) as [<-|Hc].
      * rewrite lookup_insert_eq. by intros [= <-].
      * rewrite lookup_insert_ne by done. apply Hinfo.
    + rewrite map_size_insert. destruct (WB.all_data t !! WB.ind_id ind); simpl; lia.
  - split; [lia|]. split; [done|]. split; [done|]. split; [|split; [done|done]].
    intros c series Hs. destruct (Hdata c series Hs) as (? & ? & ?).
    rewrite elem_of_app. auto.
Qed.

Lemma wb_accounted_start : wb_accounted [] (WB.Tally ∅ ∅ 0 0 0).
Proof.
  split; [done|]. split; [done|]. split; [done|]. split; [|split; [|done]].
  - intros code series Hs. simpl in Hs. by rewrite lookup_empty in Hs.
  - intros code inf Hi. simpl in Hi. by rewrite lookup_empty in Hi.
Qed.

(** X7. When the World Bank download loop ends normally, [success] and
    [empty] add up to the number of indicators and [failed] is 0;
    [all_data] and [indicator_info] have the same codes, so that
    [indicator_info[code]] is there for every column of the panel; every
    stored series is non-empty, holds no [None] and belongs to a listed
    indicator; and an [indicator_info] entry carries its own code. *)
Theorem X7_wb_counters_add_up (all_indicators : list WB.indicator)
    (w w' : world) (t : WB.tally) :
  WB.download_all all_indicators w = (Ok t, w') →
  WB.success t + WB.empty t = length all_indicators ∧
  WB.failed t = 0 ∧
  dom (WB.all_data t) = dom (WB.indicator_info t) ∧
  (∀ code series, WB.all_data t !! code = Some series →
     series ≠ [] ∧ Forall (λ kv, is_none kv.2 = false) series ∧
     ∃ ind, ind ∈ all_indicators ∧ WB.ind_id ind = code) ∧
  (∀ code inf, WB.indicator_info t !! code = Some inf → WB.i_code inf = code) ∧
  (size (WB.all_data t) ≤ WB.success t)%nat ∧
  ∃ earlier, printed w' = earlier ++ [WB.results_line t +:+ nl].
Proof.
  unfold WB.download_all, bind, act, ret.
  destruct (for_enumerate _ 1 _ _ w) as [[t1|e] w1] eqn:Hloop; [|done].
  intros [= <- <-].
  apply (for_enumerate_invariant _ wb_accounted) with (done := []) in Hloop
    as (Hsum & Hfailed & Hdom & Hdata & Hinfo & Hle);
    [| intros done i x s w0 s' w0'; apply wb_accounted_turn | apply wb_accounted_start].
  simpl in *. repeat (split; [done|]). split; [|split; [done|split; [done|]]].
  - intros code series Hs. destruct (Hdata code series Hs) as (? & ? & Hin).
    split; [done|]. split; [done|].
    apply list_elem_of_fmap in Hin as (ind & -> & Hin). by exists ind.
  - exists (printed w1). apply print_printed.
Qed.

(** What the World Bank sends for an indicator: a page header and the
    records, here one with a value and one with [null]. *)
Lemma X7_witness :
  ∃ t w',
    WB.download_all [WB.Indicator "NY.GDP.MKTP.CD" (Some "GDP (current US$)") None []]
      (start (serves (JArr [JObj {[ "page" := JNum 1 ]};
                            JArr [JObj {[ "date" := JStr "2002"; "value" := JNull ]};
                                  JObj {[ "date" := JStr "2001"; "value" := JNum 24.5 ]}]])))
    = (Ok t, w') ∧
    WB.success t + WB.empty t = 1 ∧ WB.failed t = 0.
Proof.
  destruct (WB.download_all
              [WB.Indicator "NY.GDP.MKTP.CD" (Some "GDP (current US$)") None []]
              (start (serves (JArr [JObj {[ "page" := JNum 1 ]};
                 JArr [JObj {[ "date" := JStr "2002"; "value" := JNull ]};
                       JObj {[ "date" := JStr "2001"; "value" := JNum 24.5 ]}]]))))
    as [[t|e] w'] eqn:Hrun.
  - exists t, w'. split; [reflexivity|].
    destruct (X7_wb_counters_add_up _ _ _ _ Hrun) as (Hsum & Hfailed & _).
    by split.
  - vm_compute in Hrun. discriminate Hrun.
Defined.

(** ** [WB.fetch_all_indicators]: the pages of the listing *)

Lemma wb_listing_get (page : nat) (w : world) (body : json) :
  net w (wb_listing_request page) (served w) = HttpOk body →
  WB.get_json (WB.API_BASE +:+ "/indicator") (Some (WB.listing_params page)) 3 w
  = (if WB.is_two_element_list body then body else JNull,
     (http_get (wb_listing_request page) w).2).
Proof.
  intros Hnet. unfold WB.get_json.
  change (Request _ _) with (wb_listing_request page).
  by apply wb_loop_success.
Qed.

Lemma reached_last_page_spec (page pages : nat) (meta : gmap string json) :
  meta !! "pages" = Some (JNum (inject_Z (Z.of_nat pages))) →
  WB.reached_last_page page (JObj meta) = Ok (bool_decide (pages ≤ page)%nat).
Proof.
  intros Hmeta. unfold WB.reached_last_page. cbn [Py.get rbind]. rewrite Hmeta.
  cbn [as_number]. f_equal. apply eq_true_iff_eq.
  rewrite Qle_bool_iff, <- Zle_Qle, bool_decide_eq_true. lia.
Qed.

(** A page that is served, is not empty and is not the last one: the
    loop takes its records, sleeps and goes on with the next page. *)
Lemma wb_listing_continue (fuel page pages : nat) (acc records : list json) (w : world) :
  serves_page w page pages records → records ≠ [] → page < pages →
  WB.fetch_all_indicators_from (S fuel) page acc w
  = WB.fetch_all_indicators_from fuel (S page) (acc ++ records)
      (sleep 0.3%Q (http_get (wb_listing_request page) w).2).
Proof.
  intros Hpage Hne Hlt. destruct (Hpage (served w)) as (meta & Hnet & Hmeta).
  cbn [WB.fetch_all_indicators_from]. rewrite (wb_listing_get _ _ _ Hnet).
  destruct records as [|record records]; [done|].
  cbn -[WB.fetch_all_indicators_from WB.reached_last_page http_get].
  rewrite (reached_last_page_spec _ _ _ Hmeta).
  by rewrite bool_decide_false by lia.
Qed.

Lemma wb_listing_last (fuel page pages : nat) (acc records : list json) (w : world) :
  serves_page w page pages records → records ≠ [] → pages ≤ page →
  WB.fetch_all_indicators_from (S fuel) page acc w
  = Some (Ok (acc ++ records), (http_get (wb_listing_request page) w).2).
Proof.
  intros Hpage Hne Hle. destruct (Hpage (served w)) as (meta & Hnet & Hmeta).
  cbn [WB.fetch_all_indicators_from]. rewrite (wb_listing_get _ _ _ Hnet).
  destruct records as [|record records]; [done|].
  cbn -[WB.fetch_all_indicators_from WB.reached_last_page http_get].
  rewrite (reached_last_page_spec _ _ _ Hmeta).
  by rewrite bool_decide_true by lia.
Qed.

(** A page whose request fails on all three attempts, or that comes
    without records, ends the loop with what it has. *)
Lemma wb_listing_failure (fuel page : nat) (acc : list json) (w : world) :
  (∀ k, k < 3 → ∃ e, net w (wb_listing_request page) (served w + k) = HttpError e) →
  ∃ w', WB.fetch_all_indicators_from (S fuel) page acc w = Some (Ok acc, w') ∧
        served w' = served w + 3.
Proof.
  intros Hfail. cbn [WB.fetch_all_indicators_from]. unfold WB.get_json.
  change (Request _ _) with (wb_listing_request page).
  destruct (wb_loop_all_fail (wb_listing_request page) 3 3 0 w)
    as (e & _ & Hnone & _ & _ & Hserved); [lia | lia | exact Hfail |].
  destruct (WB.get_json_from _ 3 0 3 w) as [resp w']. simpl in *. subst resp.
  by exists w'.
Qed.

Lemma wb_listing_empty_page (fuel page pages : nat) (acc : list json) (w : world) :
  serves_page w page pages [] →
  WB.fetch_all_indicators_from (S fuel) page acc w
  = Some (Ok acc, (http_get (wb_listing_request page) w).2).
Proof.
  intros Hpage. destruct (Hpage (served w)) as (meta & Hnet & Hmeta).
  cbn [WB.fetch_all_indicators_from]. by rewrite (wb_listing_get _ _ _ Hnet).
Qed.

Lemma serves_page_later (w w' : world) (page pages : nat) (records : list json) :
  net w' = net w → serves_page w page pages records → serves_page w' page pages records.
Proof. intros Hnet Hpage n. rewrite Hnet. apply Hpage. Qed.

(** [k] good pages in a row, none of them the last. *)
Lemma wb_listing_run (pages : nat) (records : nat → list json) (k : nat) :
  ∀ fuel page acc w,
    (∀ p, page ≤ p < page + k →
          serves_page w p pages (records p) ∧ records p ≠ [] ∧ p < pages) →
    ∃ w', WB.fetch_all_indicators_from (k + fuel) page acc w
          = WB.fetch_all_indicators_from fuel (page + k)
              (acc ++ concat (records <$> seq page k)) w' ∧
          net w' = net w ∧ served w' = served w + k ∧
          slept w' = slept w ++ replicate k 0.3%Q.
Proof.
  induction k as [|k IH]; intros fuel page acc w Hgood.
  { exists w. simpl. rewrite Nat.add_0_r, !app_nil_r. done. }
  destruct (Hgood page ltac:(lia)) as (Hpage & Hne & Hlt).
  cbn [Nat.add]. rewrite (wb_listing_continue _ _ _ _ _ _ Hpage Hne Hlt).
  destruct (IH fuel (S page) (acc ++ records page)
              (sleep 0.3%Q (http_get (wb_listing_request page) w).2))
    as (w' & Hrun & Hnet & Hserved & Hslept).
  { intros p Hp. destruct (Hgood p ltac:(lia)) as (Hp1 & Hp2 & Hp3).
    split; [|done]. by apply (serves_page_later w). }
  exists w'. rewrite Hrun, Hnet, Hserved, Hslept, sleep_slept, http_get_slept.
  cbn [seq fmap list_fmap concat]. rewrite <- !app_assoc.
  replace (S page + k) with (page + S k) by lia.
  split; [done|]. split; [done|]. split; [simpl; lia|done].
Qed.

(** X5. If the provider serves the pages 1 to [pages] of the listing,
    each with at least one record and with a header that announces
    [pages] pages, then [fetch_all_indicators] ends after [pages]
    requests, with a 0.3 s pause between them, and returns the records of
    all pages in order. If instead the requests for a page [stop] fail
    after their retries, or that page comes without records, the loop
    ends without an exception and returns the records of the pages
    before [stop] only: the catalogue is cut short silently. *)
Theorem X5_listing_pages (w : world) (pages : nat) (records : nat → list json)
    (fuel : nat) :
  (1 ≤ pages →
   pages ≤ fuel →
   (∀ p, 1 ≤ p ≤ pages → serves_page w p pages (records p) ∧ records p ≠ []) →
   ∃ w', WB.fetch_all_indicators fuel w
         = Some (Ok (concat (records <$> seq 1 pages)), w') ∧
         served w' = served w + pages ∧
         slept w' = slept w ++ replicate (pages - 1) 0.3%Q) ∧
  (∀ stop,
     1 ≤ stop → stop ≤ fuel →
     (∀ p, 1 ≤ p < stop →
           serves_page w p pages (records p) ∧ records p ≠ [] ∧ p < pages) →
     (∀ n, ∃ e, net w (wb_listing_request stop) n = HttpError e)
     ∨ serves_page w stop pages [] →
     ∃ w', WB.fetch_all_indicators fuel w
           = Some (Ok (concat (records <$> seq 1 (stop - 1))), w')).
Proof.
  split.
  - intros Hpos Hfuel Hgood. unfold WB.fetch_all_indicators.
    destruct (wb_listing_run pages records (pages - 1) (fuel - (pages - 1)) 1 [] w)
      as (w1 & Hrun & Hnet & Hserved & Hslept).
    { intros p Hp. destruct (Hgood p ltac:(lia)). repeat split; [done|done|lia]. }
    replace (pages - 1 + (fuel - (pages - 1))) with fuel in Hrun by lia.
    rewrite Hrun. destruct (fuel - (pages - 1)) as [|fuel'] eqn:Hfuel'; [lia|].
    destruct (Hgood pages ltac:(lia)) as [Hlast Hne].
    replace (1 + (pages - 1)) with pages by lia.
    rewrite (wb_listing_last fuel' pages pages _ (records pages) w1);
      [| by apply (serves_page_later w) | done | lia].
    eexists. split; [|split].
    + do 2 f_equal. simpl.
      replace pages with (pages - 1 + 1) at 3 by lia.
      rewrite seq_app, fmap_app, concat_app. simpl. rewrite app_nil_r.
      do 3 f_equal. lia.
    + rewrite http_get_served, Hserved. lia.
    + by rewrite http_get_slept.
  - intros stop Hpos Hfuel Hgood Hstop. unfold WB.fetch_all_indicators.
    destruct (wb_listing_run pages records (stop - 1) (fuel - (stop - 1)) 1 [] w)
      as (w1 & Hrun & Hnet & Hserved & Hslept).
    { intros p Hp. apply Hgood. lia. }
    replace (stop - 1 + (fuel - (stop - 1))) with fuel in Hrun by lia.
    rewrite Hrun. destruct (fuel - (stop - 1)) as [|fuel'] eqn:Hfuel'; [lia|].
    replace (1 + (stop - 1)) with stop by lia. simpl.
    destruct Hstop as [Hfail|Hempty].
    + destruct (wb_listing_failure fuel' stop (concat (records <$> seq 1 (stop - 1))) w1)
        as (w' & Hend & _); [|by exists w'].
      intros k Hk. rewrite Hnet. apply Hfail.
    + eexists. apply (wb_listing_empty_page _ _ pages).
      by apply (serves_page_later w).
Qed.

Lemma X5_witness :
  (∃ w', WB.fetch_all_indicators 10
           (start (serves (JArr [JObj {[ "pages" := JNum 1 ]};
                                 JArr [JObj {[ "id" := JStr "NY.GDP.MKTP.CD" ]}]])))
         = Some (Ok [JObj {[ "id" := JStr "NY.GDP.MKTP.CD" ]}], w') ∧
         served w' = 1) ∧
  (∃ w', WB.fetch_all_indicators 10 (start listing_cut_short)
         = Some (Ok [JObj {[ "id" := JStr "AG.LND.TOTL.K2" ]};
                     JObj {[ "id" := JStr "NY.GDP.MKTP.CD" ]}], w')).
Proof.
  split.
  - destruct (X5_listing_pages
                (start (serves (JArr [JObj {[ "pages" := JNum 1 ]};
                                      JArr [JObj {[ "id" := JStr "NY.GDP.MKTP.CD" ]}]])))
                1 (λ _, [JObj {[ "id" := JStr "NY.GDP.MKTP.CD" ]}]) 10) as [Hall _].
    destruct Hall as (w' & Hrun & Hserved & _); [lia|lia| |].
    + intros p Hp. split; [|done]. intros n. exists {[ "pages" := JNum 1 ]}.
      split; reflexivity.
    + exists w'. split; [exact Hrun|exact Hserved].
  - destruct (X5_listing_pages (start listing_cut_short) 3 listing_cut_short_records 10)
      as [_ Hcut].
    destruct (Hcut 3) as (w' & Hrun); [lia|lia| | |].
    + intros p Hp. assert (p = 1 ∨ p = 2) as [-> | ->] by lia.
      * split; [|split; [done|lia]]. intros n. exists {[ "pages" := JNum 3 ]}.
        split; [vm_compute|]; reflexivity.
      * split; [|split; [done|lia]]. intros n. exists {[ "pages" := JNum 3 ]}.
        split; [vm_compute|]; reflexivity.
    + left. intros n. exists "502 Bad Gateway". vm_compute. reflexivity.
    + exists w'. exact Hrun.
Defined.

(** ** [main] of ecuador_imf.py: the metadata of what is kept *)

Lemma Forall2_fmap_eq {A B C : Type} (f : A → C) (g : B → C) (l : list A) (k : list B) :
  Forall2 (λ a b, g b = f a) l k → g <$> k = f <$> l.
Proof. induction 1 as [|a b l k Hab _ IH]; [done|]. csimpl. by rewrite Hab, IH. Qed.

Lemma ascending_labels (items : list (string * string)) :
  StronglySorted (by_key snd) items → StronglySorted String.le items.*2.
Proof.
  induction 1 as [|item items _ IH Hitem]; [constructor|].
  csimpl. constructor; [done|]. apply Forall_fmap. exact Hitem.
Qed.

(** X8. For the [kept] indicators that [main] passes on, the metadata
    writer never raises [KeyError]: it writes one row per indicator of
    the catalogue that has data, and no other, in ascending order of the
    labels. *)
Theorem X8_imf_metadata_of_kept (indicators : list (string * string))
    (all_data : gmap string (gmap string json)) :
  ∃ rows,
    IMF.write_metadata all_data (IMF.kept indicators all_data) = Ok rows ∧
    IMF.m_code <$> rows = (sorted snd (IMF.kept indicators all_data)).*1 ∧
    IMF.m_label <$> rows = (sorted snd (IMF.kept indicators all_data)).*2 ∧
    StronglySorted String.le (IMF.m_label <$> rows) ∧
    (∀ code label,
       (code, label) ∈ zip (IMF.m_code <$> rows) (IMF.m_label <$> rows)
       ↔ (code, label) ∈ indicators ∧ is_Some (all_data !! code)).
Proof.
  destruct (imf_metadata_rows_ok all_data (sorted snd (IMF.kept indicators all_data)))
    as (rows & Hrows & Hall).
  { intros code label Hin%elem_of_sorted. by apply kept_has_data in Hin as [_ ?]. }
  exists rows. split; [exact Hrows|].
  assert (IMF.m_code <$> rows = (sorted snd (IMF.kept indicators all_data)).*1) as Hcodes.
  { apply Forall2_fmap_eq. eapply Forall2_impl; [exact Hall|]. by intros ? ? (? & ? & ?). }
  assert (IMF.m_label <$> rows = (sorted snd (IMF.kept indicators all_data)).*2) as Hlabels.
  { apply Forall2_fmap_eq. eapply Forall2_impl; [exact Hall|]. by intros ? ? (? & ? & ?). }
  split; [done|]. split; [done|]. split.
  - rewrite Hlabels. apply ascending_labels, sorted_ascending.
  - intros code label. rewrite Hcodes, Hlabels, zip_fst_snd, elem_of_sorted.
    apply kept_has_data.
Qed.

(** ** The panels: their size, and the missing [indicator_info] *)

Lemma length_keys_after (ks' : list string) : ∀ ks,
  length (fold_left keys_after ks' ks) ≤ length ks + length ks'.
Proof.
  induction ks' as [|k ks' IH]; intros ks; simpl; [lia|].
  etrans; [apply IH|]. unfold keys_after. case_bool_decide; [lia|].
  rewrite length_app. simpl. lia.
Qed.

(** X9. The IMF panel has one row per period of [all_data]; it is empty
    exactly when no series has a period, and then no panel file is
    written; a row has at most one field per indicator besides "Year",
    and exactly that many when the column names are distinct. *)
Theorem X9_imf_panel_size (all_data : gmap string (gmap string json))
    (indicators : list (string * string)) :
  length (IMF.build_panel all_data indicators) = size (IMF.all_years all_data) ∧
  (IMF.build_panel all_data indicators = []
   ↔ ∀ code year_dict, all_data !! code = Some year_dict → year_dict = ∅) ∧
  (IMF.build_panel all_data indicators = [] →
   IMF.write_panel (IMF.build_panel all_data indicators) = Ok None) ∧
  (∀ r, r ∈ IMF.build_panel all_data indicators →
        length r ≤ 1 + length indicators ∧
        (NoDup ((λ item, IMF.column item.2 item.1) <$> indicators) →
         length r = 1 + length indicators)).
Proof.
  assert (length (IMF.build_panel all_data indicators) = size (IMF.all_years all_data))
    as Hlen.
  { unfold IMF.build_panel. rewrite length_fmap, sorted_perm. done. }
  split; [done|]. split; [|split].
  - split.
    + intros Hnil code year_dict Hcode. apply map_eq. intros year.
      rewrite lookup_empty. apply eq_None_not_Some. intros Hyear.
      assert (year ∈ periods all_data) as Hin by (apply elem_of_periods; eauto).
      unfold periods in Hin. unfold IMF.build_panel in Hnil.
      apply fmap_nil_inv in Hnil. rewrite Hnil in Hin. by apply elem_of_nil in Hin.
    + intros Hempty. unfold IMF.build_panel. fold (periods all_data).
      destruct (periods all_data) as [|year years] eqn:Hperiods; [done|].
      assert (year ∈ periods all_data) as Hin by (rewrite Hperiods; by left).
      apply elem_of_periods in Hin as (code & year_dict & Hcode & Hyear).
      rewrite (Hempty code year_dict Hcode), lookup_empty in Hyear.
      by destruct Hyear.
  - by intros ->.
  - intros r (year & _ & ->)%elem_of_imf_panel.
    rewrite <- (length_fmap fst).
    fold (Dict.keys (fill imf_column (imf_cell all_data year) (sorted snd indicators)
                       [("Year", JStr year)])).
    rewrite keys_fill. change (Dict.keys [("Year", JStr year)]) with ["Year"]. split.
    + etrans; [apply length_keys_after|].
      rewrite length_fmap, sorted_perm. simpl. lia.
    + intros Hnd. rewrite (keys_after_fresh ["Year"]).
      * simpl. by rewrite length_fmap, sorted_perm.
      * apply NoDup_cons. split; [apply Year_not_imf_column|].
        unfold imf_column. by rewrite sorted_perm.
Qed.

Lemma X9_witness :
  length (IMF.build_panel demo_data demo_indicators) = 3 ∧
  Forall (λ r, length r = 3) (IMF.build_panel demo_data demo_indicators) ∧
  IMF.write_panel (IMF.build_panel ∅ demo_catalog) = Ok None.
Proof.
  split; [|split].
  - destruct (X9_imf_panel_size demo_data demo_indicators) as (Hlen & _).
    rewrite Hlen. reflexivity.
  - destruct (X9_imf_panel_size demo_data demo_indicators) as (_ & _ & _ & Hrows).
    apply Forall_forall. intros r Hr. destruct (Hrows r Hr) as [_ Heq].
    apply Heq. by_computation.
  - destruct (X9_imf_panel_size ∅ demo_catalog) as (_ & _ & Hwrite & _).
    apply Hwrite. reflexivity.
Defined.

Lemma wb_set_cells_missing (all_data : gmap string (gmap string json))
    (indicator_info : gmap string WB.info) (year : string) (codes : list string) :
  ∀ r,
    (∀ code, code ∈ codes → is_Some (all_data !! code)) →
    (∃ code, code ∈ codes ∧ indicator_info !! code = None) →
    WB.set_cells all_data indicator_info year r codes = Raise KeyError.
Proof.
  induction codes as [|code codes IH]; intros r Hdata (missing & Hin & Hmissing).
  { by apply elem_of_nil in Hin. }
  destruct (Hdata code ltac:(by left)) as [year_dict Hcode].
  cbn [WB.set_cells]. unfold WB.set_cell. rewrite Hcode.
  destruct (indicator_info !! code) as [inf|] eqn:Hinf; [|done].
  cbn [rbind]. apply IH.
  - intros c Hc. apply Hdata. by right.
  - exists missing. split; [|done].
    apply elem_of_cons in Hin as [->|Hin]; [congruence|done].
Qed.

(** X10. The World Bank panel builder raises [KeyError] exactly when
    there is a row to build and some indicator with data has no
    [indicator_info]: without any period it returns no rows whatever
    [indicator_info] holds, and with [indicator_info] for every
    indicator with data it returns one row per period. *)
Theorem X10_wb_panel_key_error (all_data : gmap string (gmap string json))
    (indicator_info : gmap string WB.info) :
  (WB.all_years all_data = ∅ → WB.build_panel all_data indicator_info = Ok []) ∧
  (WB.all_years all_data ≠ ∅ → ¬ dom all_data ⊆ dom indicator_info →
   WB.build_panel all_data indicator_info = Raise KeyError) ∧
  (dom all_data ⊆ dom indicator_info →
   ∃ rows, WB.build_panel all_data indicator_info = Ok rows ∧
           length rows = size (WB.all_years all_data)).
Proof.
  rewrite wb_all_years_eq. split; [|split].
  - intros Hempty. unfold WB.build_panel. rewrite wb_all_years_eq, Hempty.
    by rewrite elements_empty.
  - intros Hyears Hdom. unfold WB.build_panel. rewrite wb_all_years_eq.
    destruct (sorted id (elements (IMF.all_years all_data))) as [|year years] eqn:Hsorted.
    { exfalso. apply Hyears. apply leibniz_equiv, elements_empty_inv.
      apply Permutation_nil_r. by rewrite <- (sorted_perm id), Hsorted. }
    cbn [WB.build_rows]. unfold WB.build_row.
    rewrite wb_set_cells_missing; [done| |].
    + by intros code Hcode%elem_of_sorted%elem_of_elements%elem_of_dom.
    + destruct (decide (set_Forall (λ code, code ∈ dom indicator_info) (dom all_data)))
        as [Hall|Hsome].
      { exfalso. apply Hdom. intros code Hcode. by apply Hall. }
      apply not_set_Forall_Exists in Hsome as (code & Hcode & Hmissing); [|apply _].
      exists code. split.
      * by apply elem_of_sorted, elem_of_elements.
      * by apply not_elem_of_dom.
  - intros Hdom. unfold WB.build_panel. rewrite wb_all_years_eq.
    rewrite wb_build_rows_fill by done. eexists. split; [done|].
    by rewrite length_fmap, sorted_perm.
Qed.

Lemma X10_witness :
  WB.build_panel ∅ demo_info = Ok [] ∧
  WB.build_panel demo_data ∅ = Raise KeyError ∧
  ∃ rows, WB.build_panel demo_data demo_info = Ok rows ∧ length rows = 3.
Proof.
  split; [|split].
  - destruct (X10_wb_panel_key_error ∅ demo_info) as (Hnone & _).
    apply Hnone. reflexivity.
  - destruct (X10_wb_panel_key_error demo_data ∅) as (_ & Hraise & _).
    apply Hraise; by_computation.
  - destruct (X10_wb_panel_key_error demo_data demo_info) as (_ & _ & Hrows).
    destruct Hrows as (rows & Hrun & Hlen); [by_computation|].
    exists rows. split; [exact Hrun|]. rewrite Hlen. reflexivity.
Defined.

(** ** [_label_to_filename] *)

Lemma lower_or_digit_facts (c : Ascii.ascii) :
  is_lower_or_digit c = true →
  is_upper c = false ∧ c ≠ underscore ∧
  Ascii.eqb c (Ascii.ascii_of_nat 37) = false ∧
  Ascii.eqb c (Ascii.ascii_of_nat 38) = false ∧
  Ascii.eqb c (Ascii.ascii_of_nat 47) = false.
Proof. by destruct c as [[] [] [] [] [] [] [] []]. Qed.

Lemma underscore_facts :
  is_lower_or_digit underscore = false ∧ is_upper underscore = false ∧
  Ascii.eqb underscore (Ascii.ascii_of_nat 37) = false ∧
  Ascii.eqb underscore (Ascii.ascii_of_nat 38) = false ∧
  Ascii.eqb underscore (Ascii.ascii_of_nat 47) = false.
Proof. done. Qed.

Lemma filename_char_lower (c : Ascii.ascii) :
  is_lower_or_digit c = true ∨ c = underscore →
  lower_byte c = c ∧ is_byte 196 c = false ∧ is_byte 226 c = false.
Proof.
  intros [Hc| ->]; [|done]. revert Hc. by destruct c as [[] [] [] [] [] [] [] []].
Qed.

Lemma lower_clean (s : list Ascii.ascii) :
  Forall (λ c, is_lower_or_digit c = true ∨ c = underscore) s → lower s = s.
Proof.
  induction 1 as [|c s Hc Hs IH]; [done|].
  destruct (filename_char_lower c Hc) as (Hlow & H196 & H226).
  cbn [lower]. rewrite H196, H226. cbn [andb].
  destruct s as [|c2 [|c3 s]]; rewrite ?Hlow, ?IH; done.
Qed.

Lemma eqb_underscore (c : Ascii.ascii) : Ascii.eqb c underscore = true ↔ c = underscore.
Proof. apply Ascii.eqb_eq. Qed.

(** What [re.sub] returns: the class and the underscore, and never two
    underscores in a row, nor one first after a run has begun. *)
Lemma sub_runs_chars (s : list Ascii.ascii) : ∀ in_run,
  Forall (λ c, is_lower_or_digit c = true ∨ c = underscore) (sub_runs in_run s).
Proof.
  induction s as [|c s IH]; intros in_run; simpl; [constructor|].
  destruct (is_lower_or_digit c) eqn:Hc; [constructor; auto|].
  destruct in_run; [apply IH|]. constructor; auto.
Qed.

Lemma sub_runs_single (s : list Ascii.ascii) : ∀ in_run,
  no_double_underscore (sub_runs in_run s) = true ∧
  (in_run = true → head (sub_runs in_run s) ≠ Some underscore).
Proof.
  induction s as [|c s IH]; intros in_run; simpl; [done|].
  destruct (is_lower_or_digit c) eqn:Hc.
  - destruct (lower_or_digit_facts c Hc) as (_ & Hne & _).
    destruct (IH false) as [Hsingle _]. split.
    + cbn [no_double_underscore]. rewrite Hsingle.
      destruct (Ascii.eqb c underscore) eqn:Heq; [by apply eqb_underscore in Heq|done].
    + intros _ [= ->]. done.
  - destruct in_run; [apply IH|]. destruct (IH true) as [Hsingle Hhead]. split; [|done].
    cbn [no_double_underscore]. rewrite Hsingle.
    destruct (sub_runs true s) as [|b rest]; [done|].
    destruct (Ascii.eqb b underscore) eqn:Heq; [|done].
    apply eqb_underscore in Heq as ->. by destruct (Hhead eq_refl).
Qed.

Lemma no_double_app (s1 s2 : list Ascii.ascii) :
  no_double_underscore (s1 ++ s2) = true →
  no_double_underscore s1 = true ∧ no_double_underscore s2 = true.
Proof.
  induction s1 as [|a s1 IH]; [done|]. cbn [app no_double_underscore].
  intros [Ha Hrest]%andb_true_iff. destruct (IH Hrest) as [H1 H2].
  split; [|done]. rewrite H1, andb_true_r.
  destruct (Ascii.eqb a underscore); [|done].
  destruct s1 as [|b s1]; [done|]. exact Ha.
Qed.

Lemma no_double_snoc (t : list Ascii.ascii) (a : Ascii.ascii) :
  no_double_underscore (t ++ [a]) =
  no_double_underscore t
  && negb (Ascii.eqb a underscore
           && match last t with Some b => Ascii.eqb b underscore | None => false end).
Proof.
  induction t as [|b t IH]; [simpl; by rewrite andb_false_r|].
  destruct t as [|b' t].
  - simpl. destruct (Ascii.eqb b underscore), (Ascii.eqb a underscore); done.
  - change (no_double_underscore ((b :: b' :: t) ++ [a]))
      with (negb (Ascii.eqb b underscore && Ascii.eqb b' underscore)
            && no_double_underscore ((b' :: t) ++ [a])).
    rewrite IH.
    change (no_double_underscore (b :: b' :: t))
      with (negb (Ascii.eqb b underscore && Ascii.eqb b' underscore)
            && no_double_underscore (b' :: t)).
    change (last (b :: b' :: t)) with (last (b' :: t)).
    by rewrite andb_assoc.
Qed.

Lemma no_double_reverse (s : list Ascii.ascii) :
  no_double_underscore s = true → no_double_underscore (reverse s) = true.
Proof.
  induction s as [|a s IH]; [done|]. cbn [no_double_underscore].
  intros [Ha Hrest]%andb_true_iff. rewrite reverse_cons, no_double_snoc.
  rewrite (IH Hrest), last_reverse. by destruct s.
Qed.

(** [lstrip] removes a prefix of underscores. *)
Lemma lstrip_split (s : list Ascii.ascii) :
  ∃ dropped, s = dropped ++ lstrip s ∧ head (lstrip s) ≠ Some underscore.
Proof.
  induction s as [|c s (dropped & Hs & Hhead)]; [by exists []|].
  cbn [lstrip]. destruct (Ascii.eqb c underscore) eqn:Hc.
  - exists (c :: dropped). split; [by rewrite <- app_comm_cons, <- Hs|done].
  - exists []. split; [done|]. simpl. intros [= ->]. by rewrite Ascii.eqb_refl in Hc.
Qed.

Lemma lstrip_id (s : list Ascii.ascii) : head s ≠ Some underscore → lstrip s = s.
Proof.
  destruct s as [|c s]; [done|]. simpl. intros Hc.
  destruct (Ascii.eqb c underscore) eqn:Heq; [|done].
  apply eqb_underscore in Heq as ->. done.
Qed.

Lemma strip_clean (s : list Ascii.ascii) :
  Forall (λ c, is_lower_or_digit c = true ∨ c = underscore) s →
  no_double_underscore s = true →
  clean_name (strip s).
Proof.
  intros Hchars Hsingle. unfold strip.
  destruct (lstrip_split s) as (d1 & Hs & Hhead1).
  destruct (lstrip_split (reverse (lstrip s))) as (d2 & Ht & Hhead2).
  set (t := lstrip s) in *. set (u := lstrip (reverse t)) in *.
  assert (t = reverse u ++ reverse d2) as Htu.
  { rewrite <- reverse_app, <- Ht. by rewrite reverse_involutive. }
  rewrite Hs in Hchars, Hsingle.
  apply Forall_app in Hchars as [_ Hchars]. apply no_double_app in Hsingle as [_ Hsingle].
  rewrite Htu in Hchars, Hsingle, Hhead1.
  apply Forall_app in Hchars as [Hchars _]. apply no_double_app in Hsingle as [Hsingle _].
  split; [done|]. split; [done|]. split.
  - destruct (reverse u) as [|c r]; [done|]. exact Hhead1.
  - by rewrite last_reverse.
Qed.

Lemma sub_runs_id (s : list Ascii.ascii) :
  Forall (λ c, is_lower_or_digit c = true ∨ c = underscore) s →
  no_double_underscore s = true →
  ∀ in_run, (in_run = true → head s ≠ Some underscore) → sub_runs in_run s = s.
Proof.
  induction s as [|c s IH]; intros Hchars Hsingle in_run Hstart; [done|].
  apply Forall_cons in Hchars as [Hc Hchars].
  cbn [no_double_underscore] in Hsingle.
  apply andb_true_iff in Hsingle as [Hpair Hsingle].
  cbn [sub_runs]. destruct Hc as [Hc| ->].
  - rewrite Hc. f_equal. by apply IH.
  - destruct in_run; [by destruct (Hstart eq_refl)|].
    change (is_lower_or_digit underscore) with false. cbn iota. f_equal.
    apply IH; [done|done|]. intros _ Hs. destruct s as [|b s]; [done|].
    simpl in Hs. injection Hs as ->. done.
Qed.

Lemma clean_name_fixed (s : list Ascii.ascii) :
  clean_name s → label_to_filename_chars s = s.
Proof.
  intros (Hchars & Hsingle & Hhead & Hlast). unfold label_to_filename_chars.
  rewrite (lower_clean s Hchars).
  assert (∀ old new, (∀ c, c ∈ s → Ascii.eqb c old = false) → replace old new s = s)
    as Hreplace.
  { intros old new Hnone. unfold replace. clear -Hnone.
    induction s as [|c s IH]; [done|]. simpl.
    rewrite (Hnone c) by by left. simpl. f_equal. apply IH.
    intros c' Hc'. apply Hnone. by right. }
  rewrite !Hreplace.
  2-4: intros c Hc; rewrite Forall_forall in Hchars;
       destruct (Hchars c Hc) as [Hd| ->]; [|done];
       by destruct (lower_or_digit_facts c Hd) as (_ & _ & ? & ? & ?).
  rewrite (sub_runs_id s Hchars Hsingle false) by done. unfold strip.
  rewrite (lstrip_id s Hhead).
  rewrite (lstrip_id (reverse s)) by (by rewrite head_reverse).
  apply reverse_involutive.
Qed.

(** X11. For a label of ASCII characters, the file name is made of
    [a-z], [0-9] and underscores only, has no underscore at either end
    and no two underscores in a row; and a name that is so made is left
    as it is, so that the function applied twice gives what it gives
    once. *)
Theorem X11_label_to_filename_is_clean (label : string) :
  ascii_label label →
  clean_name (String.list_ascii_of_string (_label_to_filename label)) ∧
  _label_to_filename (_label_to_filename label) = _label_to_filename label.
Proof.
  intros _. unfold _label_to_filename.
  rewrite String.list_ascii_of_string_of_list_ascii.
  assert (clean_name (label_to_filename_chars (String.list_ascii_of_string label)))
    as Hclean.
  { unfold label_to_filename_chars.
    apply strip_clean; [apply sub_runs_chars | apply sub_runs_single]. }
  split; [done|]. by rewrite (clean_name_fixed _ Hclean).
Qed.

Lemma X11_witness :
  _label_to_filename "US Core CPI (ex Food & Energy)" = "us_core_cpi_ex_food_and_energy" ∧
  clean_name (String.list_ascii_of_string
                (_label_to_filename "US Core CPI (ex Food & Energy)")).
Proof.
  split; [reflexivity|].
  apply (X11_label_to_filename_is_clean "US Core CPI (ex Food & Energy)").
  unfold ascii_label. apply Forall_forall. intros c Hc.
  apply (bool_decide_unpack _).
  revert c Hc. apply Forall_forall. by_computation.
Defined.

(** ** [download_series] *)

Section download_series.
Context (fred : client) (label_prefix : string).

Lemma fold_zip_invariant {A B St : Type} (f : St → A * B → St)
    (P : list B → St → Prop) :
  (∀ done s i x, P done s → P (done ++ [x]) (f s (i, x))) →
  ∀ l indices done s, length indices = length l → P done s →
    P (done ++ l) (fold_left f (zip indices l) s).
Proof.
  intros Hstep. induction l as [|x l IH]; intros indices done s Hlen HP.
  - rewrite app_nil_r. by destruct indices.
  - destruct indices as [|i indices]; [done|]. simpl.
    rewrite (cons_middle x done l), app_assoc. apply IH; [by injection Hlen|].
    by apply Hstep.
Qed.

Lemma untouched_stable series_id k d d' :
  touches_only series_id d d' → k ≠ series_id → untouched d k → untouched d' k.
Proof.
  intros (Hdata & (es & Hes & Hids) & (rows & Hrows & Hsid)) Hne (Hget & Herr & Hrow).
  unfold untouched, error_ids, has_row in *. rewrite Hdata, Hes, Hrows by done.
  split; [done|]. split.
  - rewrite fmap_app, elem_of_app. intros [?|Hin]; [done|].
    apply list_elem_of_fmap in Hin as (e & -> & He).
    rewrite Forall_forall in Hids. by apply Hne, Hids.
  - rewrite Exists_app. intros [?|Hin]; [done|].
    apply Exists_exists in Hin as (row & Hin & Hk).
    rewrite Forall_forall in Hsid. specialize (Hsid row Hin). congruence.
Qed.

Lemma outcome_stable series_id k label d d' :
  touches_only series_id d d' → k ≠ series_id →
  series_outcome fred label_prefix d k label →
  series_outcome fred label_prefix d' k label.
Proof.
  intros Htouch Hne. pose proof (untouched_stable _ _ _ _ Htouch Hne) as Hun.
  destruct Htouch as (Hdata & (es & Hes & Hids) & (rows & Hrows & Hsid)).
  assert (k ∉ error_ids d → k ∉ error_ids d') as Herr.
  { unfold error_ids. rewrite Hes, fmap_app, elem_of_app. intros ? [?|Hin]; [done|].
    apply list_elem_of_fmap in Hin as (e & -> & He).
    rewrite Forall_forall in Hids. by apply Hne, Hids. }
  assert (¬ has_row d k → ¬ has_row d' k) as Hrow.
  { unfold has_row. rewrite Hrows, Exists_app. intros ? [?|Hin]; [done|].
    apply Exists_exists in Hin as (row & Hin & Hk).
    rewrite Forall_forall in Hsid. specialize (Hsid row Hin). congruence. }
  unfold series_outcome. cbv zeta.
  destruct (get_series fred k) as [raw|e].
  - destruct (dropna raw) as [|o series]; [done|].
    rewrite Hdata by done. intros [Hget Hrest]. split; [done|].
    destruct (to_csv fred _) as [e|].
    + destruct Hrest as [He ?]. split; [|by auto].
      rewrite Hes, elem_of_app. by left.
    + destruct Hrest as [? Hin]. split; [by auto|].
      rewrite Hrows, elem_of_app. by left.
  - rewrite Hdata by done. intros (? & He & ?). split; [done|]. split; [|by auto].
    rewrite Hes, elem_of_app. by left.
Qed.

Lemma download_one_turn n d i series_id label :
  untouched d series_id →
  let d' := download_one fred label_prefix n d (i, (series_id, label)) in
  touches_only series_id d d' ∧
  series_outcome fred label_prefix d' series_id label ∧
  (length (metadata d') + length (errors d')
   + (if is_empty_series fred series_id then 1 else 0)
   = S (length (metadata d) + length (errors d)))%nat.
Proof.
  intros (Hget & Herr & Hrow). cbv zeta.
  unfold download_one, series_outcome, is_empty_series, touches_only. cbv zeta.
  destruct (get_series fred series_id) as [raw|e].
  - destruct (dropna raw) as [|o series] eqn:Hdrop.
    + rewrite bool_decide_eq_true_2 by done. cbn. split; [|split].
      * split; [done|]. split; [exists []|exists []]; by rewrite app_nil_r.
      * done.
      * lia.
    + rewrite bool_decide_eq_false_2 by done.
      change (length (o :: series) =? 0)%nat with false. cbv iota.
      destruct (to_csv fred _) as [e|].
      * cbn. split; [|split].
        -- split; [intros k Hk; by rewrite get_setitem, decide_False|].
           split; [exists [(series_id, label, e)]; split; [done|by constructor]|].
           exists []. by rewrite app_nil_r.
        -- rewrite get_setitem, decide_True by done. split; [done|].
           split; [rewrite elem_of_app; right; by left|done].
        -- rewrite length_app. simpl. lia.
      * cbn. split; [|split].
        -- split; [intros k Hk; by rewrite get_setitem, decide_False|].
           split; [exists []; by rewrite app_nil_r|].
           eexists [_]. split; [done|]. constructor; [|done].
           by destruct (get_series_info fred series_id).
        -- rewrite get_setitem, decide_True by done. split; [done|].
           split; [done|]. rewrite elem_of_app. right. by left.
        -- rewrite length_app. simpl. lia.
  - cbn. split; [|split].
    + split; [done|].
      split; [exists [(series_id, label, e)]; split; [done|by constructor]|].
      exists []. by rewrite app_nil_r.
    + split; [done|]. split; [rewrite elem_of_app; right; by left|done].
    + rewrite length_app. simpl. lia.
Qed.

Lemma download_accounted_turn n done d i x :
  (NoDup (done ++ [x]).*1 → download_accounted fred label_prefix done d) →
  NoDup (done ++ [x]).*1 →
  download_accounted fred label_prefix (done ++ [x]) (download_one fred label_prefix n d (i, x)).
Proof.
  intros Hinv Hnodup. specialize (Hinv Hnodup) as (Hdone & Hrest & Hcount).
  destruct x as [series_id label].
  rewrite fmap_app in Hnodup. apply NoDup_app in Hnodup as (_ & Hfresh & _).
  assert (series_id ∉ done.*1) as Hnew.
  { intros Hin. apply (Hfresh _ Hin). by left. }
  pose proof (download_one_turn n d i series_id label (Hrest _ Hnew)) as Hturn.
  cbv zeta in Hturn.
  set (d' := download_one fred label_prefix n d (i, (series_id, label))) in *.
  clearbody d'. destruct Hturn as (Htouch & Hout & Hlen).
  split; [|split].
  - intros k l [Hin|Hin]%elem_of_app.
    + apply (outcome_stable series_id k l d); [done| |by apply Hdone].
      intros ->. apply Hnew. apply list_elem_of_fmap. by exists (series_id, l).
    + apply list_elem_of_singleton in Hin. by injection Hin as -> ->.
  - intros k Hk. rewrite fmap_app, elem_of_app in Hk.
    apply (untouched_stable series_id k d); [done| |].
    + intros ->. apply Hk. right. by left.
    + apply Hrest. intros ?. apply Hk. by left.
  - rewrite filter_app, !length_app. cbn [length].
    rewrite filter_cons, filter_nil. cbn [fst].
    destruct (is_empty_series fred series_id).
    + rewrite decide_True by done. cbn [length]. lia.
    + rewrite decide_False by done. cbn [length]. lia.
Qed.

End download_series.

(** X12. [download_series] on a dict (no identifier twice) whose labels
    are of ASCII characters, with a client whose notes are: for every
    series of it, [series_outcome] holds of the results -- a series that
    [get_series] refuses is in [errors] with the text of the exception
    and not in [data]; one with no observation left after [dropna] is in
    none of the three results; any other is in [data] with its
    observations, NaN dropped, and has either its metadata row (full, or
    the four-field row when [get_series_info] raises) or, when the CSV
    cannot be written, an entry in [errors] while it stays in [data].
    Nothing is recorded for an identifier outside the dict, and the
    metadata rows, the errors and the empty series add up to the size of
    the dict. *)
Theorem X12_download_series_outcomes (fred : client)
    (series_dict : list (string * string)) (label_prefix : string) :
  NoDup series_dict.*1 →
  Forall (λ item, ascii_label item.2) series_dict →
  (∀ series_id info,
     get_series_info fred series_id = Fetched info →
     ascii_label (default "" (info !! "notes"))) →
  let d := download_series fred series_dict label_prefix in
  (∀ series_id label, (series_id, label) ∈ series_dict →
     series_outcome fred label_prefix d series_id label) ∧
  (∀ series_id, series_id ∉ series_dict.*1 → untouched d series_id) ∧
  length (metadata d) + length (errors d)
  + length (filter (λ kv, is_empty_series fred kv.1 = true) series_dict)
  = length series_dict.
Proof.
  intros Hnodup _ _ d.
  pose proof (fold_zip_invariant
    (download_one fred label_prefix (length series_dict))
    (λ done d, NoDup done.*1 → download_accounted fred label_prefix done d)) as Hfold.
  specialize (Hfold) with (l := series_dict) (indices := seq 1 (length series_dict))
    (done := []) (s := Download [] [] [] [] []).
  apply Hfold; [| by rewrite length_seq | | done].
  - intros done s i x Hinv Hnd. apply download_accounted_turn; [|done].
    intros _. apply Hinv. rewrite fmap_app in Hnd. by apply NoDup_app in Hnd as (? & _).
  - intros _. split; [|split]; [by intros ? ? ?%elem_of_nil| |done].
    intros k _. split; [done|]. split; [by intros ?%elem_of_nil|].
    unfold has_row. simpl. by intros ?%Exists_nil.
Qed.

Lemma X12_witness :
  let d := download_series demo_client demo_series_dict "US" in
  Dict.get String.eqb "DCOILWTICO" (data d) = Some [("2001-01-01", 29.6%Q)] ∧
  ("GONE", "Removed series", "Bad Request. The series does not exist.") ∈ errors d ∧
  untouched d "OLD" ∧
  length (metadata d) + length (errors d) = 2.
Proof.
  cbv zeta.
  destruct (X12_download_series_outcomes demo_client demo_series_dict "US")
    as (Hout & _ & Hcount).
  { by_computation. }
  { unfold demo_series_dict, ascii_label. repeat constructor; by_computation. }
  { intros series_id info. cbn [get_series_info demo_client].
    destruct (String.eqb series_id "DCOILWTICO"); [|discriminate].
    intros [= <-]. unfold ascii_label. by_computation. }
  cbv zeta in Hout, Hcount.
  split; [|split; [|split]].
  - destruct (Hout "DCOILWTICO" "WTI Crude Oil Price") as [Hget _]; [by_computation|].
    exact Hget.
  - destruct (Hout "GONE" "Removed series") as (_ & Herr & _); [by_computation|].
    exact Herr.
  - apply (Hout "OLD" "Discontinued series"). by_computation.
  - change (length (filter (λ kv, is_empty_series demo_client kv.1 = true)
                      demo_series_dict)) with 1 in Hcount.
    change (length demo_series_dict) with 3 in Hcount. lia.
Defined.

(** ** The effort of the crawl *)

Lemma count_events_app (p : event → bool) (a b : list event) :
  count_events p (a ++ b) = count_events p a + count_events p b.
Proof. unfold count_events. by rewrite filter_app, length_app. Qed.

Lemma count_events_cons (p : event → bool) (e : event) (a : list event) :
  count_events p (e :: a) = (if p e then 1 else 0) + count_events p a.
Proof.
  unfold count_events. rewrite filter_cons. destruct (p e).
  - by rewrite decide_True.
  - by rewrite decide_False.
Qed.

Lemma costs_nil : costs [] 0 0.
Proof. by repeat split. Qed.

Lemma costs_app (a b : list event) (n m lines lines' : nat) :
  costs a n lines → costs b m lines' → costs (a ++ b) (n + m) (lines + lines').
Proof.
  unfold costs. rewrite !count_events_app.
  intros (-> & -> & -> & -> & ->) (-> & -> & -> & -> & ->).
  repeat split; lia.
Qed.

Lemma out_emit (e : event) (st : state) : out (emit e st) = out st ++ [e].
Proof. reflexivity. Qed.

Lemma out_record (l : list series_entry) : ∀ st, out (fold_left record l st) = out st.
Proof. induction l as [|s l IH]; intros st; [done|]. simpl. by rewrite IH. Qed.

(** The events of one call of [crawl_category] within the recursion
    limit, recursion included. *)
Lemma crawl_costs (api_key : string) (cost : nat) (recursion_error : string)
    (served : category) :
  ∀ frames cat_id depth st,
    depth_of served + cost ≤ frames →
    ∃ st' events,
      crawl_category api_key cost recursion_error frames cat_id depth served st = Some st' ∧
      out st' = out st ++ events ∧
      costs events (categories served) (categories served + failed_series served - 1) ∧
      head events = Some (Requested (series_request api_key cat_id)) ∧
      last events = Some (Slept 0.2%Q).
Proof.
  induction served as [seriess children IH] using category_ind.
  intros frames cat_id depth st Hdepth. cbn [depth_of] in Hdepth.
  destruct frames as [|room]; [lia|].
  cbn [crawl_category categories failed_series].
  assert ((room <? cost)%nat = false) as -> by (apply Nat.ltb_ge; lia).
  set (m := match children with
            | Some cs => sum_list_with (λ child, categories child.2) cs
            | None => 0
            end).
  set (f := match children with
            | Some cs => sum_list_with (λ child, failed_series child.2) cs
            | None => 0
            end).
  set (st1 := match seriess with Fetched _ => _ | FetchError _ => _ end).
  assert (∃ warning, out st1 = out st ++ [Requested (series_request api_key cat_id)] ++ warning ∧
                     costs warning 0 (match seriess with Fetched _ => 0 | FetchError _ => 1 end))
    as (warning & Hst1 & Hwarning).
  { subst st1. destruct seriess as [l|e].
    - exists []. by rewrite out_record, out_emit.
    - eexists [_]. rewrite !out_emit, <- app_assoc. split; [done|]. by repeat split. }
  clearbody st1.
  set (st2 := emit (Requested (children_request api_key cat_id)) (emit (Slept 0.3%Q) st1)).
  assert (out st2 = out st1 ++ [Slept 0.3%Q; Requested (children_request api_key cat_id)])
    as Hst2.
  { subst st2. by rewrite !out_emit, <- app_assoc. }
  clearbody st2.
  set (st3 := match children with Some _ => _ | None => _ end).
  assert (∃ below, out st3 = out st2 ++ below ∧ costs below m (m + f))
    as (below & Hst3 & Hbelow).
  { subst st3 m f. destruct children as [cs|]; [|exists []; by rewrite app_nil_r].
    assert (max_list_with (λ child, depth_of child.2) cs + cost ≤ room) as Hcs by lia.
    clear Hst2 Hdepth. revert st2.
    induction IH as [|[[child_id child_name] child] cs Hchild _ IHcs]; intros st2.
    - exists []. by rewrite app_nil_r.
    - cbn [sum_list_with max_list_with snd] in *.
      rewrite crawl_children_cons. cbv beta.
      destruct (Hchild room child_id (S depth)
                  (emit (Printed (indent depth +:+ "  -> subcategory: " +:+ child_name
                                    +:+ " (" +:+ pretty child_id +:+ ")" +:+ nl)) st2))
        as (st' & events & -> & Hout & Hcosts & _ & _); [lia|].
      destruct (IHcs ltac:(lia) st') as (rest & Hrest & Hcosts').
      eexists (_ :: events ++ rest). split.
      + rewrite Hrest, Hout, out_emit, <- !app_assoc. done.
      + assert (1 ≤ categories child) by (destruct child; simpl; lia).
        destruct Hcosts as (Hr & Hs & H3 & H2 & Hp).
        destruct Hcosts' as (Hr' & Hs' & H3' & H2' & Hp').
        unfold costs. rewrite !count_events_cons, !count_events_app.
        cbn [is_request is_sleep is_sleep_of is_print].
        repeat split; lia. }
  clearbody st3. eexists _, _. split; [reflexivity|].
  rewrite out_emit, Hst3, Hst2, Hst1, <- !app_assoc.
  split; [done|]. split; [|split].
  - destruct Hwarning as (Hr & Hs & H3 & H2 & Hp).
    destruct Hbelow as (Hr' & Hs' & H3' & H2' & Hp').
    unfold costs. cbn [app].
    rewrite !count_events_cons, !count_events_app, !count_events_cons, !count_events_app.
    rewrite !count_events_cons.
    change (count_events _ []) with 0.
    cbn [is_request is_sleep is_sleep_of is_print].
    change (Qeq_bool 0.3 0.3) with true. change (Qeq_bool 0.3 0.2) with false.
    change (Qeq_bool 0.2 0.3) with false. change (Qeq_bool 0.2 0.2) with true.
    cbv iota. destruct seriess; repeat split; lia.
  - done.
  - rewrite !app_assoc. by rewrite last_snoc.
Qed.

(** X13. When the interpreter has the frames for the tree (as many as
    the tree is deep, and those a request needs), the crawl returns, and
    between the line that announces the discovery and the line that
    reports the number of series found it sends two requests for every
    category of the tree (its series, then its children), pauses twice
    for every category, once for 0.3 s and once for 0.2 s, and for no
    other reason, and prints one line for every category below the root
    and one warning for every category whose series could not be
    fetched; it begins with the request for the series of the root and
    ends with a pause of 0.2 s. *)
Theorem X13_crawl_effort (api_key : string) (cost : nat) (recursion_error : string)
    (frames : nat) (served : category) :
  depth_of served + cost ≤ frames →
  ∃ result events,
    discover_ecuador_series api_key cost recursion_error frames served
    = Some (result,
            [Printed ("Discovering all Ecuador series under FRED category 32696..." +:+ nl)]
            ++ events
            ++ [Printed ("Found " +:+ pretty (length result)
                           +:+ " Ecuador-specific series." +:+ nl +:+ nl)]) ∧
    costs events (categories served) (categories served + failed_series served - 1) ∧
    head events = Some (Requested (series_request api_key ECUADOR_CATEGORY_ID)) ∧
    last events = Some (Slept 0.2%Q).
Proof.
  intros Hdepth. unfold discover_ecuador_series.
  destruct (crawl_costs api_key cost recursion_error served frames ECUADOR_CATEGORY_ID 0
              (emit (Printed ("Discovering all Ecuador series under FRED category "
                                +:+ pretty ECUADOR_CATEGORY_ID +:+ "..." +:+ nl))
                    (State [] [])) Hdepth)
    as (st' & events & -> & Hout & Hcosts).
  exists (all_series st'), events. split; [|done].
  rewrite out_emit, Hout, out_emit, all_series_emit. cbn [out app].
  reflexivity.
Qed.

Lemma X13_witness :
  ∃ result events,
    discover_ecuador_series "key" 30 "maximum recursion depth exceeded" 990 demo_tree
    = Some (result,
            [Printed ("Discovering all Ecuador series under FRED category 32696..." +:+ nl)]
            ++ events
            ++ [Printed ("Found " +:+ pretty (length result)
                           +:+ " Ecuador-specific series." +:+ nl +:+ nl)]) ∧
    count_events is_request events = 4 ∧
    count_events is_print events = 1.
Proof.
  destruct (X13_crawl_effort "key" 30 "maximum recursion depth exceeded" 990 demo_tree)
    as (result & events & Hrun & (Hrequests & _ & _ & _ & Hprints) & _).
  - vm_compute. lia.
  - exists result, events. split; [exact Hrun|]. split; [exact Hrequests|exact Hprints].
Defined.

(** ** The World Bank metadata and the missing series *)

Lemma wb_metadata_rows_missing (all_data : gmap string (gmap string json))
    (indicator_info : gmap string WB.info) (codes : list string) :
  (∀ code, code ∈ codes → is_Some (indicator_info !! code)) →
  (∃ code, code ∈ codes ∧ all_data !! code = None) →
  WB.metadata_rows all_data indicator_info codes = Raise KeyError.
Proof.
  induction codes as [|code codes IH]; intros Hinfo (missing & Hin & Hmissing).
  { by apply elem_of_nil in Hin. }
  cbn [WB.metadata_rows]. unfold WB.metadata_row.
  destruct (Hinfo code ltac:(by left)) as [inf ->].
  destruct (all_data !! code) as [year_dict|] eqn:Hcode; [|done].
  cbn [rbind]. rewrite IH; [done| |].
  - intros c Hc. apply Hinfo. by right.
  - exists missing. split; [|done].
    apply elem_of_cons in Hin as [->|Hin]; [congruence|done].
Qed.

(** X14. The World Bank metadata writer raises [KeyError] exactly when
    some indicator with [indicator_info] has no series in [all_data];
    otherwise it writes one row per entry of [indicator_info], each
    entry once, in ascending order of the codes. *)
Theorem X14_wb_metadata_key_error (all_data : gmap string (gmap string json))
    (indicator_info : gmap string WB.info) :
  (dom indicator_info ⊆ dom all_data →
   ∃ rows codes,
     WB.write_metadata all_data indicator_info = Ok rows ∧
     length rows = size indicator_info ∧
     Forall2 (λ code m, indicator_info !! code = Some (WB.m_info m)) codes rows ∧
     StronglySorted String.le codes ∧
     NoDup codes ∧
     (∀ code, code ∈ codes ↔ is_Some (indicator_info !! code))) ∧
  (¬ dom indicator_info ⊆ dom all_data →
   WB.write_metadata all_data indicator_info = Raise KeyError).
Proof.
  split.
  - intros Hdom.
    destruct (wb_metadata_rows_ok all_data indicator_info
                (sorted id (elements (dom indicator_info)))) as (rows & Hrows & Hall).
    { intros code Hin%elem_of_sorted%elem_of_elements. split.
      - by apply elem_of_dom.
      - by apply elem_of_dom, Hdom. }
    exists rows, (sorted id (elements (dom indicator_info))).
    split; [exact Hrows|]. split; [|split; [|split; [|split]]].
    + rewrite <- (Forall2_length _ _ _ Hall), sorted_perm.
      by rewrite <- size_dom.
    + eapply Forall2_impl; [exact Hall|]. by intros ? ? [? _].
    + apply (sorted_ascending id).
    + apply NoDup_sorted, NoDup_elements.
    + intros code. by rewrite elem_of_sorted, elem_of_elements, elem_of_dom.
  - intros Hdom. unfold WB.write_metadata. apply wb_metadata_rows_missing.
    + by intros code Hin%elem_of_sorted%elem_of_elements%elem_of_dom.
    + destruct (decide (set_Forall (λ code, code ∈ dom all_data) (dom indicator_info)))
        as [Hall|Hsome].
      { exfalso. apply Hdom. intros code Hcode. by apply Hall. }
      apply not_set_Forall_Exists in Hsome as (code & Hcode & Hmissing); [|apply _].
      exists code. split.
      * by apply elem_of_sorted, elem_of_elements.
      * by apply not_elem_of_dom.
Qed.

Lemma X14_witness :
  (∃ rows, WB.write_metadata demo_data demo_info = Ok rows ∧ length rows = 2) ∧
  WB.write_metadata ∅ demo_info = Raise KeyError.
Proof.
  split.
  - destruct (X14_wb_metadata_key_error demo_data demo_info) as [Hrows _].
    destruct Hrows as (rows & codes & Hrun & Hlen & _); [by_computation|].
    exists rows. split; [exact Hrun|]. rewrite Hlen. reflexivity.
  - destruct (X14_wb_metadata_key_error ∅ demo_info) as [_ Hraise].
    apply Hraise. by_computation.
Defined.

(** ** [count_csvs]: what the rows of a directory can be *)

Lemma add_rows_perm (files files' : list file) :
  files ≡ₚ files' → ∀ total, fold_left add_rows files total = fold_left add_rows files' total.
Proof.
  induction 1 as [|f files files' _ IH|f g files|files files' files'' _ IH1 _ IH2];
    intros total.
  - done.
  - cbn [fold_left]. apply IH.
  - cbn [fold_left]. f_equal. unfold add_rows.
    destruct (file_lines f), (file_lines g); lia.
  - by rewrite IH1, IH2.
Qed.

Lemma add_rows_at_least (files : list file) : ∀ total,
  (total - Z.of_nat (length files) ≤ fold_left add_rows files total)%Z.
Proof.
  induction files as [|f files IH]; intros total; [simpl; lia|].
  cbn [fold_left length]. etrans; [|apply IH]. unfold add_rows.
  destruct (file_lines f); lia.
Qed.

Lemma length_le_sum (counts : list nat) :
  Forall (λ n, 1 ≤ n) counts → length counts ≤ foldr Nat.add 0 counts.
Proof. induction 1; simpl; lia. Qed.

(** X15. For a directory that exists: the files counted are among its
    entries; every counted file takes at most one row off the total, so
    that the rows are no less than minus the number of files, and they
    are not negative when every readable CSV file has at least one
    line; and the counts depend on the CSV entries only, not on their
    order nor on what else the directory holds. *)
Theorem X15_count_csvs_bounds (fs : filesystem) (directory : string)
    (entries : list file) :
  fs directory = Some entries →
  (count_csvs fs directory).1 ≤ length entries ∧
  (- Z.of_nat (count_csvs fs directory).1 ≤ (count_csvs fs directory).2)%Z ∧
  (Forall (λ n, 1 ≤ n) (line_counts entries) → (0 ≤ (count_csvs fs directory).2)%Z) ∧
  (∀ fs' entries',
     fs' directory = Some entries' →
     glob_csv entries' ≡ₚ glob_csv entries →
     count_csvs fs' directory = count_csvs fs directory).
Proof.
  intros Hdir. unfold count_csvs. rewrite Hdir. cbn [fst snd].
  split; [|split; [|split]].
  - unfold glob_csv. apply length_filter.
  - pose proof (add_rows_at_least (glob_csv entries) 0). lia.
  - intros Hlines%length_le_sum. rewrite add_rows_sum. unfold line_counts in Hlines. lia.
  - intros fs' entries' -> Hperm.
    by rewrite (add_rows_perm _ _ Hperm), (Permutation_length Hperm).
Qed.

Lemma X15_witness :
  count_csvs demo_fs "/repo/ecuador_data/imf" = (2, 0%Z) ∧
  (0 ≤ (count_csvs demo_fs "/repo/ecuador_data/imf").2)%Z.
Proof.
  split; [reflexivity|].
  destruct (X15_count_csvs_bounds demo_fs "/repo/ecuador_data/imf"
              [File "indicator_metadata.csv" (Some ["code,label,years_available"]);
               File "notes.txt" (Some ["x"]);
               File "broken.csv" None] eq_refl) as (_ & _ & Hrows & _).
  apply Hrows. repeat constructor.
Defined.

(** ** [WB.fetch_indicator_data]: the records of an answer *)

Lemma setitem_str_keys (year : string) (value : json) (d : list (string * json)) :
  Dict.setitem key_eqb (JStr year) value (str_keys d)
  = str_keys (Dict.setitem String.eqb year value d).
Proof.
  induction d as [|[k v] d IH]; [done|]. unfold str_keys in *. cbn.
  destruct (String.eqb k year); [done|]. cbn. by rewrite IH.
Qed.

Lemma wb_add_record_str_keys (d : list (string * json)) (record : json) :
  wb_well_formed record = true →
  WB.add_record (str_keys d) record
  = Ok (str_keys (if wb_observed record
                  then Dict.setitem String.eqb (wb_date record) (wb_value record) d
                  else d)).
Proof.
  destruct record as [| | | | |m]; try done. intros Hwf.
  unfold WB.add_record, wb_observed, wb_date, wb_value. cbn [Py.get rbind].
  cbn [wb_well_formed] in Hwf.
  destruct (m !! "date") as [[| | |y| |]|]; cbn [truthy andb negb String.eqb] in *;
    try done; try (by rewrite ?Hwf; try apply negb_true_iff in Hwf; rewrite ?Hwf).
  destruct (String.eqb y "") eqn:Hy; cbn [negb andb]; [done|].
  destruct (m !! "value") as [v|]; cbn [default from_option id is_none negb]; [|done].
  destruct (is_none v); cbn [negb hashable]; [done|]. by rewrite setitem_str_keys.
Qed.

Lemma wb_add_records_str_keys (records : list json) : ∀ d,
  Forall (λ record, wb_well_formed record = true) records →
  WB.add_records (str_keys d) records
  = Ok (str_keys (fill wb_date wb_value (filter (λ r, wb_observed r = true) records) d)).
Proof.
  induction records as [|record records IH]; intros d Hwf; [done|].
  apply Forall_cons in Hwf as [Hrecord Hwf].
  cbn [WB.add_records]. rewrite wb_add_record_str_keys by done. cbn [rbind].
  rewrite IH by done. rewrite filter_cons.
  destruct (wb_observed record); [by rewrite decide_True|by rewrite decide_False].
Qed.

Lemma wb_add_records_app (good rest : list json) : ∀ d,
  WB.add_records d (good ++ rest)
  = rbind (WB.add_records d good) (λ d', WB.add_records d' rest).
Proof.
  induction good as [|record good IH]; intros d; [done|].
  cbn [app WB.add_records]. destruct (WB.add_record d record) as [d'|e]; [|done].
  cbn [rbind]. apply IH.
Qed.

Lemma wb_fetch_on_answer (indicator_id : string) (w : world) (meta second : json) :
  net w (wb_request (wb_url indicator_id)) (served w) = HttpOk (JArr [meta; second]) →
  (WB.fetch_indicator_data indicator_id w).1
  = if truthy second then rbind (iter second) (WB.add_records []) else Ok [].
Proof.
  intros Hnet. unfold WB.fetch_indicator_data, bind, total, WB.get_json.
  fold (wb_url indicator_id). fold (wb_request (wb_url indicator_id)).
  rewrite (wb_loop_success _ _ _ _ _ _ Hnet).
  cbn [WB.is_two_element_list length Nat.eqb truthy negb fst snd pure index lookup
       list_lookup].
  destruct (truthy second); cbn [negb]; [|done].
  unfold pure. destruct (iter second) as [records|e]; [|done]. done.
Qed.

(** X2. When the provider answers the query for an indicator with a
    header and a second element: a second element that is false ([null],
    an empty list) gives the empty mapping; a list of well-formed
    records gives the mapping that has, for every date string, the value
    of the last record with that date among those that have a date and a
    value, and no entry for a date without such a record; and a record
    that is not an object, met after well-formed ones, raises
    [AttributeError]. *)
Theorem X2_wb_fetch_records (indicator_id : string) (w : world) (meta second : json) :
  net w (wb_request (wb_url indicator_id)) (served w) = HttpOk (JArr [meta; second]) →
  (truthy second = false → (WB.fetch_indicator_data indicator_id w).1 = Ok []) ∧
  (∀ records,
     second = JArr records →
     Forall (λ record, wb_well_formed record = true) records →
     ∃ series,
       (WB.fetch_indicator_data indicator_id w).1 = Ok (str_keys series) ∧
       NoDup series.*1 ∧
       ∀ year,
         Dict.get String.eqb year series
         = wb_value <$> last (filter (λ r, wb_date r = year ∧ wb_observed r = true) records)) ∧
  (∀ good bad rest,
     second = JArr (good ++ bad :: rest) →
     Forall (λ record, wb_well_formed record = true) good →
     (∀ m, bad ≠ JObj m) →
     (WB.fetch_indicator_data indicator_id w).1 = Raise AttributeError).
Proof.
  intros Hnet. rewrite (wb_fetch_on_answer indicator_id w meta second Hnet).
  split; [by intros ->|]. split.
  - intros records -> Hwf.
    exists (fill wb_date wb_value (filter (λ r, wb_observed r = true) records) []).
    split; [|split].
    + destruct records as [|record records]; [done|].
      cbn [truthy length Nat.eqb negb iter rbind].
      change (WB.add_records [] ?l) with (WB.add_records (str_keys []) l).
      by rewrite (wb_add_records_str_keys _ [] Hwf).
    + apply (NoDup_keys_fill wb_date wb_value). constructor.
    + intros year. rewrite get_fill_last. cbn [Dict.get].
      rewrite list_filter_filter.
      by destruct (last _).
  - intros good bad rest -> Hwf Hbad.
    assert (truthy (JArr (good ++ bad :: rest)) = true) as ->.
    { cbn [truthy]. rewrite length_app. cbn [length]. rewrite Nat.add_succ_r. done. }
    cbn [iter rbind]. rewrite wb_add_records_app.
    change (WB.add_records [] ?l) with (WB.add_records (str_keys []) l).
    rewrite (wb_add_records_str_keys _ [] Hwf). cbn [rbind WB.add_records].
    destruct bad as [| | | | |m]; try done. by destruct (Hbad m).
Qed.

Lemma X2_witness :
  (WB.fetch_indicator_data "NY.GDP.MKTP.CD"
     (start (serves (JArr [JObj {[ "page" := JNum 1 ]}; JNull])))).1 = Ok [] ∧
  (WB.fetch_indicator_data "NY.GDP.MKTP.CD"
     (start (serves (JArr [JObj {[ "page" := JNum 1 ]};
                           JArr [JObj {[ "date" := JStr "2001"; "value" := JNum 24.5 ]};
                                 JNull]])))).1 = Raise AttributeError ∧
  ∃ series,
    (WB.fetch_indicator_data "NY.GDP.MKTP.CD"
       (start (serves (JArr [JObj {[ "page" := JNum 1 ]};
                             JArr [JObj {[ "date" := JStr "2001"; "value" := JNum 24.5 ]};
                                   JObj {[ "date" := JStr "2002"; "value" := JNull ]};
                                   JObj {[ "date" := JStr "2001"; "value" := JNum 25 ]}]])))).1
    = Ok (str_keys series) ∧
    Dict.get String.eqb "2001" series = Some (JNum 25) ∧
    Dict.get String.eqb "2002" series = None.
Proof.
  split; [|split].
  - destruct (X2_wb_fetch_records "NY.GDP.MKTP.CD"
                (start (serves (JArr [JObj {[ "page" := JNum 1 ]}; JNull])))
                (JObj {[ "page" := JNum 1 ]}) JNull eq_refl) as (Hfalse & _).
    apply Hfalse. reflexivity.
  - destruct (X2_wb_fetch_records "NY.GDP.MKTP.CD"
                (start (serves (JArr [JObj {[ "page" := JNum 1 ]};
                   JArr [JObj {[ "date" := JStr "2001"; "value" := JNum 24.5 ]}; JNull]])))
                (JObj {[ "page" := JNum 1 ]})
                (JArr [JObj {[ "date" := JStr "2001"; "value" := JNum 24.5 ]}; JNull])
                eq_refl) as (_ & _ & Hbad).
    apply (Hbad [JObj {[ "date" := JStr "2001"; "value" := JNum 24.5 ]}] JNull []).
    + reflexivity.
    + repeat constructor.
    + discriminate.
  - destruct (X2_wb_fetch_records "NY.GDP.MKTP.CD"
                (start (serves (JArr [JObj {[ "page" := JNum 1 ]};
                   JArr [JObj {[ "date" := JStr "2001"; "value" := JNum 24.5 ]};
                         JObj {[ "date" := JStr "2002"; "value" := JNull ]};
                         JObj {[ "date" := JStr "2001"; "value" := JNum 25 ]}]])))
                (JObj {[ "page" := JNum 1 ]})
                (JArr [JObj {[ "date" := JStr "2001"; "value" := JNum 24.5 ]};
                       JObj {[ "date" := JStr "2002"; "value" := JNull ]};
                       JObj {[ "date" := JStr "2001"; "value" := JNum 25 ]}])
                eq_refl) as (_ & Hgood & _).
    destruct (Hgood _ eq_refl) as (series & Hrun & _ & Hlast); [repeat constructor|].
    exists series. split; [exact Hrun|]. split; rewrite Hlast; reflexivity.
Defined.

(** ** The load on the providers *)

Lemma print_end_served (text e : string) (w : world) : served (print_end text e w) = served w.
Proof. reflexivity. Qed.

Lemma print_end_slept (text e : string) (w : world) : slept (print_end text e w) = slept w.
Proof. unfold slept; simpl. rewrite omap_app; simpl. apply app_nil_r. Qed.

Lemma sleep_served (s : Q) (w : world) : served (sleep s w) = served w.
Proof. reflexivity. Qed.

Lemma imf_fetch_world (code : string) (w : world) :
  (IMF.fetch_indicator_data code w).2 = (IMF.get_json (imf_url code) 3 w).2.
Proof.
  unfold IMF.fetch_indicator_data, bind, total, pure, ret. fold (imf_url code).
  destruct (IMF.get_json (imf_url code) 3 w) as [data w1]. cbn [snd].
  destruct (truthy data); cbn [negb]; [|done].
  destruct (contains "values" data) as [[|]|]; cbn [negb]; try done.
  destruct (getitem data "values") as [values|]; [|done].
  by destruct (Py.get values code (JObj ∅)).
Qed.

Lemma wb_fetch_world (indicator_id : string) (w : world) :
  (WB.fetch_indicator_data indicator_id w).2
  = (WB.get_json (wb_url indicator_id) None 3 w).2.
Proof.
  unfold WB.fetch_indicator_data, bind, total, pure, ret. fold (wb_url indicator_id).
  destruct (WB.get_json (wb_url indicator_id) None 3 w) as [resp w1]. cbn [snd].
  destruct (truthy resp); cbn [negb]; [|done].
  destruct (index resp 1) as [records|]; [|done].
  destruct (truthy records); cbn [negb]; [|done].
  by destruct (iter records).
Qed.

Lemma for_enumerate_world {A St : Type} (body : nat → A → St → M St)
    (Q : nat → world → Prop) (i0 : nat) :
  (∀ d x s w s' w', Q d w → body (i0 + d) x s w = (Ok s', w') → Q (S d) w') →
  ∀ xs d s w s' w',
    Q d w → for_enumerate body (i0 + d) xs s w = (Ok s', w') → Q (d + length xs) w'.
Proof.
  intros Hstep. induction xs as [|x xs IH]; intros d s w s' w' HQ; simpl.
  - intros [= _ <-]. by rewrite Nat.add_0_r.
  - unfold bind. destruct (body (i0 + d) x s w) as [[s1|e] w1] eqn:Hbody; [|done].
    intros Hrest. rewrite <- Nat.add_succ_comm. rewrite <- Nat.add_succ_r in Hrest.
    eapply IH; [|exact Hrest]. by eapply Hstep.
Qed.

Lemma imf_turn_load (n i : nat) (item : string * string) (t t' : IMF.tally) (w w' : world) :
  IMF.loop_body n i item t w = (Ok t', w') →
  one_fetch w w' (if (i mod 8 =? 0)%nat then [1.5%Q] else []).
Proof.
  destruct item as [code label]. unfold IMF.loop_body, bind, act, pure, ret.
  set (w0 := print_end _ _ w).
  pose proof (imf_fetch_world code w0) as Hworld.
  destruct (imf_loop_effort 3 (imf_url code) 3 0 w0 eq_refl)
    as (k & Hk & Hpos & Hserved & Hslept & _).
  fold (IMF.get_json (imf_url code) 3 w0) in Hserved, Hslept.
  rewrite <- Hworld in Hserved, Hslept.
  destruct (IMF.fetch_indicator_data code w0) as [[result|e] w1]; [|done].
  cbn [snd] in Hserved, Hslept. unfold w0 in Hslept. rewrite print_end_slept in Hslept.
  assert (∀ text r w2,
            (exec (if (i mod 8 =? 0)%nat then act (sleep 1.5%Q) else Net.ret tt) ;;
             Net.ret r) (print text w1) = (Ok t', w2) →
            one_fetch w w2 (if (i mod 8 =? 0)%nat then [1.5%Q] else [])) as Hend.
  { intros text r w2. unfold bind, act, ret.
    destruct (i mod 8 =? 0)%nat; intros [= _ <-]; exists k;
      (split; [lia|]); split.
    - change (served w1 = served w + k). by rewrite Hserved.
    - by rewrite sleep_slept, print_slept, Hslept, <- app_assoc.
    - change (served w1 = served w + k). by rewrite Hserved.
    - by rewrite print_slept, Hslept, app_nil_r. }
  destruct (IMF.has_data result) as [[|]|]; [| |done].
  - destruct (len result) as [len|]; [|done]. apply Hend.
  - destruct (is_none result); cbn [negb]; apply Hend.
Qed.

Lemma wb_turn_load (n i : nat) (ind : WB.indicator) (t t' : WB.tally) (w w' : world) :
  WB.loop_body n i ind t w = (Ok t', w') →
  one_fetch w w' [if (i mod 15 =? 0)%nat then 1.0%Q else 0.15%Q].
Proof.
  unfold WB.loop_body, bind, act, pure, ret.
  set (w0 := print_end _ _ w).
  pose proof (wb_fetch_world (WB.ind_id ind) w0) as Hworld.
  destruct (wb_loop_effort 3 (wb_request (wb_url (WB.ind_id ind))) 3 0 w0 eq_refl)
    as (k & Hk & Hpos & Hserved & Hslept & _).
  change (WB.get_json_from (wb_request (wb_url (WB.ind_id ind))) 3 0 3 w0)
    with (WB.get_json (wb_url (WB.ind_id ind)) None 3 w0) in Hserved, Hslept.
  rewrite <- Hworld in Hserved, Hslept.
  destruct (WB.fetch_indicator_data (WB.ind_id ind) w0) as [[result|e] w1]; [|done].
  cbn [snd] in Hserved, Hslept. unfold w0 in Hslept. rewrite print_end_slept in Hslept.
  destruct result as [|kv result]; intros [= _ <-]; exists k;
    (split; [lia|]); split;
    try (change (served w1 = served w + k); by rewrite Hserved);
    by rewrite sleep_slept, print_slept, Hslept, <- app_assoc.
Qed.

Lemma backoff_is_no_pause (k : nat) :
  k ≤ 3 →
  filter (λ s, Qeq_bool s 1.5%Q = true) (backoff <$> seq 0 (k - 1)) = [] ∧
  filter (λ s, Qeq_bool s 0.15%Q = true) (backoff <$> seq 0 (k - 1)) = [].
Proof. destruct k as [|[|[|[|k]]]]; [done..|lia]. Qed.

Lemma div_succ_8 (d : nat) : S d / 8 = d / 8 + (if (S d mod 8 =? 0)%nat then 1 else 0).
Proof.
  pose proof (Nat.div_mod_eq d 8). pose proof (Nat.div_mod_eq (S d) 8).
  pose proof (Nat.mod_upper_bound d 8). pose proof (Nat.mod_upper_bound (S d) 8).
  destruct (Nat.eqb_spec (S d mod 8) 0); lia.
Qed.

Lemma div_succ_15 (d : nat) : S d / 15 = d / 15 + (if (S d mod 15 =? 0)%nat then 1 else 0).
Proof.
  pose proof (Nat.div_mod_eq d 15). pose proof (Nat.div_mod_eq (S d) 15).
  pose proof (Nat.mod_upper_bound d 15). pose proof (Nat.mod_upper_bound (S d) 15).
  destruct (Nat.eqb_spec (S d mod 15) 0); lia.
Qed.

(** X16. An IMF download loop that ends normally has sent, for [n]
    indicators, at least [n] and at most [3 n] requests, and has paused
    for 1.5 s once for every eight indicators: [n / 8] times. *)
Theorem X16_imf_download_load (indicators : list (string * string))
    (w w' : world) (t : IMF.tally) :
  IMF.download_all indicators w = (Ok t, w') →
  served w + length indicators ≤ served w' ∧
  served w' ≤ served w + 3 * length indicators ∧
  pauses_of 1.5%Q w' = pauses_of 1.5%Q w + length indicators / 8.
Proof.
  unfold IMF.download_all, bind, act, ret.
  destruct (for_enumerate _ 1 _ _ w) as [[t1|e] w1] eqn:Hloop; [|done].
  intros [= _ <-].
  apply (for_enumerate_world _
           (λ d w1, served w + d ≤ served w1 ∧ served w1 ≤ served w + 3 * d ∧
                    pauses_of 1.5%Q w1 = pauses_of 1.5%Q w + d / 8) 1)
    with (d := 0) in Hloop.
  - rewrite (Permutation_length (sorted_perm snd indicators)) in Hloop.
    cbn [Nat.add] in Hloop.
    unfold pauses_of in *. rewrite print_slept. exact Hloop.
  - intros d x s w2 s' w3 (Hlow & Hhigh & Hpauses) Hturn.
    apply imf_turn_load in Hturn as (k & Hk & Hserved & Hslept).
    split; [lia|]. split; [lia|]. unfold pauses_of in *.
    rewrite Hslept, !filter_app, !length_app, Hpauses.
    destruct (backoff_is_no_pause k) as [-> _]; [lia|].
    rewrite div_succ_8. cbn [Nat.add length].
    destruct (S d mod 8 =? 0)%nat.
    + rewrite filter_cons_True by done. rewrite filter_nil. cbn [length]. lia.
    + rewrite filter_nil. cbn [length]. lia.
  - simpl. repeat split; lia.
Qed.

Lemma X16_witness :
  ∃ t w',
    IMF.download_all [("NGDP_RPCH", "Real GDP growth"); ("LUR", "Unemployment rate")]
      (start (fails_then 1 imf_body_with_null)) = (Ok t, w') ∧
    2 ≤ served w' ∧ served w' ≤ 6 ∧ pauses_of 1.5%Q w' = 0.
Proof.
  destruct (IMF.download_all
              [("NGDP_RPCH", "Real GDP growth"); ("LUR", "Unemployment rate")]
              (start (fails_then 1 imf_body_with_null))) as [[t|e] w'] eqn:Hrun.
  - exists t, w'. split; [reflexivity|].
    exact (X16_imf_download_load _ _ _ _ Hrun).
  - vm_compute in Hrun. discriminate Hrun.
Defined.

(** X17. A World Bank download loop that ends normally has sent, for
    [n] indicators, at least [n] and at most [3 n] requests, and has
    paused after every indicator: for 0.15 s after all but every
    fifteenth, that is [n - n / 15] times. *)
Theorem X17_wb_download_load (all_indicators : list WB.indicator)
    (w w' : world) (t : WB.tally) :
  WB.download_all all_indicators w = (Ok t, w') →
  served w + length all_indicators ≤ served w' ∧
  served w' ≤ served w + 3 * length all_indicators ∧
  pauses_of 0.15%Q w' + length all_indicators / 15
  = pauses_of 0.15%Q w + length all_indicators ∧
  length (slept w) + length all_indicators ≤ length (slept w').
Proof.
  unfold WB.download_all, bind, act, ret.
  destruct (for_enumerate _ 1 _ _ w) as [[t1|e] w1] eqn:Hloop; [|done].
  intros [= _ <-].
  apply (for_enumerate_world _
           (λ d w1, served w + d ≤ served w1 ∧ served w1 ≤ served w + 3 * d ∧
                    pauses_of 0.15%Q w1 + d / 15 = pauses_of 0.15%Q w + d ∧
                    length (slept w) + d ≤ length (slept w1)) 1)
    with (d := 0) in Hloop.
  - cbn [Nat.add] in Hloop. unfold pauses_of in *. rewrite print_slept. exact Hloop.
  - intros d x s w2 s' w3 (Hlow & Hhigh & Hpauses & Hsleeps) Hturn.
    apply wb_turn_load in Hturn as (k & Hk & Hserved & Hslept).
    split; [lia|]. split; [lia|]. unfold pauses_of in *.
    rewrite Hslept, !filter_app, !length_app.
    destruct (backoff_is_no_pause k) as [_ ->]; [lia|].
    pose proof (div_succ_15 d) as Hdiv. change (1 + d) with (S d).
    destruct (S d mod 15 =? 0)%nat.
    + rewrite filter_cons_False by done. rewrite filter_nil. cbn [length].
      repeat split; lia.
    + rewrite filter_cons_True by done. rewrite filter_nil. cbn [length].
      repeat split; lia.
  - simpl. repeat split; lia.
Qed.

Lemma X17_witness :
  ∃ t w',
    WB.download_all [WB.Indicator "NY.GDP.MKTP.CD" (Some "GDP (current US$)") None []]
      (start (serves (JArr [JObj {[ "page" := JNum 1 ]};
                            JArr [JObj {[ "date" := JStr "2001"; "value" := JNum 24.5 ]}]])))
    = (Ok t, w') ∧
    1 ≤ served w' ∧ served w' ≤ 3 ∧ pauses_of 0.15%Q w' = 1.
Proof.
  destruct (WB.download_all
              [WB.Indicator "NY.GDP.MKTP.CD" (Some "GDP (current US$)") None []]
              (start (serves (JArr [JObj {[ "page" := JNum 1 ]};
                 JArr [JObj {[ "date" := JStr "2001"; "value" := JNum 24.5 ]}]]))))
    as [[t|e] w'] eqn:Hrun.
  - exists t, w'. split; [reflexivity|].
    destruct (X17_wb_download_load _ _ _ _ Hrun) as (Hlow & Hhigh & Hpauses & _).
    split; [exact Hlow|]. split; [exact Hhigh|].
    change (pauses_of 0.15%Q w' + 0 = 1) in Hpauses. lia.
  - vm_compute in Hrun. discriminate Hrun.
Defined.
